(** * Task manager: REST service and client mirror

  A shallow embedding of the task manager's service routes
  ([app.get('/api/tasks')], [app.post('/api/tasks')],
  [app.put('/api/tasks/:id')], [app.delete('/api/tasks/:id')],
  [app.get('/api/tasks/stats')]) and of the client's request functions
  ([fetchTasks], [fetchStats], [createTask], [updateTask], [deleteTask]).

  Modelling conventions.
  - A JavaScript string is a [string] of code units below 256; letters
    are [A-Z]/[a-z], white space is what [String.prototype.trim] strips
    among these code units.
  - [Date.now()] is an integer number of milliseconds ([Z]); every route
    that reads the clock receives the value read as an argument.
  - The collection is the list of stored documents in insertion order.
  - A request field is [option]al: [None] is JavaScript's [undefined].
  - The routes are given twice. [Server] has them on requests whose
    fields carry the types the schema declares ([String], [Boolean])
    and whose identifiers name documents the store can hold. [Api] has
    them on any request: any JSON value in a field of the body, any
    string as [:id], with the [catch] branches and what the store makes
    of values of another type; [TypedRequests] shows that create, update,
    delete and statistics agree on the requests of the first kind. *)

From Stdlib Require Import List String Ascii Bool ZArith Arith Lia.
From Stdlib Require Import Permutation Sorted.
Import ListNotations.

(** ** JavaScript strings *)

Module JsString.

(** White space removed by [String.prototype.trim], among the code units
    below 256: TAB, LF, VT, FF, CR, SPACE and NO-BREAK SPACE (U+00A0). *)
Definition is_space (c : ascii) : bool :=
  match nat_of_ascii c with
  | 9 | 10 | 11 | 12 | 13 | 32 | 160 => true
  | _ => false
  end.

Fixpoint trimStart (s : string) : string :=
  match s with
  | EmptyString => EmptyString
  | String c s' => if is_space c then trimStart s' else s
  end.

Fixpoint trimEnd (s : string) : string :=
  match s with
  | EmptyString => EmptyString
  | String c s' =>
      match trimEnd s' with
      | EmptyString => if is_space c then EmptyString else String c EmptyString
      | r => String c r
      end
  end.

(** [s.trim()] *)
Definition trim (s : string) : string := trimEnd (trimStart s).

(** Truthiness of a string value: only the empty string is falsy. *)
Definition truthy (s : string) : bool :=
  match s with EmptyString => false | _ => true end.

Definition is_upper (c : ascii) : bool :=
  let n := nat_of_ascii c in (65 <=? n) && (n <=? 90).

(** ASCII case folding, as a caseless comparison does. *)
Definition to_lower (c : ascii) : ascii :=
  if is_upper c then ascii_of_nat (nat_of_ascii c + 32) else c.

Definition eq_ci (a b : ascii) : bool := Ascii.eqb (to_lower a) (to_lower b).

(** Literal, caseless substring test: the reading of [search] as plain
    text. [prefix_ci s t]: [s] is a caseless prefix of [t]. *)
Fixpoint prefix_ci (s t : list ascii) : bool :=
  match s, t with
  | [], _ => true
  | _ :: _, [] => false
  | a :: s', b :: t' => eq_ci a b && prefix_ci s' t'
  end.

Fixpoint infix_ci (s t : list ascii) : bool :=
  prefix_ci s t ||
  match t with
  | [] => false
  | _ :: t' => infix_ci s t'
  end.

Definition contains_ci (s t : string) : bool :=
  infix_ci (list_ascii_of_string s) (list_ascii_of_string t).

(** [s.toLowerCase()] *)
Fixpoint toLowerCase (s : string) : string :=
  match s with
  | EmptyString => EmptyString
  | String c s' => String (to_lower c) (toLowerCase s')
  end.

Fixpoint starts_with (sub s : list ascii) : bool :=
  match sub, s with
  | [], _ => true
  | _ :: _, [] => false
  | a :: sub', b :: s' => Ascii.eqb a b && starts_with sub' s'
  end.

Fixpoint includes_from (s sub : list ascii) : bool :=
  starts_with sub s ||
  match s with
  | [] => false
  | _ :: s' => includes_from s' sub
  end.

(** [s.includes(sub)] *)
Definition includes (s sub : string) : bool :=
  includes_from (list_ascii_of_string s) (list_ascii_of_string sub).

End JsString.

(** ** The store's [$regex] operator with [$options: 'i']

  The route hands the raw [search] string to the store as a regular
  expression. The fragment of the pattern language modelled here:
  ordinary characters, [.] (any character but a line feed), a backslash
  before a non-alphanumeric character (that character, literally), and
  the postfix quantifiers [*], [+], [?] on a single character or [.].
  A pattern the engine rejects is [Malformed]; a pattern that uses
  syntax beyond the fragment (groups, classes, alternation, anchors,
  braces, alphanumeric escapes, stacked quantifiers) is [Unmodelled]. *)

Module Regex.
Import JsString.

Inductive atom : Type :=
| Lit (c : ascii)
| Dot.

Inductive quant : Type := One | Opt | Star | Plus.

Definition piece : Type := (atom * quant)%type.

Inductive compiled : Type :=
| Compiled (ps : list piece)
| Malformed
| Unmodelled.

Definition is_alnum (c : ascii) : bool :=
  let n := nat_of_ascii c in
  ((48 <=? n) && (n <=? 57)) || ((65 <=? n) && (n <=? 90))
  || ((97 <=? n) && (n <=? 122)).

(** The characters with a special meaning in a pattern:
    [\ ^ $ . | ? * + ( ) [ ] { }]. *)
Definition is_meta (c : ascii) : bool :=
  match nat_of_ascii c with
  | 92 | 94 | 36 | 46 | 124 | 63 | 42 | 43 | 40 | 41 | 91 | 93 | 123 | 125 => true
  | _ => false
  end.

Definition quant_of (c : ascii) : option quant :=
  match nat_of_ascii c with
  | 42 => Some Star
  | 43 => Some Plus
  | 63 => Some Opt
  | _ => None
  end.

Definition cons_piece (p : piece) (r : compiled) : compiled :=
  match r with
  | Compiled ps => Compiled (p :: ps)
  | other => other
  end.

(** [after_atom a rest k]: an atom [a] has been read; take its
    quantifier, if one follows, and continue with [k] on what is left.
    A second quantifier character right after the first (lazy and
    possessive forms) is beyond the fragment. *)
Definition after_atom (a : atom) (rest : list ascii)
    (k : list ascii -> compiled) : compiled :=
  match rest with
  | q :: rest' =>
      match quant_of q with
      | Some qt =>
          match rest' with
          | q2 :: _ =>
              match quant_of q2 with
              | Some _ => Unmodelled
              | None => cons_piece (a, qt) (k rest')
              end
          | [] => Compiled [(a, qt)]
          end
      | None => cons_piece (a, One) (k rest)
      end
  | [] => Compiled [(a, One)]
  end.

(** Compilation, left to right: an atom, then its quantifier if any. *)
Fixpoint compile_list (p : list ascii) : compiled :=
  match p with
  | [] => Compiled []
  | c :: rest =>
      if Ascii.eqb c "\"%char then
        match rest with
        | [] => Malformed
        | e :: rest' =>
            if is_alnum e then Unmodelled
            else after_atom (Lit e) rest' compile_list
        end
      else if Ascii.eqb c "."%char then
        after_atom Dot rest compile_list
      else
        match quant_of c with
        | Some _ => Malformed
        | None =>
            if is_meta c then Unmodelled
            else after_atom (Lit c) rest compile_list
        end
  end.

Definition compile (p : string) : compiled :=
  compile_list (list_ascii_of_string p).

Definition atom_ok (a : atom) (c : ascii) : bool :=
  match a with
  | Lit l => eq_ci l c
  | Dot => negb (Ascii.eqb c (ascii_of_nat 10))
  end.

(** [match_star a k t]: zero or more characters accepted by [a], then [k]. *)
Fixpoint match_star (a : atom) (k : list ascii -> bool) (t : list ascii) : bool :=
  k t ||
  match t with
  | c :: t' => atom_ok a c && match_star a k t'
  | [] => false
  end.

(** [match_here ps t]: the pieces match a prefix of [t]. *)
Fixpoint match_here (ps : list piece) (t : list ascii) : bool :=
  match ps with
  | [] => true
  | (a, One) :: ps' =>
      match t with
      | c :: t' => atom_ok a c && match_here ps' t'
      | [] => false
      end
  | (a, Opt) :: ps' =>
      match_here ps' t ||
      match t with
      | c :: t' => atom_ok a c && match_here ps' t'
      | [] => false
      end
  | (a, Star) :: ps' => match_star a (match_here ps') t
  | (a, Plus) :: ps' =>
      match t with
      | c :: t' => atom_ok a c && match_star a (match_here ps') t'
      | [] => false
      end
  end.

(** An unanchored search: the pieces match at some offset of [t]. *)
Fixpoint search_from (ps : list piece) (t : list ascii) : bool :=
  match_here ps t ||
  match t with
  | [] => false
  | _ :: t' => search_from ps t'
  end.

Definition test_i (ps : list piece) (t : string) : bool :=
  search_from ps (list_ascii_of_string t).

End Regex.

(** ** The service *)

Module Server.
Import JsString.

(** A well-formed store identifier, in its string form. *)
Definition Id : Type := string.

(** A document of [taskSchema]. *)
Record Task : Type := {
  _id : Id;
  text : string;
  completed : bool;
  important : bool;
  createdAt : Z;
  updatedAt : Z
}.

(** The authoritative collection, in insertion order. *)
Definition Collection : Type := list Task.

(** What the store can throw at a route. *)
Inductive StoreError : Type :=
| InvalidRegex
| ValidationFailed.

(** [error.message] of a caught error, or a message of the route's own. *)
Inductive ErrorMessage : Type :=
| RouteMessage (m : string)
| StoreMessage (e : StoreError).

Module Stats.
Record t : Type := {
  total : nat;
  completed : nat;
  pending : nat;
  important : nat
}.
End Stats.

Inductive Body : Type :=
| TaskJson (t : Task)
| TasksJson (l : list Task)
| StatsJson (s : Stats.t)
| MessageJson (m : string)
| ErrorJson (e : ErrorMessage).

Record Response : Type := {
  status : nat;
  body : Body
}.

(** [res.json(b)] and [res.status(n).json(b)] *)
Definition json (b : Body) : Response := {| status := 200; body := b |}.
Definition status_json (n : nat) (b : Body) : Response :=
  {| status := n; body := b |}.

(** *** [Task.find(query).sort({ createdAt: -1 })] *)

(** The [query] object the route builds: an absent key constrains
    nothing. [q_text] is the pattern of [{ $regex: search, $options: 'i' }]. *)
Record Query : Type := {
  q_completed : option bool;
  q_important : option bool;
  q_text : option string
}.

Definition empty_query : Query :=
  {| q_completed := None; q_important := None; q_text := None |}.

Definition set_completed (b : bool) (q : Query) : Query :=
  {| q_completed := Some b; q_important := q_important q; q_text := q_text q |}.
Definition set_important (b : bool) (q : Query) : Query :=
  {| q_completed := q_completed q; q_important := Some b; q_text := q_text q |}.
Definition set_text (p : string) (q : Query) : Query :=
  {| q_completed := q_completed q; q_important := q_important q; q_text := Some p |}.

Definition field_ok (want : option bool) (have : bool) : bool :=
  match want with
  | None => true
  | Some b => Bool.eqb have b
  end.

Definition text_ok (ps : option (list Regex.piece)) (s : string) : bool :=
  match ps with
  | None => true
  | Some ps => Regex.test_i ps s
  end.

(** A document matches when every key of the query does. *)
Definition matches (qc qi : option bool) (ps : option (list Regex.piece))
    (t : Task) : bool :=
  field_ok qc (completed t) && field_ok qi (important t) && text_ok ps (text t).

Inductive Found : Type :=
| Docs (l : list Task)
| Threw (e : StoreError)
| OutOfModel.

(** The store's sort on [createdAt], descending. The route names no
    second key, so all that is known of the store's sort is that it
    permutes its input and leaves it in descending [createdAt] order. *)
Class StoreSort : Type := {
  sort_desc : list Task -> list Task;
  sort_desc_perm : forall l, Permutation l (sort_desc l);
  sort_desc_sorted :
    forall l, StronglySorted (fun a b => (createdAt b <= createdAt a)%Z) (sort_desc l)
}.

Definition find_sorted `{StoreSort} (q : Query) (db : Collection) : Found :=
  match q_text q with
  | None =>
      Docs (sort_desc (List.filter (matches (q_completed q) (q_important q) None) db))
  | Some p =>
      match Regex.compile p with
      | Regex.Compiled ps =>
          Docs (sort_desc
                  (List.filter (matches (q_completed q) (q_important q) (Some ps)) db))
      | Regex.Malformed => Threw InvalidRegex
      | Regex.Unmodelled => OutOfModel
      end
  end.

(** *** [app.get('/api/tasks')] *)

(** The [query] object after the two [if] statements. *)
Definition build_query (filter search : option string) : Query :=
  let query := empty_query in
  let query :=
    match filter with
    | Some f =>
        if String.eqb f "completed"%string then set_completed true query
        else if String.eqb f "pending"%string then set_completed false query
        else if String.eqb f "important"%string then set_important true query
        else query
    | None => query
    end in
  match search with
  | Some s => if truthy s then set_text s query else query
  | None => query
  end.

(** [None] only when [search] is a pattern beyond the modelled fragment. *)
Definition get_tasks `{StoreSort} (db : Collection)
    (filter search : option string) : option Response :=
  match find_sorted (build_query filter search) db with
  | Docs tasks => Some (json (TasksJson tasks))
  | Threw e => Some (status_json 500 (ErrorJson (StoreMessage e)))
  | OutOfModel => None
  end.

(** Two sorts that meet [StoreSort]'s contract: insertion sorts that
    place a document before, respectively after, the documents already
    placed that have the same [createdAt]. *)
Fixpoint insert_desc (strict : bool) (x : Task) (l : list Task) : list Task :=
  match l with
  | [] => [x]
  | y :: l' =>
      if (if strict then createdAt y <? createdAt x else createdAt y <=? createdAt x)%Z
      then x :: l
      else y :: insert_desc strict x l'
  end.

Definition insertion_sort_desc (strict : bool) (l : list Task) : list Task :=
  fold_right (insert_desc strict) [] l.

(** *** [app.post('/api/tasks')] *)

Record CreateBody : Type := {
  c_text : option string;
  c_important : option bool
}.

(** [oid] is the identifier generated for the new document, [t_new] the
    clock when the document is built ([createdAt]'s default) and [t_save]
    the clock in the [pre('save')] hook. The guard is
    [!text || text.trim() === '']; an [undefined] text is falsy. *)
Definition post_tasks (oid : Id) (t_new t_save : Z) (db : Collection)
    (req : CreateBody) : Collection * Response :=
  let important := match c_important req with Some b => b | None => false end in
  let required :=
    (db, status_json 400 (ErrorJson (RouteMessage "Task text is required"%string))) in
  match c_text req with
  | None => required
  | Some text =>
      if negb (truthy text) || String.eqb (trim text) EmptyString then required
      else
        let task := {| _id := oid;
                       text := trim text;
                       completed := false;
                       important := important;
                       createdAt := t_new;
                       updatedAt := t_save |} in
        (db ++ [task], status_json 201 (TaskJson task))
  end.

(** *** [app.put('/api/tasks/:id')] *)

Record UpdateBody : Type := {
  u_text : option string;
  u_completed : option bool;
  u_important : option bool
}.

(** The [updateData] object. *)
Record UpdateData : Type := {
  d_text : option string;
  d_completed : option bool;
  d_important : option bool;
  d_updatedAt : Z
}.

Definition apply_update (d : UpdateData) (t : Task) : Task :=
  {| _id := _id t;
     text := match d_text d with Some s => s | None => text t end;
     completed := match d_completed d with Some b => b | None => completed t end;
     important := match d_important d with Some b => b | None => important t end;
     createdAt := createdAt t;
     updatedAt := d_updatedAt d |}.

(** [runValidators: true]: the schema's validators run on the keys of the
    update; [text] is [required], which an empty string fails. (The
    schema's [trim: true] setter trims the text once more; trimming is
    idempotent, so the setter is left out here and in [post_tasks].) *)
Definition update_valid (d : UpdateData) : bool :=
  match d_text d with
  | Some s => truthy s
  | None => true
  end.

(** Replace the first document whose [_id] is [id]; with [new: true]
    the document after the update is returned, [None] ([null]) when no
    document has that [_id]. *)
Fixpoint update_first (id : Id) (d : UpdateData) (db : Collection)
    : Collection * option Task :=
  match db with
  | [] => ([], None)
  | t :: rest =>
      if String.eqb (_id t) id then
        (apply_update d t :: rest, Some (apply_update d t))
      else
        let (rest', r) := update_first id d rest in (t :: rest', r)
  end.

Inductive Outcome (A : Type) : Type :=
| Resolved (a : A)
| Rejected (e : StoreError).
Arguments Resolved {A} a.
Arguments Rejected {A} e.

(** [Task.findByIdAndUpdate(id, updateData, { new: true, runValidators: true })]:
    the update is validated before the collection is consulted. *)
Definition findByIdAndUpdate (id : Id) (d : UpdateData) (db : Collection)
    : Collection * Outcome (option Task) :=
  if update_valid d then
    let (db', r) := update_first id d db in (db', Resolved r)
  else (db, Rejected ValidationFailed).

Definition put_task (now : Z) (db : Collection) (id : Id) (req : UpdateBody)
    : Collection * Response :=
  let updateData :=
    {| d_text := option_map trim (u_text req);
       d_completed := u_completed req;
       d_important := u_important req;
       d_updatedAt := now |} in
  match findByIdAndUpdate id updateData db with
  | (db', Resolved None) =>
      (db', status_json 404 (ErrorJson (RouteMessage "Task not found"%string)))
  | (db', Resolved (Some task)) => (db', json (TaskJson task))
  | (db', Rejected e) => (db', status_json 400 (ErrorJson (StoreMessage e)))
  end.

(** *** [app.delete('/api/tasks/:id')] *)

(** [Task.findByIdAndDelete(id)]: remove the first document whose [_id]
    is [id] and return it, [None] ([null]) when there is none. *)
Fixpoint findByIdAndDelete (id : Id) (db : Collection) : Collection * option Task :=
  match db with
  | [] => ([], None)
  | t :: rest =>
      if String.eqb (_id t) id then (rest, Some t)
      else let (rest', r) := findByIdAndDelete id rest in (t :: rest', r)
  end.

Definition delete_task (db : Collection) (id : Id) : Collection * Response :=
  match findByIdAndDelete id db with
  | (db', None) => (db', status_json 404 (ErrorJson (RouteMessage "Task not found"%string)))
  | (db', Some _) => (db', json (MessageJson "Task deleted successfully"%string))
  end.

(** *** [app.get('/api/tasks/stats')] *)

(** [{ $sum: { $cond: [{ $eq: [field, value] }, 1, 0] } }] *)
Definition sum_cond_eq (field : Task -> bool) (value : bool) (db : Collection) : nat :=
  fold_left (fun acc t => acc + (if Bool.eqb (field t) value then 1 else 0)) db 0.

(** The [$group] stage with [_id: null]: one group over all documents,
    and no group at all when there is no document. *)
Definition aggregate_group (db : Collection) : list Stats.t :=
  match db with
  | [] => []
  | _ =>
      [ {| Stats.total := fold_left (fun acc _ => acc + 1) db 0;
           Stats.completed := sum_cond_eq completed true db;
           Stats.pending := sum_cond_eq completed false db;
           Stats.important := sum_cond_eq important true db |} ]
  end.

Definition get_stats (db : Collection) : Response :=
  let stats := aggregate_group db in
  let result :=
    match stats with
    | s :: _ => s
    | [] => {| Stats.total := 0; Stats.completed := 0;
               Stats.pending := 0; Stats.important := 0 |}
    end in
  json (StatsJson result).

End Server.

(** ** The service on any request

    The routes again, as they meet requests of any shape: a field of the
    body holds any JSON value, [:id] is any string, a stored flag may be
    [null], and what is thrown inside a [try] reaches its [catch]. *)

Module Api.
Import JsString.

(** A JSON value in a request body. [JOther] stands for an array, an
    object or a number that is not an integer. *)
Inductive Json : Type :=
| JNull
| JBool (b : bool)
| JNum (n : Z)
| JStr (s : string)
| JOther.

(** Truthiness of a field of the body ([None] is [undefined]). *)
Definition truthy_value (v : option Json) : bool :=
  match v with
  | None | Some JNull => false
  | Some (JBool b) => b
  | Some (JNum n) => negb (Z.eqb n 0)
  | Some (JStr s) => truthy s
  | Some JOther => true
  end.

(** The store's identifiers, in their canonical string form: 24
    hexadecimal digits, lower case. *)
Definition ObjectId : Type := string.

Definition is_hex (c : ascii) : bool :=
  let n := nat_of_ascii c in
  (Nat.leb 48 n && Nat.leb n 57) || (Nat.leb 65 n && Nat.leb n 70)
  || (Nat.leb 97 n && Nat.leb n 102).

(** The cast of [:id] to an identifier: a string of 24 hexadecimal digits
    names the identifier with these digits; any other string cannot be
    cast ([None]: the store throws). *)
Definition castObjectId (id : string) : option ObjectId :=
  let l := list_ascii_of_string id in
  if Nat.eqb (List.length l) 24 && forallb is_hex l
  then Some (toLowerCase id) else None.

(** The schema's cast of a value to [Boolean]: [true], ['true'], [1],
    ['1'], ['yes'] are true; [false], ['false'], [0], ['0'], ['no'] are
    false; [null] stays [null] ([Some None]); anything else cannot be
    cast ([None]: the store throws). *)
Definition castBoolean (v : Json) : option (option bool) :=
  match v with
  | JBool b => Some (Some b)
  | JNull => Some None
  | JNum n =>
      if Z.eqb n 1 then Some (Some true)
      else if Z.eqb n 0 then Some (Some false)
      else None
  | JStr s =>
      if String.eqb s "true" || String.eqb s "1" || String.eqb s "yes"
      then Some (Some true)
      else if String.eqb s "false" || String.eqb s "0" || String.eqb s "no"
      then Some (Some false)
      else None
  | JOther => None
  end.

(** A document of [taskSchema]; a flag is a boolean or [null] ([None]). *)
Record Doc : Type := {
  _id : ObjectId;
  text : string;
  completed : option bool;
  important : option bool;
  createdAt : Z;
  updatedAt : Z
}.

Definition Collection : Type := list Doc.

(** What is thrown inside a route's [try]: [text.trim] called on a value
    that has no such method, a value the store cannot cast, a document
    or an update the schema's validation refuses, a pattern the regular
    expression engine refuses. *)
Inductive Failure : Type :=
| TypeError
| CastError
| ValidationError
| RegexError.

Inductive ErrorMessage : Type :=
| RouteMessage (m : string)
| Caught (e : Failure).

Inductive Body : Type :=
| DocJson (d : Doc)
| DocsJson (l : list Doc)
| StatsJson (s : Server.Stats.t)
| MessageJson (m : string)
| ErrorJson (e : ErrorMessage).

Record Response : Type := {
  status : nat;
  body : Body
}.

Definition json (b : Body) : Response := {| status := 200; body := b |}.
Definition status_json (n : nat) (b : Body) : Response :=
  {| status := n; body := b |}.

(** *** The store: sort and regular expressions *)

(** The store's sort on [createdAt], descending, by its contract. *)
Class DocSort : Type := {
  sort_docs : list Doc -> list Doc;
  sort_docs_perm : forall l, Permutation l (sort_docs l);
  sort_docs_sorted :
    forall l, StronglySorted (fun a b => (createdAt b <= createdAt a)%Z) (sort_docs l)
}.

(** The store's sort as it runs: the documents are taken in the order of
    the collection and sorted by insertion, a document going before the
    first one already placed whose [createdAt] is not greater. *)
Fixpoint insert_doc (x : Doc) (l : list Doc) : list Doc :=
  match l with
  | [] => [x]
  | y :: l' =>
      if (createdAt y <=? createdAt x)%Z then x :: l
      else y :: insert_doc x l'
  end.

Definition sort_createdAt_desc (l : list Doc) : list Doc :=
  fold_right insert_doc [] l.

(** The store's regular expressions with [$options: 'i']: a pattern is
    refused ([None]: the store throws) or it is a test on texts. The
    routes are stated for any engine. *)
Class RegexEngine : Type := {
  regex_i : string -> option (string -> bool)
}.

(** An engine that knows the fragment of [Regex] and refuses the rest;
    it serves to evaluate the routes on examples. *)
Definition fragment_engine : RegexEngine := {|
  regex_i := fun p =>
    match Regex.compile p with
    | Regex.Compiled ps => Some (Regex.test_i ps)
    | _ => None
    end
|}.

(** *** [app.get('/api/tasks')] *)

(** A key of the query against a flag: [null] is neither [true] nor
    [false]. *)
Definition flag_ok (want : option bool) (have : option bool) : bool :=
  match want, have with
  | None, _ => true
  | Some b, Some h => Bool.eqb h b
  | Some _, None => false
  end.

Definition text_ok (test : option (string -> bool)) (s : string) : bool :=
  match test with
  | None => true
  | Some f => f s
  end.

Definition matches (q : Server.Query) (test : option (string -> bool))
    (d : Doc) : bool :=
  flag_ok (Server.q_completed q) (completed d)
  && flag_ok (Server.q_important q) (important d)
  && text_ok test (text d).

(** [Task.find(query).sort({ createdAt: -1 })] *)
Definition find_sorted `{DocSort} `{RegexEngine} (q : Server.Query)
    (db : Collection) : list Doc + Failure :=
  match Server.q_text q with
  | None => inl (sort_docs (List.filter (matches q None) db))
  | Some p =>
      match regex_i p with
      | Some test => inl (sort_docs (List.filter (matches q (Some test)) db))
      | None => inr RegexError
      end
  end.

(** The [query] object is built as in [Server.build_query]. *)
Definition get_tasks `{DocSort} `{RegexEngine} (db : Collection)
    (filter search : option string) : Response :=
  match find_sorted (Server.build_query filter search) db with
  | inl tasks => json (DocsJson tasks)
  | inr e => status_json 500 (ErrorJson (Caught e))
  end.

(** *** [app.post('/api/tasks')] *)

Record CreateBody : Type := {
  c_text : option Json;
  c_important : option Json
}.

(** [!text] lets through any truthy value; [text.trim()] then throws
    unless the value is a string; [save()] rejects when [important]
    cannot be cast. Each throw is caught and answered 400. *)
Definition post_tasks (oid : ObjectId) (t_new t_save : Z) (db : Collection)
    (req : CreateBody) : Collection * Response :=
  let important := match c_important req with Some v => v | None => JBool false end in
  let required :=
    (db, status_json 400 (ErrorJson (RouteMessage "Task text is required"%string))) in
  if negb (truthy_value (c_text req)) then required
  else
    match c_text req with
    | Some (JStr text) =>
        if String.eqb (trim text) EmptyString then required
        else
          match castBoolean important with
          | Some imp =>
              let task := {| _id := oid;
                             text := trim text;
                             completed := Some false;
                             important := imp;
                             createdAt := t_new;
                             updatedAt := t_save |} in
              (db ++ [task], status_json 201 (DocJson task))
          | None => (db, status_json 400 (ErrorJson (Caught ValidationError)))
          end
    | _ => (db, status_json 400 (ErrorJson (Caught TypeError)))
    end.

(** *** [app.put('/api/tasks/:id')] *)

Record UpdateBody : Type := {
  u_text : option Json;
  u_completed : option Json;
  u_important : option Json
}.

(** The [updateData] object, after the store has cast it. *)
Record UpdateData : Type := {
  d_text : option string;
  d_completed : option (option bool);
  d_important : option (option bool);
  d_updatedAt : Z
}.

Definition apply_update (d : UpdateData) (t : Doc) : Doc :=
  {| _id := _id t;
     text := match d_text d with Some s => s | None => text t end;
     completed := match d_completed d with Some b => b | None => completed t end;
     important := match d_important d with Some b => b | None => important t end;
     createdAt := createdAt t;
     updatedAt := d_updatedAt d |}.

Fixpoint update_first (oid : ObjectId) (d : UpdateData) (db : Collection)
    : Collection * option Doc :=
  match db with
  | [] => ([], None)
  | t :: rest =>
      if String.eqb (_id t) oid then
        (apply_update d t :: rest, Some (apply_update d t))
      else
        let (rest', r) := update_first oid d rest in (t :: rest', r)
  end.

(** The cast of an optional flag of the update. *)
Definition cast_flag (v : option Json) : option (option (option bool)) :=
  match v with
  | None => Some None
  | Some j =>
      match castBoolean j with
      | Some b => Some (Some b)
      | None => None
      end
  end.

(** [Task.findByIdAndUpdate(id, updateData, { new: true, runValidators: true })]:
    the id is cast, then the update, then the update is validated
    ([text] is [required]: an empty string fails), and only then is the
    collection searched. *)
Definition findByIdAndUpdate (id : string) (text : option string)
    (completed important : option Json) (now : Z) (db : Collection)
    : Collection * (option Doc + Failure) :=
  match castObjectId id with
  | None => (db, inr CastError)
  | Some oid =>
      match cast_flag completed, cast_flag important with
      | Some c, Some i =>
          if match text with Some s => truthy s | None => true end then
            let (db', r) :=
              update_first oid
                {| d_text := text; d_completed := c; d_important := i;
                   d_updatedAt := now |} db in
            (db', inl r)
          else (db, inr ValidationError)
      | _, _ => (db, inr CastError)
      end
  end.

(** [text.trim()] throws when [text] is given and is not a string. *)
Definition put_task (now : Z) (db : Collection) (id : string) (req : UpdateBody)
    : Collection * Response :=
  let call (text : option string) :=
    match findByIdAndUpdate id text (u_completed req) (u_important req) now db with
    | (db', inl None) =>
        (db', status_json 404 (ErrorJson (RouteMessage "Task not found"%string)))
    | (db', inl (Some task)) => (db', json (DocJson task))
    | (db', inr e) => (db', status_json 400 (ErrorJson (Caught e)))
    end in
  match u_text req with
  | None => call None
  | Some (JStr text) => call (Some (trim text))
  | Some _ => (db, status_json 400 (ErrorJson (Caught TypeError)))
  end.

(** *** [app.delete('/api/tasks/:id')] *)

Fixpoint remove_first (oid : ObjectId) (db : Collection) : Collection * option Doc :=
  match db with
  | [] => ([], None)
  | t :: rest =>
      if String.eqb (_id t) oid then (rest, Some t)
      else let (rest', r) := remove_first oid rest in (t :: rest', r)
  end.

(** [Task.findByIdAndDelete(id)] *)
Definition findByIdAndDelete (id : string) (db : Collection)
    : Collection * (option Doc + Failure) :=
  match castObjectId id with
  | None => (db, inr CastError)
  | Some oid => let (db', r) := remove_first oid db in (db', inl r)
  end.

Definition delete_task (db : Collection) (id : string) : Collection * Response :=
  match findByIdAndDelete id db with
  | (db', inl None) =>
      (db', status_json 404 (ErrorJson (RouteMessage "Task not found"%string)))
  | (db', inl (Some _)) =>
      (db', json (MessageJson "Task deleted successfully"%string))
  | (db', inr e) => (db', status_json 500 (ErrorJson (Caught e)))
  end.

(** *** [app.get('/api/tasks/stats')] *)

(** [{ $sum: { $cond: [{ $eq: [field, value] }, 1, 0] } }]; a [null]
    flag equals neither [true] nor [false]. *)
Definition sum_cond_eq (field : Doc -> option bool) (value : bool)
    (db : Collection) : nat :=
  fold_left
    (fun acc t =>
       acc + (match field t with
              | Some b => if Bool.eqb b value then 1 else 0
              | None => 0
              end)) db 0.

Definition aggregate_group (db : Collection) : list Server.Stats.t :=
  match db with
  | [] => []
  | _ =>
      [ {| Server.Stats.total := fold_left (fun acc _ => acc + 1) db 0;
           Server.Stats.completed := sum_cond_eq completed true db;
           Server.Stats.pending := sum_cond_eq completed false db;
           Server.Stats.important := sum_cond_eq important true db |} ]
  end.

Definition get_stats (db : Collection) : Response :=
  let stats := aggregate_group db in
  let result :=
    match stats with
    | s :: _ => s
    | [] => {| Server.Stats.total := 0; Server.Stats.completed := 0;
               Server.Stats.pending := 0; Server.Stats.important := 0 |}
    end in
  json (StatsJson result).

(** *** Requests of the declared types *)

(** A document of [Server] among the documents of the store. *)
Definition doc_of (t : Server.Task) : Doc :=
  {| _id := Server._id t; text := Server.text t;
     completed := Some (Server.completed t);
     important := Some (Server.important t);
     createdAt := Server.createdAt t; updatedAt := Server.updatedAt t |}.

Definition create_body_of (req : Server.CreateBody) : CreateBody :=
  {| c_text := option_map JStr (Server.c_text req);
     c_important := option_map JBool (Server.c_important req) |}.

Definition update_body_of (req : Server.UpdateBody) : UpdateBody :=
  {| u_text := option_map JStr (Server.u_text req);
     u_completed := option_map JBool (Server.u_completed req);
     u_important := option_map JBool (Server.u_important req) |}.

Definition message_of (e : Server.ErrorMessage) : ErrorMessage :=
  match e with
  | Server.RouteMessage m => RouteMessage m
  | Server.StoreMessage Server.InvalidRegex => Caught RegexError
  | Server.StoreMessage Server.ValidationFailed => Caught ValidationError
  end.

Definition response_of (r : Server.Response) : Response :=
  {| status := Server.status r;
     body := match Server.body r with
             | Server.TaskJson t => DocJson (doc_of t)
             | Server.TasksJson l => DocsJson (map doc_of l)
             | Server.StatsJson s => StatsJson s
             | Server.MessageJson m => MessageJson m
             | Server.ErrorJson e => ErrorJson (message_of e)
             end |}.

End Api.

(** ** The list as the stand-alone component filters it

  The component that keeps its tasks in local state computes
  [filteredTasks] itself, from the same [filter] and [searchTerm]. *)

Module LocalApp.
Import JsString.

Record Task : Type := {
  id : Z;
  text : string;
  completed : bool;
  important : bool
}.

Definition filteredTasks (tasks : list Task) (filter searchTerm : string)
    : list Task :=
  List.filter
    (fun task =>
       let matchesSearch :=
         includes (toLowerCase (text task)) (toLowerCase searchTerm) in
       if String.eqb filter "completed" then completed task && matchesSearch
       else if String.eqb filter "pending" then negb (completed task) && matchesSearch
       else if String.eqb filter "important" then important task && matchesSearch
       else matchesSearch)
    tasks.

(** The component's state ([useState] cells). *)
Record State : Type := {
  tasks : list Task;
  newTask : string;
  filter : string;
  searchTerm : string
}.

(** [useState] defaults, and the tasks the mount effect puts in place. *)
Definition savedTasks : list Task :=
  [ {| id := 1; text := "Learn React hooks"; completed := false; important := true |};
    {| id := 2; text := "Build a portfolio website"; completed := false;
       important := false |};
    {| id := 3; text := "Practice CSS Grid"; completed := true; important := false |};
    {| id := 4; text := "Set up VS Code properly"; completed := true;
       important := true |} ].

Definition mounted : State :=
  {| tasks := savedTasks; newTask := EmptyString; filter := "all";
     searchTerm := EmptyString |}.

Definition setTasks (f : list Task -> list Task) (st : State) : State :=
  {| tasks := f (tasks st); newTask := newTask st; filter := filter st;
     searchTerm := searchTerm st |}.
Definition setNewTask (s : string) (st : State) : State :=
  {| tasks := tasks st; newTask := s; filter := filter st;
     searchTerm := searchTerm st |}.
Definition setFilter (f : string) (st : State) : State :=
  {| tasks := tasks st; newTask := newTask st; filter := f;
     searchTerm := searchTerm st |}.
Definition setSearchTerm (s : string) (st : State) : State :=
  {| tasks := tasks st; newTask := newTask st; filter := filter st;
     searchTerm := s |}.

(** [addTask]; [now] is the value of [Date.now()] that becomes the id. *)
Definition addTask (now : Z) (st : State) : State :=
  if truthy (trim (newTask st)) then
    let task := {| id := now;
                   text := trim (newTask st);
                   completed := false;
                   important := false |} in
    setNewTask EmptyString (setTasks (fun prev => prev ++ [task]) st)
  else st.

(** [handleKeyPress], on the key's name. *)
Definition handleKeyPress (key : string) (now : Z) (st : State) : State :=
  if String.eqb key "Enter" then addTask now st else st.

(** [toggleTask] *)
Definition toggleTask (i : Z) (st : State) : State :=
  setTasks
    (fun prev =>
       map (fun task =>
              if Z.eqb (id task) i
              then {| id := id task; text := text task;
                      completed := negb (completed task);
                      important := important task |}
              else task) prev)
    st.

(** [toggleImportant] *)
Definition toggleImportant (i : Z) (st : State) : State :=
  setTasks
    (fun prev =>
       map (fun task =>
              if Z.eqb (id task) i
              then {| id := id task; text := text task;
                      completed := completed task;
                      important := negb (important task) |}
              else task) prev)
    st.

(** [deleteTask] *)
Definition deleteTask (i : Z) (st : State) : State :=
  setTasks (fun prev => List.filter (fun task => negb (Z.eqb (id task) i)) prev) st.

(** [taskStats] *)
Definition taskStats (st : State) : Server.Stats.t :=
  {| Server.Stats.total := List.length (tasks st);
     Server.Stats.completed := List.length (List.filter (fun t => completed t) (tasks st));
     Server.Stats.pending :=
       List.length (List.filter (fun t => negb (completed t)) (tasks st));
     Server.Stats.important :=
       List.length (List.filter (fun t => important t) (tasks st)) |}.

(** What the user can do to the component. *)
Inductive Action : Type :=
| Type_newTask (s : string)
| Type_search (s : string)
| Pick_filter (f : string)
| Click_add (now : Z)
| Press_key (key : string) (now : Z)
| Click_toggle (i : Z)
| Click_star (i : Z)
| Click_delete (i : Z).

Definition step (a : Action) (st : State) : State :=
  match a with
  | Type_newTask s => setNewTask s st
  | Type_search s => setSearchTerm s st
  | Pick_filter f => setFilter f st
  | Click_add now => addTask now st
  | Press_key key now => handleKeyPress key now st
  | Click_toggle i => toggleTask i st
  | Click_star i => toggleImportant i st
  | Click_delete i => deleteTask i st
  end.

Definition run (l : list Action) (st : State) : State :=
  fold_left (fun st a => step a st) l st.

(** The list on screen. *)
Definition shown (st : State) : list Task :=
  filteredTasks (tasks st) (filter st) (searchTerm st).

End LocalApp.

(** ** The client *)

Module Client.
Import JsString.
Import Server.

(** The component's state ([useState] cells). *)
Record State : Type := {
  tasks : list Task;
  newTask : string;
  filter : string;
  searchTerm : string;
  loading : bool;
  error : option string;
  stats : Stats.t
}.

Definition setTasks (f : list Task -> list Task) (st : State) : State :=
  {| tasks := f (tasks st); newTask := newTask st; filter := filter st;
     searchTerm := searchTerm st; loading := loading st; error := error st;
     stats := stats st |}.
Definition setLoading (b : bool) (st : State) : State :=
  {| tasks := tasks st; newTask := newTask st; filter := filter st;
     searchTerm := searchTerm st; loading := b; error := error st;
     stats := stats st |}.
Definition setError (e : option string) (st : State) : State :=
  {| tasks := tasks st; newTask := newTask st; filter := filter st;
     searchTerm := searchTerm st; loading := loading st; error := e;
     stats := stats st |}.
Definition setStats (s : Stats.t) (st : State) : State :=
  {| tasks := tasks st; newTask := newTask st; filter := filter st;
     searchTerm := searchTerm st; loading := loading st; error := error st;
     stats := s |}.

(** The requests the client sends. *)
Inductive Request : Type :=
| GET_tasks (filter search : option string)
| GET_stats
| POST_tasks (req : CreateBody)
| PUT_task (id : Id) (updates : UpdateBody)
| DELETE_task (id : Id).

(** How an awaited [fetch] ends, seen from the [try] block:
    [fetch] rejects; the response is not [ok]; or the response is [ok]
    and [response.json()] yields [data] ([None] when it rejects). *)
Inductive Reply (A : Type) : Type :=
| NetworkError
| NotOk
| Ok (data : option A).
Arguments NetworkError {A}.
Arguments NotOk {A}.
Arguments Ok {A} data.

Definition failed {A : Type} (r : Reply A) : bool :=
  match r with
  | NetworkError | NotOk => true
  | Ok _ => false
  end.

(** Each request function is split at its [await fetch(...)]: the part
    that runs when it is called, and the part that runs when the fetch
    settles, on the state of that moment. The second part also lists
    the requests it sends in turn. *)

(** [fetchTasks] *)
Definition fetchTasks_call (st : State) : State * Request :=
  let st := setLoading true st in
  let f := if String.eqb (filter st) "all"%string then None else Some (filter st) in
  let s := if truthy (searchTerm st) then Some (searchTerm st) else None in
  (st, GET_tasks f s).

Definition fetchTasks_settle (r : Reply (list Task)) (st : State)
    : State * list Request :=
  let st :=
    match r with
    | Ok (Some data) => setError None (setTasks (fun _ => data) st)
    | _ => setError (Some "Failed to load tasks. Please try again."%string) st
    end in
  (setLoading false st, []).

(** [fetchStats] *)
Definition fetchStats_call (st : State) : State * Request := (st, GET_stats).

Definition fetchStats_settle (r : Reply Stats.t) (st : State)
    : State * list Request :=
  match r with
  | Ok (Some data) => (setStats data st, [])
  | _ => (st, [])
  end.

(** [createTask] *)
Definition createTask_call (taskText : string) (st : State) : State * Request :=
  (st, POST_tasks {| c_text := Some taskText; c_important := None |}).

Definition createTask_settle (r : Reply Task) (st : State)
    : State * list Request :=
  match r with
  | Ok (Some newTask) => (setTasks (fun prev => newTask :: prev) st, [GET_stats])
  | _ => (setError (Some "Failed to create task. Please try again."%string) st, [])
  end.

(** [updateTask] *)
Definition updateTask_call (id : Id) (updates : UpdateBody) (st : State)
    : State * Request :=
  (st, PUT_task id updates).

Definition updateTask_settle (id : Id) (r : Reply Task) (st : State)
    : State * list Request :=
  match r with
  | Ok (Some updatedTask) =>
      (setTasks
         (fun prev =>
            map (fun task => if String.eqb (_id task) id then updatedTask else task) prev)
         st,
       [GET_stats])
  | _ => (setError (Some "Failed to update task. Please try again."%string) st, [])
  end.

(** [deleteTask]: the body of an [ok] response is not read. *)
Definition deleteTask_call (id : Id) (st : State) : State * Request :=
  (st, DELETE_task id).

Definition deleteTask_settle (id : Id) (r : Reply unit) (st : State)
    : State * list Request :=
  match r with
  | Ok _ =>
      (setTasks (fun prev => List.filter (fun task => negb (String.eqb (_id task) id)) prev) st,
       [GET_stats])
  | _ => (setError (Some "Failed to delete task. Please try again."%string) st, [])
  end.

Definition setNewTask (s : string) (st : State) : State :=
  {| tasks := tasks st; newTask := s; filter := filter st;
     searchTerm := searchTerm st; loading := loading st; error := error st;
     stats := stats st |}.
Definition setFilter (f : string) (st : State) : State :=
  {| tasks := tasks st; newTask := newTask st; filter := f;
     searchTerm := searchTerm st; loading := loading st; error := error st;
     stats := stats st |}.
Definition setSearchTerm (s : string) (st : State) : State :=
  {| tasks := tasks st; newTask := newTask st; filter := filter st;
     searchTerm := s; loading := loading st; error := error st;
     stats := stats st |}.

(** [useState] defaults. *)
Definition initial : State :=
  {| tasks := []; newTask := EmptyString; filter := "all";
     searchTerm := EmptyString; loading := true; error := None;
     stats := {| Stats.total := 0; Stats.completed := 0;
                 Stats.pending := 0; Stats.important := 0 |} |}.

(** [addTask]: nothing happens on a blank compose text; otherwise
    [createTask] is called with the trimmed text, and when it has
    settled, whichever way ([createTask] catches its own errors), the
    compose text is emptied. *)
Definition addTask_call (st : State) : State * option Request :=
  if truthy (trim (newTask st)) then
    let (st', r) := createTask_call (trim (newTask st)) st in (st', Some r)
  else (st, None).

Definition addTask_settle (r : Reply Task) (st : State) : State * list Request :=
  let (st', sent) := createTask_settle r st in
  (setNewTask EmptyString st', sent).

(** [handleKeyPress], on the key's name. *)
Definition handleKeyPress (key : string) (st : State) : State * option Request :=
  if String.eqb key "Enter" then addTask_call st else (st, None).

(** [toggleTask]: the update is computed from the mirrored record. *)
Definition toggleTask (id : Id) (st : State) : State * option Request :=
  match List.find (fun t => String.eqb (_id t) id) (tasks st) with
  | Some task =>
      let (st', r) :=
        updateTask_call id
          {| u_text := None; u_completed := Some (negb (completed task));
             u_important := None |} st in
      (st', Some r)
  | None => (st, None)
  end.

(** [toggleImportant] *)
Definition toggleImportant (id : Id) (st : State) : State * option Request :=
  match List.find (fun t => String.eqb (_id t) id) (tasks st) with
  | Some task =>
      let (st', r) :=
        updateTask_call id
          {| u_text := None; u_completed := None;
             u_important := Some (negb (important task)) |} st in
      (st', Some r)
  | None => (st, None)
  end.

(** [handleDeleteTask] *)
Definition handleDeleteTask (id : Id) (st : State) : State * Request :=
  deleteTask_call id st.

(** [refreshTasks], and the two mount effects: both requests go out. *)
Definition refreshTasks (st : State) : State * list Request :=
  let (st1, r1) := fetchTasks_call st in
  let (st2, r2) := fetchStats_call st1 in
  (st2, [r1; r2]).

(** The filter buttons and the search box: the state cell is set, and
    when its value has changed the effect on [[filter, searchTerm]]
    calls [fetchTasks]. *)
Definition pickFilter (f : string) (st : State) : State * list Request :=
  if String.eqb f (filter st) then (st, [])
  else let (st', r) := fetchTasks_call (setFilter f st) in (st', [r]).

Definition typeSearch (s : string) (st : State) : State * list Request :=
  if String.eqb s (searchTerm st) then (st, [])
  else let (st', r) := fetchTasks_call (setSearchTerm s st) in (st', [r]).

(** [disabled] of the Add button. *)
Definition addDisabled (st : State) : bool :=
  loading st || negb (truthy (trim (newTask st))).

End Client.

(** ** Sample data *)

Module Sample.
Import Server.

Definition mk (id txt : string) (c i : bool) (created updated : Z) : Task :=
  {| _id := id; text := txt; completed := c; important := i;
     createdAt := created; updatedAt := updated |}.

Definition abc : Task := mk "65f0a1" "abc" false false 1000 1000.
Definition alpha : Task := mk "65f0a2" "Alpha" false true 2000 2000.
Definition beta : Task := mk "65f0a3" "beta" true false 3000 3000.
Definition foo : Task := mk "65f0a4" "Buy Foo bars" false false 4000 4000.
(** [abc] as the stand-alone component holds it. *)
Definition local_abc : LocalApp.Task :=
  {| LocalApp.id := 1000; LocalApp.text := "abc";
     LocalApp.completed := false; LocalApp.important := false |}.

(** Two documents created within the same millisecond. *)
Definition first : Task := mk "65f0b1" "first" false false 5000 5000.
Definition second : Task := mk "65f0b2" "second" true false 5000 5000.

(** [beta] after [PUT] of [{ completed: false }] at time 9000. *)
Definition beta_reopened : Task := mk "65f0a3" "beta" false false 3000 9000.

(** A client showing two records, with nothing pending. *)
Definition showing : Client.State :=
  {| Client.tasks := [beta; alpha];
     Client.newTask := EmptyString;
     Client.filter := "all";
     Client.searchTerm := EmptyString;
     Client.loading := false;
     Client.error := None;
     Client.stats := {| Stats.total := 2; Stats.completed := 1;
                        Stats.pending := 1; Stats.important := 1 |} |}.

(** The client with a compose text typed in. *)
Definition composing : Client.State :=
  Client.setNewTask "  call Bob " showing.

(** [alpha] as the service stores it after the client's star is clicked. *)
Definition alpha_unstarred : Task := mk "65f0a2" "Alpha" false false 2000 9000.

(** The stand-alone component with a compose text typed in. *)
Definition local_composing : LocalApp.State :=
  LocalApp.setNewTask "  call Bob " LocalApp.mounted.

End Sample.

(** ** The vocabulary of the properties *)

Module Reading.
Import JsString Server Client.

(** A pattern without special characters. *)
Definition plain (s : string) : bool :=
  forallb (fun c => negb (Regex.is_meta c)) (list_ascii_of_string s).

(** [a] may come before [b] in a list sorted on [createdAt], descending. *)
Definition desc (a b : Task) : Prop := (createdAt b <= createdAt a)%Z.

(** The records a [filter] value stands for: [completed], [pending] and
    [important] constrain one field, anything else constrains nothing. *)
Definition selects (filter : option string) (t : Task) : bool :=
  match filter with
  | Some f =>
      if String.eqb f "completed" then completed t
      else if String.eqb f "pending" then negb (completed t)
      else if String.eqb f "important" then important t
      else true
  | None => true
  end.

(** The documents of a response that lists documents. *)
Definition listed (r : option Response) : option (list Task) :=
  match r with
  | Some {| status := 200; body := TasksJson l |} => Some l
  | _ => None
  end.

(** A [filter] value that is absent or none of the three the route knows. *)
Definition unrecognised (filter : option string) : Prop :=
  match filter with
  | Some f => f <> "completed"%string /\ f <> "pending"%string /\ f <> "important"%string
  | None => True
  end.

(** What the store makes of [search]; it does not depend on [filter]. *)
Inductive verdict : Type :=
| Pattern (ps : option (list Regex.piece))
| Bad
| Beyond.

Definition verdict_of (search : option string) : verdict :=
  match search with
  | Some s =>
      if truthy s then
        match Regex.compile s with
        | Regex.Compiled ps => Pattern (Some ps)
        | Regex.Malformed => Bad
        | Regex.Unmodelled => Beyond
        end
      else Pattern None
  | None => Pattern None
  end.

(** A direct recount of the collection. *)
Definition recount (db : Collection) : Stats.t :=
  {| Stats.total := List.length db;
     Stats.completed := List.length (List.filter completed db);
     Stats.pending := List.length (List.filter (fun t => negb (completed t)) db);
     Stats.important := List.length (List.filter important db) |}.

(** The text is absent or trims to the empty string. *)
Definition blank (text : option string) : Prop :=
  match text with
  | None => True
  | Some s => trim s = EmptyString
  end.

(** No document of the collection has this identifier. *)
Definition unknown (id : Id) (db : Collection) : Prop :=
  forall t, In t db -> _id t <> id.

(** The update gives a text that trims to the empty string. *)
Definition blank_update (req : UpdateBody) : bool :=
  match u_text req with
  | Some s => negb (truthy (trim s))
  | None => false
  end.

(** The mirror after an update of [updatedTask] is reconciled: the
    records with its id give way to it, the others stay. *)
Definition replaced (updatedTask : Task) (t : Task) : Task :=
  if String.eqb (_id t) (_id updatedTask) then updatedTask else t.

End Reading.

(** ** Conditions on the collection and on the two task lists *)

Module Conditions.
Import JsString Server.

(** A text as the routes store it: trimmed and not empty. *)
Definition tidy (s : string) : Prop := trim s = s /\ s <> EmptyString.

(** A record whose [updatedAt] is not before its [createdAt]. *)
Definition stamped (t : Task) : Prop := (createdAt t <= updatedAt t)%Z.

(** A stored record and a task of the stand-alone component with the
    same text and flags. *)
Definition same_content (a : Task) (b : LocalApp.Task) : Prop :=
  text a = LocalApp.text b
  /\ completed a = LocalApp.completed b
  /\ important a = LocalApp.important b.

(** The counts of a collection with one more record [t]. *)
Definition count_in (t : Task) (s : Stats.t) : Stats.t :=
  {| Stats.total := S (Stats.total s);
     Stats.completed := (if completed t then 1 else 0) + Stats.completed s;
     Stats.pending := (if completed t then 0 else 1) + Stats.pending s;
     Stats.important := (if important t then 1 else 0) + Stats.important s |}.

(** The [updateData] object that [PUT] builds from a payload. *)
Definition update_data (now : Z) (req : UpdateBody) : UpdateData :=
  {| d_text := option_map trim (u_text req);
     d_completed := u_completed req;
     d_important := u_important req;
     d_updatedAt := now |}.

(** The record [POST] stores for a text [s]. *)
Definition created (oid : Id) (t_new t_save : Z) (s : string)
    (imp : option bool) : Task :=
  {| _id := oid;
     text := trim s;
     completed := false;
     important := match imp with Some b => b | None => false end;
     createdAt := t_new;
     updatedAt := t_save |}.

End Conditions.

(** ** The vocabulary of the properties of [Api] *)

Module ApiReading.
Import JsString Api.

(** The documents of a response that lists documents. *)
Definition listed (r : Response) : option (list Doc) :=
  match r with
  | {| status := 200; body := DocsJson l |} => Some l
  | _ => None
  end.

(** The records a [filter] value stands for. *)
Definition selects (filter : option string) (d : Doc) : bool :=
  match filter with
  | Some f =>
      if String.eqb f "completed" then
        match completed d with Some true => true | _ => false end
      else if String.eqb f "pending" then
        match completed d with Some false => true | _ => false end
      else if String.eqb f "important" then
        match important d with Some true => true | _ => false end
      else true
  | None => true
  end.

Definition is_true (o : option bool) : bool :=
  match o with Some true => true | _ => false end.
Definition is_false (o : option bool) : bool :=
  match o with Some false => true | _ => false end.

(** A direct recount of the collection. *)
Definition recount (db : Collection) : Server.Stats.t :=
  {| Server.Stats.total := List.length db;
     Server.Stats.completed := List.length (List.filter (fun d => is_true (completed d)) db);
     Server.Stats.pending := List.length (List.filter (fun d => is_false (completed d)) db);
     Server.Stats.important :=
       List.length (List.filter (fun d => is_true (important d)) db) |}.


(** No document of the collection has this identifier. *)
Definition unknown (oid : ObjectId) (db : Collection) : Prop :=
  forall t, In t db -> _id t <> oid.

(** The text of a create request, when it is a string that does not
    trim to the empty string. *)
Definition text_given (req : CreateBody) : option string :=
  match c_text req with
  | Some (JStr s) => if String.eqb (trim s) EmptyString then None else Some s
  | _ => None
  end.

(** The importance of a create request as the schema casts it: false
    when absent, nothing when the value cannot be cast. *)
Definition important_given (req : CreateBody) : option (option bool) :=
  match c_important req with
  | None => Some (Some false)
  | Some v => castBoolean v
  end.

(** An update that nothing refuses before the collection is searched:
    its text, if any, is a string that does not trim to the empty
    string, and its flags, if any, can be cast. *)
Definition update_ok (req : UpdateBody) : bool :=
  match u_text req with
  | None => true
  | Some (JStr s) => truthy (trim s)
  | Some _ => false
  end
  && match cast_flag (u_completed req) with Some _ => true | None => false end
  && match cast_flag (u_important req) with Some _ => true | None => false end.

(** What the store makes of [search]: no test when it is absent or
    empty, the engine's test, or a refusal ([None]). *)
Definition search_test `{RegexEngine} (search : option string)
    : option (option (string -> bool)) :=
  match search with
  | Some s => if truthy s then option_map Some (regex_i s) else Some None
  | None => Some None
  end.


End ApiReading.

(** ** Sample requests and documents of [Api] *)

Module ApiSample.
Import Api.

Definition oid1 : ObjectId := "65f0a2000000000000000001"%string.
Definition oid2 : ObjectId := "65f0a2000000000000000002"%string.
Definition oid3 : ObjectId := "65f0a2000000000000000003"%string.

Definition mk (id txt : string) (c i : option bool) (created updated : Z) : Doc :=
  {| _id := id; text := txt; completed := c; important := i;
     createdAt := created; updatedAt := updated |}.

Definition alpha : Doc := mk oid1 "Alpha" (Some false) (Some true) 2000 2000.
Definition beta : Doc := mk oid2 "beta" (Some true) (Some false) 3000 3000.
(** Two documents created within the same millisecond. *)
Definition first : Doc := mk oid1 "first" (Some false) (Some false) 5000 5000.
Definition second : Doc := mk oid2 "second" (Some true) (Some false) 5000 5000.


Definition text_only (s : string) : CreateBody :=
  {| c_text := Some (JStr s); c_important := None |}.

Definition completed_only (v : Json) : UpdateBody :=
  {| u_text := None; u_completed := Some v; u_important := None |}.

End ApiSample.

(** * Properties *)

(** ** Strings and patterns *)

Module RegexFacts.
Import JsString Regex Reading.

Lemma not_meta_ordinary (c : ascii) :
  is_meta c = false ->
  Ascii.eqb c "\"%char = false /\ Ascii.eqb c "."%char = false
  /\ quant_of c = None.
Proof.
  destruct c as [[] [] [] [] [] [] [] []]; cbv; intros Hm;
    try discriminate Hm; repeat split.
Qed.

Lemma compile_list_plain (l : list ascii) :
  forallb (fun c => negb (is_meta c)) l = true ->
  compile_list l = Compiled (map (fun c => (Lit c, One)) l).
Proof.
  induction l as [|c rest IH]; intros Hp; [reflexivity|].
  cbn [forallb] in Hp. apply andb_true_iff in Hp as [Hc Hrest].
  apply negb_true_iff in Hc.
  destruct (not_meta_ordinary c Hc) as (Hb & Hd & Hq).
  cbn [compile_list map]. rewrite Hb, Hd, Hq, Hc.
  specialize (IH Hrest).
  destruct rest as [|q rest']; [reflexivity|].
  cbn [forallb] in Hrest. apply andb_true_iff in Hrest as [Hqm _].
  apply negb_true_iff in Hqm.
  destruct (not_meta_ordinary q Hqm) as (_ & _ & Hqq).
  cbn [after_atom]. rewrite Hqq, IH. reflexivity.
Qed.

Lemma match_here_literals (s t : list ascii) :
  match_here (map (fun c => (Lit c, One)) s) t = prefix_ci s t.
Proof.
  revert t. induction s as [|a s IH]; intros t; [destruct t; reflexivity|].
  destruct t as [|b t]; [reflexivity|].
  cbn [map match_here prefix_ci atom_ok]. rewrite IH. reflexivity.
Qed.

Lemma search_from_literals (s t : list ascii) :
  search_from (map (fun c => (Lit c, One)) s) t = infix_ci s t.
Proof.
  induction t as [|b t IH].
  - cbn [search_from infix_ci]. rewrite match_here_literals. reflexivity.
  - cbn [search_from infix_ci]. rewrite match_here_literals, IH. reflexivity.
Qed.

(** On a plain pattern the caseless regular-expression search is the
    caseless literal substring test. *)
Lemma plain_pattern_is_literal (s : string) :
  plain s = true ->
  exists ps, compile s = Compiled ps /\ forall t, test_i ps t = contains_ci s t.
Proof.
  intros Hp. eexists. split.
  - unfold compile. apply compile_list_plain. exact Hp.
  - intros t. unfold test_i, contains_ci. apply search_from_literals.
Qed.

Lemma prefix_ci_fold (s s' t : list ascii) :
  map to_lower s = map to_lower s' -> prefix_ci s t = prefix_ci s' t.
Proof.
  revert s' t. induction s as [|a s IH]; intros [|a' s'] t Heq;
    try discriminate Heq; [reflexivity|].
  cbn [map] in Heq. injection Heq as Ha Hs.
  destruct t as [|b t]; [reflexivity|].
  cbn [prefix_ci]. unfold eq_ci. rewrite Ha, (IH s' t Hs). reflexivity.
Qed.

Lemma infix_ci_fold (s s' t : list ascii) :
  map to_lower s = map to_lower s' -> infix_ci s t = infix_ci s' t.
Proof.
  intros Heq. induction t as [|b t IH]; cbn [infix_ci].
  - rewrite (prefix_ci_fold s s' [] Heq). reflexivity.
  - rewrite (prefix_ci_fold s s' (b :: t) Heq), IH. reflexivity.
Qed.

Lemma list_toLowerCase (s : string) :
  list_ascii_of_string (toLowerCase s) = map to_lower (list_ascii_of_string s).
Proof. induction s as [|c s IH]; cbn; [|rewrite IH]; reflexivity. Qed.

Lemma starts_with_lowered (s t : list ascii) :
  starts_with (map to_lower s) (map to_lower t) = prefix_ci s t.
Proof.
  revert t. induction s as [|a s IH]; intros [|b t]; try reflexivity.
  cbn [map starts_with prefix_ci]. rewrite IH. reflexivity.
Qed.

(** The stand-alone component's [matchesSearch] is the caseless literal
    substring test. *)
Lemma includes_lowered (s t : string) :
  includes (toLowerCase t) (toLowerCase s) = contains_ci s t.
Proof.
  unfold includes, contains_ci. rewrite !list_toLowerCase.
  induction (list_ascii_of_string t) as [|b l IH];
    cbn [map includes_from infix_ci].
  - rewrite <- starts_with_lowered. reflexivity.
  - rewrite IH, <- starts_with_lowered. reflexivity.
Qed.

(** Trimming twice is trimming once: the schema's [trim: true] setter,
    which trims a text that the routes have trimmed already, changes
    nothing. *)
Lemma trimStart_head (s : string) :
  match trimStart s with
  | EmptyString => True
  | String c _ => is_space c = false
  end.
Proof.
  induction s as [|c s IH]; cbn [trimStart]; [exact I|].
  destruct (is_space c) eqn:Hc; [exact IH|exact Hc].
Qed.

Lemma trimEnd_idempotent (s : string) : trimEnd (trimEnd s) = trimEnd s.
Proof.
  induction s as [|c s IH]; [reflexivity|].
  cbn [trimEnd]. destruct (trimEnd s) as [|d r] eqn:Hr.
  - destruct (is_space c) eqn:Hc; [reflexivity|]. cbn [trimEnd]. rewrite Hc. reflexivity.
  - change (trimEnd (String c (String d r))) with
      (match trimEnd (String d r) with
       | EmptyString => if is_space c then EmptyString else String c EmptyString
       | x => String c x
       end).
    rewrite IH. reflexivity.
Qed.

Lemma trimEnd_head (c : ascii) (s : string) :
  is_space c = false -> exists r, trimEnd (String c s) = String c r.
Proof.
  intros Hc. cbn [trimEnd]. destruct (trimEnd s) as [|d r].
  - rewrite Hc. exists EmptyString. reflexivity.
  - exists (String d r). reflexivity.
Qed.

Lemma trim_idempotent (s : string) : trim (trim s) = trim s.
Proof.
  unfold trim. pose proof (trimStart_head s) as Hh.
  destruct (trimStart s) as [|c u]; [reflexivity|].
  destruct (trimEnd_head c u Hh) as (r & Hr).
  rewrite Hr. cbn [trimStart]. rewrite Hh, <- Hr. apply trimEnd_idempotent.
Qed.

Lemma truthy_iff (s : string) : truthy s = true <-> s <> EmptyString.
Proof.
  destruct s; cbn; split; intros H; try congruence; try discriminate.
Qed.

End RegexFacts.

(** ** The store's sort *)

Module SortFacts.
Import Server Reading.

Lemma insert_desc_perm (strict : bool) (x : Task) (l : list Task) :
  Permutation (x :: l) (insert_desc strict x l).
Proof.
  induction l as [|y l IH]; cbn [insert_desc]; [reflexivity|].
  destruct (if strict then _ else _); [reflexivity|].
  rewrite perm_swap. constructor. exact IH.
Qed.

Lemma insertion_sort_desc_perm (strict : bool) (l : list Task) :
  Permutation l (insertion_sort_desc strict l).
Proof.
  induction l as [|x l IH]; cbn; [constructor|].
  rewrite <- insert_desc_perm. constructor. exact IH.
Qed.

Lemma insert_desc_sorted (strict : bool) (x : Task) (l : list Task) :
  StronglySorted desc l -> StronglySorted desc (insert_desc strict x l).
Proof.
  induction l as [|y l IH]; intros Hs; cbn [insert_desc].
  - repeat constructor.
  - inversion Hs as [|? ? Hl Hy]; subst.
    destruct (if strict then _ else _) eqn:Hcmp.
    + assert (Hxy : desc x y).
      { unfold desc. destruct strict; lia. }
      constructor; [exact Hs|]. constructor; [exact Hxy|].
      eapply Forall_impl; [|exact Hy]. unfold desc. intros z Hz.
      unfold desc in Hxy. lia.
    + assert (Hyx : desc y x).
      { unfold desc. destruct strict; lia. }
      constructor; [apply IH; exact Hl|].
      eapply Permutation_Forall; [apply insert_desc_perm|].
      constructor; assumption.
Qed.

Lemma insertion_sort_desc_sorted (strict : bool) (l : list Task) :
  StronglySorted desc (insertion_sort_desc strict l).
Proof.
  induction l as [|x l IH]; cbn; [constructor|].
  apply insert_desc_sorted. exact IH.
Qed.

(** A sort that keeps documents with equal [createdAt] in the order of
    the collection. *)
Definition stable_sort : StoreSort := {|
  sort_desc := insertion_sort_desc false;
  sort_desc_perm := insertion_sort_desc_perm false;
  sort_desc_sorted := insertion_sort_desc_sorted false
|}.

(** A sort that reverses them. *)
Definition reversing_sort : StoreSort := {|
  sort_desc := insertion_sort_desc true;
  sort_desc_perm := insertion_sort_desc_perm true;
  sort_desc_sorted := insertion_sort_desc_sorted true
|}.

End SortFacts.

(** ** The service's routes *)

Module ServiceProps.
Import JsString Server Reading RegexFacts SortFacts.

Lemma eqb_true_r (b : bool) : Bool.eqb b true = b.
Proof. destruct b; reflexivity. Qed.

Lemma eqb_false_r (b : bool) : Bool.eqb b false = negb b.
Proof. destruct b; reflexivity. Qed.

Lemma build_query_text (filter search : option string) :
  q_text (build_query filter search) =
  match search with
  | Some s => if truthy s then Some s else None
  | None => None
  end.
Proof.
  unfold build_query.
  destruct search as [s|]; [destruct (truthy s)|];
    destruct filter as [f|]; cbn;
    repeat (match goal with |- context [String.eqb ?a ?b] => destruct (String.eqb a b) end);
    reflexivity.
Qed.

Lemma build_query_selects (filter search : option string)
    (ps : option (list Regex.piece)) (t : Task) :
  let q := build_query filter search in
  matches (q_completed q) (q_important q) ps t
  = selects filter t && text_ok ps (text t).
Proof.
  unfold build_query, matches, selects.
  destruct search as [s|]; [destruct (truthy s)|];
    destruct filter as [f|]; cbn;
    repeat (match goal with |- context [String.eqb ?a ?b] => destruct (String.eqb a b) end);
    cbn; rewrite ?eqb_true_r, ?eqb_false_r, ?andb_true_r; reflexivity.
Qed.

Lemma filter_matches (filter search : option string)
    (ps : option (list Regex.piece)) (db : Collection) :
  let q := build_query filter search in
  List.filter (matches (q_completed q) (q_important q) ps) db
  = List.filter (fun t => selects filter t && text_ok ps (text t)) db.
Proof.
  cbv zeta. apply filter_ext. intros t. apply build_query_selects.
Qed.

(** Without a usable [search] the route lists the selected documents. *)
Lemma get_tasks_unsearched `{StoreSort} (db : Collection)
    (filter search : option string) :
  match search with Some s => truthy s = false | None => True end ->
  get_tasks db filter search
  = Some (json (TasksJson (sort_desc (List.filter (selects filter) db)))).
Proof.
  intros Hs. unfold get_tasks, find_sorted.
  assert (Ht : q_text (build_query filter search) = None).
  { rewrite build_query_text. destruct search as [s|]; [rewrite Hs|]; reflexivity. }
  rewrite Ht, filter_matches. do 4 f_equal.
  apply filter_ext. intros t. cbn. apply andb_true_r.
Qed.

(** With a pattern that compiles, it lists the selected documents whose
    text the pattern finds. *)
Lemma get_tasks_searched `{StoreSort} (db : Collection)
    (filter : option string) (s : string) (ps : list Regex.piece) :
  truthy s = true -> Regex.compile s = Regex.Compiled ps ->
  get_tasks db filter (Some s)
  = Some (json (TasksJson
       (sort_desc (List.filter
                     (fun t => selects filter t && Regex.test_i ps (text t)) db)))).
Proof.
  intros Hs Hc. unfold get_tasks, find_sorted.
  rewrite build_query_text, Hs, Hc, filter_matches. reflexivity.
Qed.

Lemma In_sort_desc `{StoreSort} (l : list Task) (t : Task) :
  In t (sort_desc l) <-> In t l.
Proof.
  split; apply Permutation_in;
    [symmetry|]; apply sort_desc_perm.
Qed.


(** *** Search *)

Lemma get_tasks_plain `{StoreSort} (db : Collection)
    (filter : option string) (s : string) :
  s <> EmptyString -> plain s = true ->
  get_tasks db filter (Some s)
  = Some (json (TasksJson
       (sort_desc (List.filter
                     (fun t => selects filter t && contains_ci s (text t)) db)))).
Proof.
  intros Hne Hp.
  destruct (plain_pattern_is_literal s Hp) as (ps & Hc & Hps).
  rewrite (get_tasks_searched db filter s ps); [|apply truthy_iff; exact Hne|exact Hc].
  do 4 f_equal. apply filter_ext. intros t. rewrite Hps. reflexivity.
Qed.

Lemma get_tasks_plain_fold `{StoreSort} (db : Collection)
    (filter : option string) (s s' : string) :
  s <> EmptyString -> plain s = true -> plain s' = true ->
  map to_lower (list_ascii_of_string s') = map to_lower (list_ascii_of_string s) ->
  get_tasks db filter (Some s') = get_tasks db filter (Some s).
Proof.
  intros Hne Hp Hp' Hfold.
  assert (Hne' : s' <> EmptyString).
  { intros ->. destruct s; [congruence|discriminate Hfold]. }
  rewrite (get_tasks_plain db filter s Hne Hp), (get_tasks_plain db filter s' Hne' Hp').
  do 4 f_equal. apply filter_ext. intros t.
  unfold contains_ci. rewrite (infix_ci_fold _ _ _ Hfold). reflexivity.
Qed.

(** The stand-alone component shows the selected tasks whose text contains
    the search term as a caseless literal substring. *)
Lemma filteredTasks_is_literal (tasks : list LocalApp.Task)
    (filter searchTerm : string) :
  LocalApp.filteredTasks tasks filter searchTerm
  = List.filter
      (fun task =>
         (if String.eqb filter "completed" then LocalApp.completed task
          else if String.eqb filter "pending" then negb (LocalApp.completed task)
          else if String.eqb filter "important" then LocalApp.important task
          else true)
         && contains_ci searchTerm (LocalApp.text task))
      tasks.
Proof.
  unfold LocalApp.filteredTasks. apply filter_ext. intros task.
  rewrite includes_lowered.
  repeat (match goal with |- context [String.eqb ?a ?b] => destruct (String.eqb a b) end);
    reflexivity.
Qed.

(** Where the two readings of [search] agree. When [search] is present,
    non-empty and holds no character that is special in a regular
    expression, [GET /api/tasks] lists exactly the selected records whose
    text contains it as a caseless literal substring; an absent or empty
    [search] constrains nothing; and two such search strings that differ
    only in letter case give the same response. *)
Theorem search_plain_is_literal_substring `{StoreSort} (db : Collection)
    (filter : option string) (s : string) :
  s <> EmptyString -> plain s = true ->
  get_tasks db filter (Some s)
  = Some (json (TasksJson
       (sort_desc (List.filter
                     (fun t => selects filter t && contains_ci s (text t)) db))))
  /\ (forall l, listed (get_tasks db filter (Some s)) = Some l ->
      forall t, In t l <->
                In t db /\ selects filter t = true /\ contains_ci s (text t) = true)
  /\ get_tasks db filter None
     = Some (json (TasksJson (sort_desc (List.filter (selects filter) db))))
  /\ get_tasks db filter (Some EmptyString) = get_tasks db filter None
  /\ (forall s', plain s' = true ->
      map to_lower (list_ascii_of_string s') = map to_lower (list_ascii_of_string s) ->
      get_tasks db filter (Some s') = get_tasks db filter (Some s)).
Proof.
  intros Hne Hp.
  pose proof (get_tasks_plain db filter s Hne Hp) as Hmain.
  split; [exact Hmain|]. split; [|split; [|split]].
  - intros l Hl t. rewrite Hmain in Hl. cbn in Hl. injection Hl as <-.
    rewrite In_sort_desc, filter_In, andb_true_iff. tauto.
  - apply get_tasks_unsearched. exact I.
  - rewrite (get_tasks_unsearched db filter (Some EmptyString)); [|reflexivity].
    symmetry. apply get_tasks_unsearched. exact I.
  - intros s' Hp' Hfold. apply get_tasks_plain_fold; assumption.
Qed.

Lemma search_plain_is_literal_substring_witness :
  "a"%string <> EmptyString /\ plain "a" = true
  /\ get_tasks (H := stable_sort) [Sample.alpha; Sample.beta; Sample.first]
       None (Some "a"%string)
     = Some (json (TasksJson [Sample.beta; Sample.alpha])).
Proof.
  split; [discriminate|]. split; [reflexivity|].
  exact (proj1 (search_plain_is_literal_substring (H := stable_sort)
                  [Sample.alpha; Sample.beta; Sample.first] None "a"
                  ltac:(discriminate) eq_refl)).
Defined.

(** C1. [GET /api/tasks?search=.] on a collection that holds a record
    with the text [abc]: the route lists the record, although its text
    has no [.] in it, because [search] is handed to the store as a
    regular expression; the stand-alone component, which takes the same
    search term literally, shows nothing. *)
Lemma search_dot_lists_text_without_dot :
  get_tasks (H := stable_sort) [Sample.abc] None (Some "."%string)
  = Some (json (TasksJson [Sample.abc]))
  /\ contains_ci "." (text Sample.abc) = false
  /\ LocalApp.filteredTasks [Sample.local_abc] "all" "." = [].
Proof. repeat split. Qed.

(** A pattern the engine rejects makes the route answer 500. *)
Lemma search_star_is_rejected :
  get_tasks (H := stable_sort) [Sample.abc] None (Some "*"%string)
  = Some (status_json 500 (ErrorJson (StoreMessage InvalidRegex))).
Proof. reflexivity. Qed.

(** [search="foo"] and [search="FOO"] give the same response. *)
Lemma search_foo_FOO `{StoreSort} (db : Collection) (filter : option string) :
  get_tasks db filter (Some "FOO"%string) = get_tasks db filter (Some "foo"%string).
Proof.
  apply get_tasks_plain_fold; [discriminate|reflexivity|reflexivity|reflexivity].
Qed.


(** *** Filter *)

Lemma build_query_unrecognised (filter search : option string) :
  unrecognised filter ->
  build_query filter search = build_query None search.
Proof.
  unfold unrecognised, build_query. destruct filter as [f|]; [|reflexivity].
  intros (Hc & Hp & Hi).
  apply String.eqb_neq in Hc, Hp, Hi. rewrite Hc, Hp, Hi. reflexivity.
Qed.

(** C10. A [filter] that is absent, empty or any string other than
    [completed], [pending] and [important] puts no [completed] or
    [important] key in the query, and the response is that of
    [filter=all]. *)
Theorem unrecognised_filter_is_all `{StoreSort} (db : Collection)
    (filter search : option string) :
  unrecognised filter ->
  q_completed (build_query filter search) = None
  /\ q_important (build_query filter search) = None
  /\ get_tasks db filter search = get_tasks db (Some "all"%string) search.
Proof.
  intros Hu.
  assert (Hall : unrecognised (Some "all"%string))
    by (repeat split; discriminate).
  unfold get_tasks.
  rewrite (build_query_unrecognised filter search Hu),
          (build_query_unrecognised _ search Hall).
  repeat split; unfold build_query;
    destruct search as [s|]; try destruct (truthy s); reflexivity.
Qed.

Lemma unrecognised_filter_is_all_witness :
  unrecognised (Some "banana"%string)
  /\ get_tasks (H := stable_sort) [Sample.alpha; Sample.beta] (Some "banana"%string) None
     = get_tasks (H := stable_sort) [Sample.alpha; Sample.beta] (Some "all"%string) None.
Proof.
  assert (Hu : unrecognised (Some "banana"%string))
    by (repeat split; discriminate).
  split; [exact Hu|].
  exact (proj2 (proj2 (unrecognised_filter_is_all (H := stable_sort)
                         [Sample.alpha; Sample.beta] (Some "banana"%string) None Hu))).
Defined.

Lemma get_tasks_by_verdict `{StoreSort} (db : Collection)
    (filter search : option string) :
  get_tasks db filter search =
  match verdict_of search with
  | Pattern ps =>
      Some (json (TasksJson
        (sort_desc (List.filter (fun t => selects filter t && text_ok ps (text t)) db))))
  | Bad => Some (status_json 500 (ErrorJson (StoreMessage InvalidRegex)))
  | Beyond => None
  end.
Proof.
  unfold get_tasks, find_sorted, verdict_of.
  rewrite build_query_text.
  destruct search as [s|]; [destruct (truthy s)|];
    try (rewrite filter_matches; reflexivity).
  destruct (Regex.compile s); try reflexivity.
  rewrite filter_matches. reflexivity.
Qed.

(** *** Statistics *)

Lemma fold_count (p : Task -> bool) (db : Collection) (n : nat) :
  fold_left (fun acc t => acc + (if p t then 1 else 0)) db n
  = n + List.length (List.filter p db).
Proof.
  revert n. induction db as [|t db IH]; intros n; cbn [fold_left List.filter].
  - cbn. lia.
  - rewrite IH. destruct (p t); cbn [List.length]; lia.
Qed.

Lemma sum_cond_eq_count (field : Task -> bool) (value : bool) (db : Collection) :
  sum_cond_eq field value db
  = List.length (List.filter (fun t => Bool.eqb (field t) value) db).
Proof. unfold sum_cond_eq. rewrite fold_count. reflexivity. Qed.

Lemma fold_total (db : Collection) (n : nat) :
  fold_left (fun acc (_ : Task) => acc + 1) db n = n + List.length db.
Proof.
  revert n. induction db as [|t db IH]; intros n; cbn [fold_left List.length].
  - lia.
  - rewrite IH. lia.
Qed.

Lemma completed_pending_total (db : Collection) :
  List.length (List.filter completed db)
  + List.length (List.filter (fun t => negb (completed t)) db) = List.length db.
Proof.
  induction db as [|t db IH]; [reflexivity|].
  cbn [List.filter List.length]. destruct (completed t); cbn [negb List.length]; lia.
Qed.

(** *** Create *)

Lemma guard_is_blank (s : string) :
  negb (truthy s) || String.eqb (trim s) EmptyString = true
  <-> trim s = EmptyString.
Proof.
  rewrite orb_true_iff, String.eqb_eq. split; [|auto].
  intros [Hs|Hs]; [|exact Hs]. destruct s; [reflexivity|discriminate Hs].
Qed.

(** [" buy milk "] is stored as ["buy milk"]; an absent, an empty and a
    white-space text are refused and nothing is stored. *)
Example create_buy_milk :
  post_tasks "65f0c1"%string 7000 7001 [Sample.alpha]
    {| c_text := Some " buy milk "%string; c_important := None |}
  = ([Sample.alpha; Sample.mk "65f0c1" "buy milk" false false 7000 7001],
     status_json 201
       (TaskJson (Sample.mk "65f0c1" "buy milk" false false 7000 7001))).
Proof. reflexivity. Qed.

Example create_refused :
  let refused :=
    ([Sample.alpha],
     status_json 400 (ErrorJson (RouteMessage "Task text is required"%string))) in
  post_tasks "65f0c1"%string 7000 7001 [Sample.alpha]
    {| c_text := None; c_important := Some true |} = refused
  /\ post_tasks "65f0c1"%string 7000 7001 [Sample.alpha]
       {| c_text := Some EmptyString; c_important := None |} = refused
  /\ post_tasks "65f0c1"%string 7000 7001 [Sample.alpha]
       {| c_text := Some "  "%string; c_important := None |} = refused.
Proof. repeat split. Qed.

(** *** Update and delete *)

Lemma unknown_cons (id : Id) (t : Task) (db : Collection) :
  unknown id (t :: db) <-> String.eqb (_id t) id = false /\ unknown id db.
Proof.
  unfold unknown. rewrite String.eqb_neq. split.
  - intros Hu. split; [apply Hu; left; reflexivity|].
    intros x Hx. apply Hu. right. exact Hx.
  - intros [Ht Hu] x [<-|Hx]; auto.
Qed.

Lemma unknown_not_In (id : Id) (db : Collection) :
  unknown id db <-> ~ In id (map _id db).
Proof.
  unfold unknown. rewrite in_map_iff. split.
  - intros Hu (t & Ht & Hin). exact (Hu t Hin Ht).
  - intros Hn t Hin Ht. apply Hn. exists t. auto.
Qed.

Lemma update_first_unknown (id : Id) (d : UpdateData) (db : Collection) :
  unknown id db -> update_first id d db = (db, None).
Proof.
  induction db as [|t db IH]; intros Hu; [reflexivity|].
  apply unknown_cons in Hu as [Ht Hu].
  cbn [update_first]. rewrite Ht, (IH Hu). reflexivity.
Qed.

Lemma update_first_found (id : Id) (d : UpdateData) (db db' : Collection)
    (new : Task) :
  update_first id d db = (db', Some new) ->
  exists pre old post,
    db = pre ++ old :: post /\ unknown id pre /\ _id old = id
    /\ new = apply_update d old /\ db' = pre ++ new :: post.
Proof.
  revert db'. induction db as [|t db IH]; intros db' Hup; [discriminate Hup|].
  cbn [update_first] in Hup. destruct (String.eqb (_id t) id) eqn:Ht.
  - injection Hup as <- <-. exists [], t, db.
    apply String.eqb_eq in Ht. repeat split; auto. intros x [].
  - destruct (update_first id d db) as [rest' r] eqn:Hrest.
    injection Hup as <- ->.
    destruct (IH rest' eq_refl) as (pre & old & post & -> & Hpre & Hold & Hnew & ->).
    exists (t :: pre), old, post. repeat split; auto.
    apply unknown_cons. auto.
Qed.

Lemma findByIdAndDelete_unknown (id : Id) (db : Collection) :
  unknown id db -> findByIdAndDelete id db = (db, None).
Proof.
  induction db as [|t db IH]; intros Hu; [reflexivity|].
  apply unknown_cons in Hu as [Ht Hu].
  cbn [findByIdAndDelete]. rewrite Ht, (IH Hu). reflexivity.
Qed.

Lemma filter_unknown (id : Id) (db : Collection) :
  unknown id db ->
  List.filter (fun t => negb (String.eqb (_id t) id)) db = db.
Proof.
  induction db as [|t db IH]; intros Hu; [reflexivity|].
  apply unknown_cons in Hu as [Ht Hu].
  cbn [List.filter]. rewrite Ht, (IH Hu). reflexivity.
Qed.

Lemma findByIdAndDelete_known (id : Id) (db : Collection) :
  NoDup (map _id db) -> In id (map _id db) ->
  exists old,
    In old db /\ _id old = id
    /\ findByIdAndDelete id db
       = (List.filter (fun t => negb (String.eqb (_id t) id)) db, Some old).
Proof.
  induction db as [|t db IH]; intros Hnd Hin; [destruct Hin|].
  cbn [map] in Hnd. inversion Hnd as [|? ? Hnotin Hnd']; subst.
  cbn [findByIdAndDelete List.filter].
  destruct (String.eqb (_id t) id) eqn:Ht.
  - apply String.eqb_eq in Ht. subst id. exists t.
    split; [left; reflexivity|]. split; [reflexivity|].
    cbn [negb]. rewrite filter_unknown; [reflexivity|].
    apply unknown_not_In. exact Hnotin.
  - destruct Hin as [Heq|Hin].
    + apply String.eqb_neq in Ht. contradiction.
    + destruct (IH Hnd' Hin) as (old & Hold & Hid & ->).
      exists old. split; [right; exact Hold|]. split; [exact Hid|reflexivity].
Qed.

(** C5. A successful update rewrites one record of the collection, the
    first with the target id: each of [text], [completed], [important]
    that the payload leaves out keeps its value, a given [text] is
    stored trimmed, [_id] and [createdAt] are kept, and [updatedAt] is
    the time of the update whatever the values given; the response
    carries the record as rewritten. *)
Theorem update_keeps_unspecified_fields (now : Z) (db db' : Collection)
    (id : Id) (req : UpdateBody) (r : Response) :
  put_task now db id req = (db', r) -> status r = 200 ->
  exists pre old new post,
    db = pre ++ old :: post /\ unknown id pre /\ _id old = id
    /\ db' = pre ++ new :: post /\ r = json (TaskJson new)
    /\ _id new = _id old
    /\ text new = match u_text req with Some s => trim s | None => text old end
    /\ completed new
       = match u_completed req with Some b => b | None => completed old end
    /\ important new
       = match u_important req with Some b => b | None => important old end
    /\ createdAt new = createdAt old
    /\ updatedAt new = now.
Proof.
  unfold put_task, findByIdAndUpdate. intros Hput Hst.
  destruct (update_valid _); [|injection Hput as <- <-; discriminate Hst].
  destruct (update_first id _ db) as [db1 [new|]] eqn:Hup;
    injection Hput as <- <-; [|discriminate Hst].
  destruct (update_first_found _ _ _ _ _ Hup)
    as (pre & old & post & Hdb & Hpre & Hold & Hnew & Hdb').
  exists pre, old, new, post. subst new.
  repeat (split; [assumption || reflexivity|]).
  cbn. destruct (u_text req); repeat split.
Qed.

Lemma update_keeps_unspecified_fields_witness :
  put_task 9000 [Sample.alpha; Sample.beta] "65f0a3"%string
    {| u_text := Some " Beta two "%string; u_completed := None; u_important := None |}
  = ([Sample.alpha; Sample.mk "65f0a3" "Beta two" true false 3000 9000],
     json (TaskJson (Sample.mk "65f0a3" "Beta two" true false 3000 9000)))
  /\ exists pre old new post,
    [Sample.alpha; Sample.beta] = pre ++ old :: post
    /\ unknown "65f0a3"%string pre /\ _id old = "65f0a3"%string
    /\ [Sample.alpha; Sample.mk "65f0a3" "Beta two" true false 3000 9000]
       = pre ++ new :: post
    /\ json (TaskJson (Sample.mk "65f0a3" "Beta two" true false 3000 9000))
       = json (TaskJson new)
    /\ _id new = _id old
    /\ text new = trim " Beta two "
    /\ completed new = completed old
    /\ important new = important old
    /\ createdAt new = createdAt old
    /\ updatedAt new = 9000%Z.
Proof.
  split; [reflexivity|].
  exact (update_keeps_unspecified_fields 9000 [Sample.alpha; Sample.beta] _
           "65f0a3"%string
           {| u_text := Some " Beta two "%string; u_completed := None;
              u_important := None |}
           _ eq_refl eq_refl).
Defined.

(** An update that repeats the stored values still refreshes [updatedAt]. *)
Example update_same_values_refreshes_updatedAt :
  put_task 9000 [Sample.beta] "65f0a3"%string
    {| u_text := Some "beta"%string; u_completed := Some true;
       u_important := Some false |}
  = ([Sample.mk "65f0a3" "beta" true false 3000 9000],
     json (TaskJson (Sample.mk "65f0a3" "beta" true false 3000 9000))).
Proof. reflexivity. Qed.

(** The life of one task: no task, all counts 0; created, it is pending;
    completed; deleted, all counts 0 again. *)
Example stats_scenario :
  let db0 : Collection := [] in
  let zero := {| Stats.total := 0; Stats.completed := 0;
                 Stats.pending := 0; Stats.important := 0 |} in
  let db1 := fst (post_tasks "65f0d1"%string 100 100 db0
                    {| c_text := Some "a"%string; c_important := None |}) in
  let db2 := fst (put_task 200 db1 "65f0d1"%string
                    {| u_text := None; u_completed := Some true; u_important := None |}) in
  let db3 := fst (delete_task db2 "65f0d1"%string) in
  get_stats db0 = json (StatsJson zero)
  /\ get_stats db1
     = json (StatsJson {| Stats.total := 1; Stats.completed := 0;
                          Stats.pending := 1; Stats.important := 0 |})
  /\ get_stats db2
     = json (StatsJson {| Stats.total := 1; Stats.completed := 1;
                          Stats.pending := 0; Stats.important := 0 |})
  /\ get_stats db3 = json (StatsJson zero).
Proof. repeat split. Qed.

(** A successful update answers with a record that has the target id. *)
Lemma put_task_ok_id (now : Z) (db db' : Collection) (id : Id)
    (req : UpdateBody) (r : Response) :
  put_task now db id req = (db', r) -> status r = 200 ->
  exists new, body r = TaskJson new /\ _id new = id.
Proof.
  unfold put_task, findByIdAndUpdate. intros Hput Hst.
  destruct (update_valid _); [|injection Hput as <- <-; discriminate Hst].
  destruct (update_first id _ db) as [db1 [new|]] eqn:Hup;
    injection Hput as <- <-; [|discriminate Hst].
  destruct (update_first_found _ _ _ _ _ Hup)
    as (pre & old & post & _ & _ & Hold & Hnew & _).
  exists new. split; [reflexivity|]. subst new. exact Hold.
Qed.

End ServiceProps.

(** ** The client's mirror *)

Module ClientProps.
Import JsString Server Client Reading.

Lemma map_id_replace (id : Id) (u : Task) (l : list Task) :
  _id u = id ->
  map _id (map (fun task => if String.eqb (_id task) id then u else task) l)
  = map _id l.
Proof.
  intros Hu. induction l as [|t l IH]; [reflexivity|].
  cbn [map]. rewrite IH. f_equal.
  destruct (String.eqb (_id t) id) eqn:Ht; [|reflexivity].
  apply String.eqb_eq in Ht. congruence.
Qed.

(** C8. When the service answers an update with success, the client's
    mirror keeps its length and its order of ids; at every position the
    record is the one that was there, unless its id is that of the
    returned record, in which case it is the returned record; the rest
    of the client's state is untouched, and one statistics request is
    sent. *)
Theorem update_reconciled_in_place (now : Z) (db db' : Collection) (id : Id)
    (req : UpdateBody) (r : Response) (updatedTask : Task) (st : State) :
  put_task now db id req = (db', r) -> status r = 200 ->
  body r = TaskJson updatedTask ->
  let st' := fst (updateTask_settle id (Ok (Some updatedTask)) st) in
  List.length (tasks st') = List.length (tasks st)
  /\ map _id (tasks st') = map _id (tasks st)
  /\ (forall i, nth_error (tasks st') i
                = option_map (replaced updatedTask) (nth_error (tasks st) i))
  /\ snd (updateTask_settle id (Ok (Some updatedTask)) st) = [GET_stats]
  /\ (newTask st', filter st', searchTerm st', loading st', error st', stats st')
     = (newTask st, filter st, searchTerm st, loading st, error st, stats st).
Proof.
  intros Hput Hst Hbody.
  destruct (ServiceProps.put_task_ok_id _ _ _ _ _ _ Hput Hst) as (new & Hnew & Hid).
  rewrite Hbody in Hnew. injection Hnew as <-.
  cbn. split; [apply length_map|]. split; [apply map_id_replace; exact Hid|].
  split; [|split; reflexivity].
  intros i. rewrite nth_error_map. unfold replaced. rewrite Hid. reflexivity.
Qed.

Lemma update_reconciled_in_place_witness :
  put_task 9000 [Sample.alpha; Sample.beta] "65f0a3"%string
    {| u_text := None; u_completed := Some false; u_important := None |}
  = ([Sample.alpha; Sample.beta_reopened], json (TaskJson Sample.beta_reopened))
  /\ tasks (fst (updateTask_settle "65f0a3"%string (Ok (Some Sample.beta_reopened))
                   Sample.showing))
     = [Sample.beta_reopened; Sample.alpha]
  /\ forall i,
       nth_error
         (tasks (fst (updateTask_settle "65f0a3"%string
                        (Ok (Some Sample.beta_reopened)) Sample.showing))) i
       = option_map (replaced Sample.beta_reopened)
           (nth_error (tasks Sample.showing) i).
Proof.
  split; [reflexivity|]. split; [reflexivity|].
  exact (proj1 (proj2 (proj2
    (update_reconciled_in_place 9000 [Sample.alpha; Sample.beta] _ "65f0a3"%string
       {| u_text := None; u_completed := Some false; u_important := None |}
       _ Sample.beta_reopened Sample.showing eq_refl eq_refl eq_refl)))).
Defined.

(** C9. A request that ends in a network error or in a response that is
    not [ok] leaves the mirror as it is: calling [fetchTasks],
    [createTask], [updateTask] or [deleteTask] does not touch it, and
    when the request fails the mirror of that moment is kept whole, the
    error message of the action is set, and no further request is
    sent. *)
Theorem failed_request_keeps_mirror (st : State)
    (rf : Reply (list Task)) (rc ru : Reply Task) (rd : Reply unit)
    (taskText : string) (id : Id) (updates : UpdateBody) :
  failed rf = true -> failed rc = true -> failed ru = true -> failed rd = true ->
  (tasks (fst (fetchTasks_call st)) = tasks st
   /\ tasks (fst (fetchTasks_settle rf st)) = tasks st
   /\ error (fst (fetchTasks_settle rf st))
      = Some "Failed to load tasks. Please try again."%string
   /\ snd (fetchTasks_settle rf st) = [])
  /\ (fst (createTask_call taskText st) = st
      /\ tasks (fst (createTask_settle rc st)) = tasks st
      /\ error (fst (createTask_settle rc st))
         = Some "Failed to create task. Please try again."%string
      /\ snd (createTask_settle rc st) = [])
  /\ (fst (updateTask_call id updates st) = st
      /\ tasks (fst (updateTask_settle id ru st)) = tasks st
      /\ error (fst (updateTask_settle id ru st))
         = Some "Failed to update task. Please try again."%string
      /\ snd (updateTask_settle id ru st) = [])
  /\ (fst (deleteTask_call id st) = st
      /\ tasks (fst (deleteTask_settle id rd st)) = tasks st
      /\ error (fst (deleteTask_settle id rd st))
         = Some "Failed to delete task. Please try again."%string
      /\ snd (deleteTask_settle id rd st) = []).
Proof.
  intros Hf Hc Hu Hd.
  destruct rf as [| |?]; try discriminate Hf;
    destruct rc as [| |?]; try discriminate Hc;
    destruct ru as [| |?]; try discriminate Hu;
    destruct rd as [| |?]; try discriminate Hd;
    repeat split.
Qed.

Lemma failed_request_keeps_mirror_witness :
  failed (@NetworkError (list Task)) = true
  /\ failed (@NotOk Task) = true
  /\ failed (@NetworkError unit) = true
  /\ tasks (fst (updateTask_settle "65f0a3"%string NotOk Sample.showing))
     = [Sample.beta; Sample.alpha]
  /\ tasks (fst (deleteTask_settle "65f0a3"%string NetworkError Sample.showing))
     = [Sample.beta; Sample.alpha].
Proof.
  pose proof (failed_request_keeps_mirror Sample.showing NetworkError NotOk NotOk
                NetworkError "x" "65f0a3"%string
                {| u_text := None; u_completed := Some false; u_important := None |}
                eq_refl eq_refl eq_refl eq_refl)
    as (_ & _ & (_ & Hu & _) & (_ & Hd & _)).
  exact (conj eq_refl (conj eq_refl (conj eq_refl (conj Hu Hd)))).
Defined.

End ClientProps.

(** ** The collection under the routes *)

Module ServiceInvariants.
Import JsString Server Reading Conditions RegexFacts SortFacts.

(** *** The routes, case by case *)

Lemma post_tasks_accepts (oid : Id) (t_new t_save : Z) (db : Collection)
    (req : CreateBody) :
  ~ blank (c_text req) ->
  exists s,
    c_text req = Some s /\ trim s <> EmptyString
    /\ post_tasks oid t_new t_save db req
       = (db ++ [created oid t_new t_save s (c_important req)],
          status_json 201 (TaskJson (created oid t_new t_save s (c_important req)))).
Proof.
  unfold post_tasks, blank. destruct (c_text req) as [s|]; [|intros Hn; now destruct Hn].
  intros Hn. exists s. split; [reflexivity|]. split; [exact Hn|].
  destruct (negb (truthy s) || String.eqb (trim s) EmptyString) eqn:Hg; [|reflexivity].
  apply orb_true_iff in Hg as [Hg|Hg].
  - destruct s; [now destruct Hn|discriminate Hg].
  - apply String.eqb_eq in Hg. contradiction.
Qed.

Lemma post_tasks_refuses (oid : Id) (t_new t_save : Z) (db : Collection)
    (req : CreateBody) :
  blank (c_text req) ->
  fst (post_tasks oid t_new t_save db req) = db.
Proof.
  unfold post_tasks, blank. destruct (c_text req) as [s|]; [|reflexivity].
  intros Hb. rewrite Hb, String.eqb_refl, orb_true_r. reflexivity.
Qed.

Lemma blank_dec (o : option string) : blank o \/ ~ blank o.
Proof.
  destruct o as [s|]; cbn; [|left; exact I].
  destruct (string_dec (trim s) EmptyString); [left|right]; assumption.
Qed.

Lemma put_task_unfold (now : Z) (db : Collection) (id : Id) (req : UpdateBody) :
  put_task now db id req =
  if blank_update req
  then (db, status_json 400 (ErrorJson (StoreMessage ValidationFailed)))
  else match update_first id (update_data now req) db with
       | (db', Some task) => (db', json (TaskJson task))
       | (db', None) =>
           (db', status_json 404 (ErrorJson (RouteMessage "Task not found"%string)))
       end.
Proof.
  unfold put_task, findByIdAndUpdate, update_valid, blank_update, update_data.
  cbn [d_text]. destruct (u_text req) as [s|]; cbn [option_map].
  - destruct (truthy (trim s)); cbn [negb]; [|reflexivity].
    destruct (update_first _ _ db) as [db' [task|]]; reflexivity.
  - destruct (update_first _ _ db) as [db' [task|]]; reflexivity.
Qed.

Lemma put_task_collection (now : Z) (db : Collection) (id : Id) (req : UpdateBody) :
  fst (put_task now db id req)
  = if blank_update req then db else fst (update_first id (update_data now req) db).
Proof.
  rewrite put_task_unfold. destruct (blank_update req); [reflexivity|].
  destruct (update_first _ _ db) as [db' [task|]]; reflexivity.
Qed.

Lemma delete_task_collection (db : Collection) (id : Id) :
  fst (delete_task db id) = fst (findByIdAndDelete id db).
Proof.
  unfold delete_task. destruct (findByIdAndDelete id db) as [db' [t|]]; reflexivity.
Qed.

(** *** What [update_first] and [findByIdAndDelete] keep *)

Lemma update_first_map {A : Type} (f : Task -> A) (id : Id) (d : UpdateData)
    (db : Collection) :
  (forall t, f (apply_update d t) = f t) ->
  map f (fst (update_first id d db)) = map f db.
Proof.
  intros Hf. induction db as [|t db IH]; [reflexivity|].
  cbn [update_first]. destruct (String.eqb (_id t) id).
  - cbn. rewrite Hf. reflexivity.
  - destruct (update_first id d db) as [rest r]. cbn in *. rewrite IH. reflexivity.
Qed.

Lemma update_first_Forall (P : Task -> Prop) (id : Id) (d : UpdateData)
    (db : Collection) :
  (forall t, In t db -> P t -> P (apply_update d t)) ->
  Forall P db -> Forall P (fst (update_first id d db)).
Proof.
  induction db as [|t db IH]; intros Hstep Hall; [constructor|].
  inversion Hall as [|? ? Ht Hdb]; subst.
  cbn [update_first]. destruct (String.eqb (_id t) id).
  - cbn. constructor; [apply Hstep; [left; reflexivity|exact Ht]|exact Hdb].
  - destruct (update_first id d db) as [rest r] eqn:Hr. cbn in *.
    constructor; [exact Ht|]. apply IH; [|exact Hdb].
    intros x Hx. apply Hstep. right. exact Hx.
Qed.

Lemma update_first_others (id : Id) (d : UpdateData) (db : Collection) (t : Task) :
  In t db -> _id t <> id -> In t (fst (update_first id d db)).
Proof.
  induction db as [|x db IH]; intros Hin Hne; [destruct Hin|].
  cbn [update_first]. destruct (String.eqb (_id x) id) eqn:Hx.
  - cbn. destruct Hin as [->|Hin]; [|right; exact Hin].
    apply String.eqb_eq in Hx. contradiction.
  - destruct (update_first id d db) as [rest r]. cbn in *.
    destruct Hin as [->|Hin]; [left; reflexivity|right; auto].
Qed.

Lemma update_first_known (id : Id) (d : UpdateData) (db : Collection) :
  In id (map _id db) ->
  exists db' new, update_first id d db = (db', Some new).
Proof.
  induction db as [|t db IH]; intros Hin; [destruct Hin|].
  cbn [update_first]. destruct (String.eqb (_id t) id) eqn:Ht.
  - eexists _, _. reflexivity.
  - destruct Hin as [Heq|Hin]; [apply String.eqb_neq in Ht; contradiction|].
    destruct (IH Hin) as (db' & new & ->). eexists _, _. reflexivity.
Qed.

Lemma findByIdAndDelete_incl (id : Id) (db : Collection) (t : Task) :
  In t (fst (findByIdAndDelete id db)) -> In t db.
Proof.
  induction db as [|x db IH]; [intros []|].
  cbn [findByIdAndDelete]. destruct (String.eqb (_id x) id).
  - cbn. intros Hin. right. exact Hin.
  - destruct (findByIdAndDelete id db) as [rest r]. cbn in *.
    intros [->|Hin]; [left; reflexivity|right; auto].
Qed.

Lemma findByIdAndDelete_Forall (P : Task -> Prop) (id : Id) (db : Collection) :
  Forall P db -> Forall P (fst (findByIdAndDelete id db)).
Proof.
  rewrite !Forall_forall. intros Hall t Ht.
  apply Hall. eapply findByIdAndDelete_incl. exact Ht.
Qed.

Lemma findByIdAndDelete_NoDup (id : Id) (db : Collection) :
  NoDup (map _id db) -> NoDup (map _id (fst (findByIdAndDelete id db))).
Proof.
  induction db as [|x db IH]; intros Hnd; [constructor|].
  cbn [map] in Hnd. inversion Hnd as [|? ? Hx Hdb]; subst.
  cbn [findByIdAndDelete]. destruct (String.eqb (_id x) id).
  - cbn. exact Hdb.
  - pose proof (findByIdAndDelete_incl id db) as Hincl.
    destruct (findByIdAndDelete id db) as [rest r]. cbn in *.
    constructor; [|apply IH; exact Hdb].
    intros Hin. apply Hx. apply in_map_iff in Hin as (t & Ht & Hin).
    apply in_map_iff. exists t. split; [exact Ht|apply Hincl; exact Hin].
Qed.

(** *** Invariants *)

(** X1. The routes keep the identifiers of the collection distinct: a
    create with an identifier that no record has, any update and any
    delete leave a collection without two records of one identifier. *)
Theorem routes_keep_ids_distinct (db : Collection) :
  NoDup (map _id db) ->
  (forall oid t_new t_save req,
     unknown oid db ->
     NoDup (map _id (fst (post_tasks oid t_new t_save db req))))
  /\ (forall now id req, NoDup (map _id (fst (put_task now db id req))))
  /\ (forall id, NoDup (map _id (fst (delete_task db id)))).
Proof.
  intros Hnd. split; [|split].
  - intros oid t_new t_save req Hu.
    destruct (blank_dec (c_text req)) as [Hb|Hb].
    + rewrite post_tasks_refuses; assumption.
    + destruct (post_tasks_accepts oid t_new t_save db req Hb) as (s & _ & _ & ->).
      cbn [fst]. rewrite map_app. cbn [map created _id].
      apply NoDup_app; [exact Hnd|repeat constructor; intros []|].
      intros x Hx [<-|[]]. apply ServiceProps.unknown_not_In in Hu. contradiction.
  - intros now id req. rewrite put_task_collection.
    destruct (blank_update req); [exact Hnd|].
    rewrite update_first_map; [exact Hnd|reflexivity].
  - intros id. rewrite delete_task_collection.
    apply findByIdAndDelete_NoDup. exact Hnd.
Qed.

Lemma routes_keep_ids_distinct_witness :
  NoDup (map _id [Sample.alpha; Sample.beta])
  /\ NoDup (map _id (fst (put_task 9000 [Sample.alpha; Sample.beta] "65f0a3"%string
                            {| u_text := Some "x"%string; u_completed := None;
                               u_important := None |}))).
Proof.
  assert (Hnd : NoDup (map _id [Sample.alpha; Sample.beta])).
  { repeat constructor; cbn; intuition discriminate. }
  split; [exact Hnd|].
  exact (proj1 (proj2 (routes_keep_ids_distinct [Sample.alpha; Sample.beta] Hnd))
           9000%Z "65f0a3"%string
           {| u_text := Some "x"%string; u_completed := None; u_important := None |}).
Defined.

(** X2. The routes keep every stored text trimmed and not empty: a
    create stores a text only after trimming it and finding it not
    empty, an update that would store an empty text is refused, and a
    delete stores nothing. *)
Theorem routes_keep_texts_tidy (db : Collection) :
  Forall (fun t => tidy (text t)) db ->
  (forall oid t_new t_save req,
     Forall (fun t => tidy (text t)) (fst (post_tasks oid t_new t_save db req)))
  /\ (forall now id req,
        Forall (fun t => tidy (text t)) (fst (put_task now db id req)))
  /\ (forall id, Forall (fun t => tidy (text t)) (fst (delete_task db id))).
Proof.
  intros Hall. split; [|split].
  - intros oid t_new t_save req.
    destruct (blank_dec (c_text req)) as [Hb|Hb].
    + rewrite post_tasks_refuses; assumption.
    + destruct (post_tasks_accepts oid t_new t_save db req Hb) as (s & _ & Hs & ->).
      cbn [fst]. apply Forall_app. split; [exact Hall|].
      constructor; [|constructor]. cbn [created text].
      split; [apply trim_idempotent|exact Hs].
  - intros now id req. rewrite put_task_collection.
    unfold blank_update. destruct (u_text req) as [s|] eqn:Hs.
    + destruct (truthy (trim s)) eqn:Ht; cbn [negb]; [|exact Hall].
      apply update_first_Forall; [|exact Hall].
      intros t _ _. unfold update_data. rewrite Hs. cbn.
      split; [apply trim_idempotent|apply truthy_iff; exact Ht].
    + apply update_first_Forall; [|exact Hall].
      intros t _ Ht. unfold update_data. rewrite Hs. cbn. exact Ht.
  - intros id. rewrite delete_task_collection.
    apply findByIdAndDelete_Forall. exact Hall.
Qed.

Lemma routes_keep_texts_tidy_witness :
  Forall (fun t => tidy (text t)) [Sample.alpha; Sample.beta]
  /\ Forall (fun t => tidy (text t))
       (fst (put_task 9000 [Sample.alpha; Sample.beta] "65f0a3"%string
               {| u_text := Some "  Beta two "%string; u_completed := None;
                  u_important := None |})).
Proof.
  assert (Hall : Forall (fun t => tidy (text t)) [Sample.alpha; Sample.beta]).
  { repeat constructor; discriminate. }
  split; [exact Hall|].
  exact (proj1 (proj2 (routes_keep_texts_tidy [Sample.alpha; Sample.beta] Hall))
           9000%Z "65f0a3"%string
           {| u_text := Some "  Beta two "%string; u_completed := None;
              u_important := None |}).
Defined.

(** X3. While the clock does not run backwards, no record is updated
    before it was created: if [updatedAt] is not before [createdAt] in
    every record, it stays so after a create whose two clock readings
    are in order, after an update at a time not before the records'
    creation, and after a delete. *)
Theorem routes_keep_stamps_in_order (db : Collection) :
  Forall stamped db ->
  (forall oid t_new t_save req,
     (t_new <= t_save)%Z ->
     Forall stamped (fst (post_tasks oid t_new t_save db req)))
  /\ (forall now id req,
        (forall t, In t db -> (createdAt t <= now)%Z) ->
        Forall stamped (fst (put_task now db id req)))
  /\ (forall id, Forall stamped (fst (delete_task db id))).
Proof.
  intros Hall. split; [|split].
  - intros oid t_new t_save req Hle.
    destruct (blank_dec (c_text req)) as [Hb|Hb].
    + rewrite post_tasks_refuses; assumption.
    + destruct (post_tasks_accepts oid t_new t_save db req Hb) as (s & _ & _ & ->).
      cbn [fst]. apply Forall_app. split; [exact Hall|].
      constructor; [exact Hle|constructor].
  - intros now id req Hnow. rewrite put_task_collection.
    destruct (blank_update req); [exact Hall|].
    apply update_first_Forall; [|exact Hall].
    intros t Hin _. unfold stamped. cbn. apply Hnow. exact Hin.
  - intros id. rewrite delete_task_collection.
    apply findByIdAndDelete_Forall. exact Hall.
Qed.

Lemma routes_keep_stamps_in_order_witness :
  Forall stamped [Sample.alpha; Sample.beta]
  /\ (forall t, In t [Sample.alpha; Sample.beta] -> (createdAt t <= 9000)%Z)
  /\ Forall stamped
       (fst (put_task 9000 [Sample.alpha; Sample.beta] "65f0a3"%string
               {| u_text := None; u_completed := Some false; u_important := None |})).
Proof.
  assert (Hall : Forall stamped [Sample.alpha; Sample.beta]).
  { repeat constructor; unfold stamped; cbn; lia. }
  assert (Hnow : forall t, In t [Sample.alpha; Sample.beta] -> (createdAt t <= 9000)%Z).
  { intros t [<-|[<-|[]]]; cbn; lia. }
  split; [exact Hall|]. split; [exact Hnow|].
  exact (proj1 (proj2 (routes_keep_stamps_in_order [Sample.alpha; Sample.beta] Hall))
           9000%Z "65f0a3"%string
           {| u_text := None; u_completed := Some false; u_important := None |} Hnow).
Defined.

(** X4. An update, whatever it answers, neither adds, removes, reorders
    nor re-identifies records: the sequences of [_id] and of [createdAt]
    are those of before, and every record with another id is still
    there as it was. *)
Theorem update_keeps_the_sequence (now : Z) (db : Collection) (id : Id)
    (req : UpdateBody) :
  map _id (fst (put_task now db id req)) = map _id db
  /\ map createdAt (fst (put_task now db id req)) = map createdAt db
  /\ List.length (fst (put_task now db id req)) = List.length db
  /\ (forall t, In t db -> _id t <> id -> In t (fst (put_task now db id req))).
Proof.
  rewrite put_task_collection.
  destruct (blank_update req); [repeat split; auto|].
  assert (Hid : map _id (fst (update_first id (update_data now req) db)) = map _id db)
    by (apply update_first_map; reflexivity).
  split; [exact Hid|]. split; [apply update_first_map; reflexivity|]. split.
  - rewrite <- (length_map _id), Hid. apply length_map.
  - intros t. apply update_first_others.
Qed.

(** *** Create, list, delete *)

Lemma filter_all_true {A : Type} (p : A -> bool) (l : list A) :
  (forall x, In x l -> p x = true) -> List.filter p l = l.
Proof.
  induction l as [|x l IH]; intros Hp; [reflexivity|].
  cbn [List.filter]. rewrite (Hp x (or_introl eq_refl)), IH; [reflexivity|].
  intros y Hy. apply Hp. right. exact Hy.
Qed.

Lemma get_tasks_unconstrained `{StoreSort} (db : Collection) :
  get_tasks db None None = Some (json (TasksJson (sort_desc db))).
Proof.
  rewrite ServiceProps.get_tasks_by_verdict. cbn [verdict_of].
  rewrite filter_all_true; [reflexivity|]. intros t _. reflexivity.
Qed.

(** X5. A record that [POST] has just stored is listed by
    [GET /api/tasks]: the unfiltered list holds it and is one longer than
    the collection was; [filter=pending] lists it (a new record is not
    completed) and [filter=completed] does not. *)
Theorem created_record_is_listed `{StoreSort} (oid : Id) (t_new t_save : Z)
    (db : Collection) (req : CreateBody) :
  ~ blank (c_text req) ->
  exists task l lp lc,
    snd (post_tasks oid t_new t_save db req) = status_json 201 (TaskJson task)
    /\ listed (get_tasks (fst (post_tasks oid t_new t_save db req)) None None) = Some l
    /\ In task l /\ List.length l = S (List.length db)
    /\ listed (get_tasks (fst (post_tasks oid t_new t_save db req))
                 (Some "pending"%string) None) = Some lp
    /\ In task lp
    /\ listed (get_tasks (fst (post_tasks oid t_new t_save db req))
                 (Some "completed"%string) None) = Some lc
    /\ ~ In task lc.
Proof.
  intros Hb.
  destruct (post_tasks_accepts oid t_new t_save db req Hb) as (s & _ & _ & ->).
  cbn [fst snd]. set (task := created oid t_new t_save s (c_important req)).
  exists task. rewrite get_tasks_unconstrained, !ServiceProps.get_tasks_by_verdict.
  cbn [verdict_of listed json status body].
  eexists _, _, _. split; [reflexivity|]. split; [reflexivity|].
  split; [|split; [|split; [reflexivity|split; [|split; [reflexivity|]]]]].
  - apply ServiceProps.In_sort_desc, in_or_app. right. left. reflexivity.
  - rewrite <- (Permutation_length (sort_desc_perm _)), length_app. cbn. lia.
  - apply ServiceProps.In_sort_desc, filter_In. split; [|reflexivity].
    apply in_or_app. right. left. reflexivity.
  - intros Hin. apply ServiceProps.In_sort_desc, filter_In in Hin as [_ Hsel].
    discriminate Hsel.
Qed.

Lemma created_record_is_listed_witness :
  ~ blank (Some " buy milk "%string)
  /\ exists task l lp lc,
       snd (post_tasks "65f0c1"%string 7000 7001 [Sample.alpha]
              {| c_text := Some " buy milk "%string; c_important := None |})
       = status_json 201 (TaskJson task)
       /\ listed (get_tasks (H := stable_sort)
                    (fst (post_tasks "65f0c1"%string 7000 7001 [Sample.alpha]
                            {| c_text := Some " buy milk "%string;
                               c_important := None |})) None None) = Some l
       /\ In task l /\ List.length l = 2
       /\ listed (get_tasks (H := stable_sort)
                    (fst (post_tasks "65f0c1"%string 7000 7001 [Sample.alpha]
                            {| c_text := Some " buy milk "%string;
                               c_important := None |}))
                    (Some "pending"%string) None) = Some lp
       /\ In task lp
       /\ listed (get_tasks (H := stable_sort)
                    (fst (post_tasks "65f0c1"%string 7000 7001 [Sample.alpha]
                            {| c_text := Some " buy milk "%string;
                               c_important := None |}))
                    (Some "completed"%string) None) = Some lc
       /\ ~ In task lc.
Proof.
  assert (Hnb : ~ blank (Some " buy milk "%string)) by (cbn; discriminate).
  split; [exact Hnb|].
  exact (created_record_is_listed (H := stable_sort) "65f0c1"%string 7000 7001
           [Sample.alpha]
           {| c_text := Some " buy milk "%string; c_important := None |} Hnb).
Defined.

(** X6. A record created later than every stored record heads the
    unfiltered list, whatever the store does with equal [createdAt]. *)
Theorem newest_record_heads_the_list `{StoreSort} (oid : Id) (t_new t_save : Z)
    (db : Collection) (req : CreateBody) :
  ~ blank (c_text req) ->
  (forall t, In t db -> (createdAt t < t_new)%Z) ->
  exists task rest,
    snd (post_tasks oid t_new t_save db req) = status_json 201 (TaskJson task)
    /\ listed (get_tasks (fst (post_tasks oid t_new t_save db req)) None None)
       = Some (task :: rest).
Proof.
  intros Hb Hnew.
  destruct (post_tasks_accepts oid t_new t_save db req Hb) as (s & _ & _ & ->).
  cbn [fst snd]. set (task := created oid t_new t_save s (c_important req)).
  rewrite get_tasks_unconstrained. cbn [listed json status body].
  pose proof (sort_desc_sorted (db ++ [task])) as Hsorted.
  assert (Hin : forall x, In x (sort_desc (db ++ [task])) <-> In x db \/ x = task).
  { intros x. rewrite ServiceProps.In_sort_desc, in_app_iff. cbn. intuition. }
  destruct (sort_desc (db ++ [task])) as [|h rest] eqn:Hl.
  - exfalso. apply (proj2 (Hin task)). right. reflexivity.
  - exists task, rest. split; [reflexivity|]. do 2 f_equal.
    inversion Hsorted as [|? ? _ Hh]; subst.
    destruct (proj1 (Hin h) (or_introl eq_refl)) as [Hdb|Heq]; [|exact Heq].
    exfalso. specialize (Hnew h Hdb).
    destruct (proj2 (Hin task) (or_intror eq_refl)) as [Heq|Hrest].
    + subst h. cbn in Hnew. lia.
    + rewrite Forall_forall in Hh. specialize (Hh task Hrest). cbn in Hh. lia.
Qed.

Lemma newest_record_heads_the_list_witness :
  ~ blank (Some " buy milk "%string)
  /\ (forall t, In t [Sample.alpha; Sample.beta] -> (createdAt t < 7000)%Z)
  /\ exists task rest,
       snd (post_tasks "65f0c1"%string 7000 7001 [Sample.alpha; Sample.beta]
              {| c_text := Some " buy milk "%string; c_important := None |})
       = status_json 201 (TaskJson task)
       /\ listed (get_tasks (H := reversing_sort)
                    (fst (post_tasks "65f0c1"%string 7000 7001
                            [Sample.alpha; Sample.beta]
                            {| c_text := Some " buy milk "%string;
                               c_important := None |})) None None)
          = Some (task :: rest).
Proof.
  assert (Hnb : ~ blank (Some " buy milk "%string)) by (cbn; discriminate).
  assert (Hnew : forall t, In t [Sample.alpha; Sample.beta] -> (createdAt t < 7000)%Z).
  { intros t [<-|[<-|[]]]; cbn; lia. }
  split; [exact Hnb|]. split; [exact Hnew|].
  exact (newest_record_heads_the_list (H := reversing_sort) "65f0c1"%string 7000 7001
           [Sample.alpha; Sample.beta]
           {| c_text := Some " buy milk "%string; c_important := None |} Hnb Hnew).
Defined.

(** X7. Deleting a record right after creating it gives back the
    collection as it was, provided the new identifier was not in use. *)
Theorem create_then_delete_restores (oid : Id) (t_new t_save : Z)
    (db : Collection) (req : CreateBody) :
  ~ blank (c_text req) -> unknown oid db ->
  delete_task (fst (post_tasks oid t_new t_save db req)) oid
  = (db, json (MessageJson "Task deleted successfully"%string)).
Proof.
  intros Hb Hu.
  destruct (post_tasks_accepts oid t_new t_save db req Hb) as (s & _ & _ & ->).
  cbn [fst]. unfold delete_task.
  assert (Hdel : findByIdAndDelete oid (db ++ [created oid t_new t_save s (c_important req)])
                 = (db, Some (created oid t_new t_save s (c_important req)))).
  { clear Hb. induction db as [|t db IH].
    - cbn. rewrite String.eqb_refl. reflexivity.
    - apply ServiceProps.unknown_cons in Hu as [Ht Hu].
      cbn [app findByIdAndDelete]. rewrite Ht, (IH Hu). reflexivity. }
  rewrite Hdel. reflexivity.
Qed.

Lemma create_then_delete_restores_witness :
  ~ blank (Some " buy milk "%string)
  /\ unknown "65f0c1"%string [Sample.alpha; Sample.beta]
  /\ delete_task
       (fst (post_tasks "65f0c1"%string 7000 7001 [Sample.alpha; Sample.beta]
               {| c_text := Some " buy milk "%string; c_important := None |}))
       "65f0c1"%string
     = ([Sample.alpha; Sample.beta],
        json (MessageJson "Task deleted successfully"%string)).
Proof.
  assert (Hnb : ~ blank (Some " buy milk "%string)) by (cbn; discriminate).
  assert (Hu : unknown "65f0c1"%string [Sample.alpha; Sample.beta]).
  { intros t [<-|[<-|[]]]; discriminate. }
  split; [exact Hnb|]. split; [exact Hu|].
  exact (create_then_delete_restores "65f0c1"%string 7000 7001
           [Sample.alpha; Sample.beta]
           {| c_text := Some " buy milk "%string; c_important := None |} Hnb Hu).
Defined.

(** *** Statistics after a change *)

Lemma get_stats_recount (db : Collection) :
  get_stats db = json (StatsJson (recount db)).
Proof.
  destruct db as [|t db]; [reflexivity|].
  unfold get_stats, aggregate_group, recount.
  rewrite !ServiceProps.sum_cond_eq_count, ServiceProps.fold_total.
  do 3 f_equal; try reflexivity; f_equal; apply filter_ext; intros x;
    rewrite ?ServiceProps.eqb_true_r, ?ServiceProps.eqb_false_r; reflexivity.
Qed.

Lemma count_filter_app (p : Task -> bool) (l : list Task) (t : Task) :
  List.length (List.filter p (l ++ [t]))
  = (if p t then 1 else 0) + List.length (List.filter p l).
Proof.
  rewrite filter_app, length_app. cbn [List.filter].
  destruct (p t); cbn [List.length]; lia.
Qed.

Lemma count_filter_by_map (p : Task -> bool) (l1 l2 : list Task) :
  map p l1 = map p l2 ->
  List.length (List.filter p l1) = List.length (List.filter p l2).
Proof.
  revert l2. induction l1 as [|a l1 IH]; intros [|b l2] Heq;
    try discriminate Heq; [reflexivity|].
  cbn [map] in Heq. injection Heq as Hab Hrest.
  cbn [List.filter]. rewrite Hab. destruct (p b); cbn [List.length];
    rewrite (IH l2 Hrest); reflexivity.
Qed.

Lemma recount_app (db : Collection) (t : Task) :
  recount (db ++ [t]) = count_in t (recount db).
Proof.
  unfold recount, count_in. cbn [Stats.total Stats.completed Stats.pending Stats.important].
  rewrite !count_filter_app, length_app. cbn [List.length].
  f_equal; try lia. destruct (completed t); reflexivity.
Qed.

(** X9. After a successful create the statistics count one more record
    and one more pending record; the completed count is as before, and
    the important count is one more exactly when the record was created
    important. *)
Theorem stats_after_create (oid : Id) (t_new t_save : Z) (db : Collection)
    (req : CreateBody) :
  ~ blank (c_text req) ->
  get_stats (fst (post_tasks oid t_new t_save db req))
  = json (StatsJson
      {| Stats.total := S (Stats.total (recount db));
         Stats.completed := Stats.completed (recount db);
         Stats.pending := S (Stats.pending (recount db));
         Stats.important :=
           (match c_important req with Some true => 1 | _ => 0 end)
           + Stats.important (recount db) |}).
Proof.
  intros Hb.
  destruct (post_tasks_accepts oid t_new t_save db req Hb) as (s & _ & _ & ->).
  cbn [fst]. rewrite get_stats_recount, recount_app. unfold count_in.
  cbn [created completed important]. do 3 f_equal.
  destruct (c_important req) as [[|]|]; reflexivity.
Qed.

Lemma stats_after_create_witness :
  ~ blank (Some "a"%string)
  /\ get_stats (fst (post_tasks "65f0d1"%string 100 100 [Sample.beta]
                       {| c_text := Some "a"%string; c_important := Some true |}))
     = json (StatsJson {| Stats.total := 2; Stats.completed := 1;
                          Stats.pending := 1; Stats.important := 1 |}).
Proof.
  assert (Hnb : ~ blank (Some "a"%string)) by (cbn; discriminate).
  split; [exact Hnb|].
  exact (stats_after_create "65f0d1"%string 100 100 [Sample.beta]
           {| c_text := Some "a"%string; c_important := Some true |} Hnb).
Defined.

(** X10. An update never changes the total; it leaves the completed and
    pending counts alone when the payload has no [completed], and the
    important count alone when it has no [important]. *)
Theorem stats_after_update (now : Z) (db : Collection) (id : Id)
    (req : UpdateBody) :
  Stats.total (recount (fst (put_task now db id req))) = Stats.total (recount db)
  /\ (u_completed req = None ->
      Stats.completed (recount (fst (put_task now db id req)))
      = Stats.completed (recount db)
      /\ Stats.pending (recount (fst (put_task now db id req)))
         = Stats.pending (recount db))
  /\ (u_important req = None ->
      Stats.important (recount (fst (put_task now db id req)))
      = Stats.important (recount db)).
Proof.
  rewrite put_task_collection.
  destruct (blank_update req); [repeat split; reflexivity|].
  unfold recount. cbn [Stats.total Stats.completed Stats.pending Stats.important].
  split; [|split].
  - rewrite <- (length_map _id), update_first_map; [apply length_map|reflexivity].
  - intros Hc. split; apply count_filter_by_map; apply update_first_map;
      intros t; unfold update_data; cbn; rewrite Hc; reflexivity.
  - intros Hi. apply count_filter_by_map, update_first_map.
    intros t. unfold update_data. cbn. rewrite Hi. reflexivity.
Qed.

Lemma stats_after_update_witness :
  u_completed {| u_text := None; u_completed := None; u_important := Some true |}
  = None
  /\ Stats.completed
       (recount (fst (put_task 9000 [Sample.alpha; Sample.beta] "65f0a3"%string
                        {| u_text := None; u_completed := None;
                           u_important := Some true |})))
     = 1.
Proof.
  split; [reflexivity|].
  exact (proj1 (proj1 (proj2 (stats_after_update 9000 [Sample.alpha; Sample.beta]
                                "65f0a3"%string
                                {| u_text := None; u_completed := None;
                                   u_important := Some true |})) eq_refl)).
Defined.

Lemma recount_remove (db : Collection) (id : Id) (old : Task) :
  NoDup (map _id db) -> In old db -> _id old = id ->
  recount db
  = count_in old (recount (List.filter (fun t => negb (String.eqb (_id t) id)) db)).
Proof.
  intros Hnd Hin Hid. subst id.
  induction db as [|t db IH]; [destruct Hin|].
  cbn [map] in Hnd. inversion Hnd as [|? ? Hnotin Hnd']; subst.
  destruct Hin as [->|Hin].
  - cbn [List.filter]. rewrite String.eqb_refl. cbn [negb].
    rewrite ServiceProps.filter_unknown
      by (apply ServiceProps.unknown_not_In; exact Hnotin).
    unfold recount, count_in. cbn [List.filter List.length Stats.total
      Stats.completed Stats.pending Stats.important].
    destruct (completed old), (important old); reflexivity.
  - assert (Hne : String.eqb (_id t) (_id old) = false).
    { apply String.eqb_neq. intros Heq. apply Hnotin. rewrite Heq.
      apply in_map. exact Hin. }
    cbn [List.filter]. rewrite Hne. cbn [negb].
    specialize (IH Hnd' Hin). unfold recount, count_in in *.
    cbn [List.filter List.length Stats.total Stats.completed Stats.pending
         Stats.important] in *.
    injection IH as Ht Hc Hp Hi.
    destruct (completed t), (important t); cbn [negb List.length];
      rewrite ?Ht, ?Hc, ?Hp, ?Hi; f_equal; lia.
Qed.

(** X11. After a successful delete the statistics are those of before
    less the deleted record: the total is one lower, and so are the
    counts the record was part of. *)
Theorem stats_after_delete (db : Collection) (id : Id) :
  NoDup (map _id db) -> In id (map _id db) ->
  exists old,
    In old db /\ _id old = id
    /\ snd (delete_task db id) = json (MessageJson "Task deleted successfully"%string)
    /\ get_stats db
       = json (StatsJson (count_in old (recount (fst (delete_task db id))))).
Proof.
  intros Hnd Hin.
  destruct (ServiceProps.findByIdAndDelete_known id db Hnd Hin)
    as (old & Hold & Hid & Hdel).
  exists old. unfold delete_task. rewrite Hdel. cbn [fst snd].
  repeat split; try assumption.
  rewrite get_stats_recount, (recount_remove db id old Hnd Hold Hid). reflexivity.
Qed.

Lemma stats_after_delete_witness :
  NoDup (map _id [Sample.alpha; Sample.beta])
  /\ In "65f0a3"%string (map _id [Sample.alpha; Sample.beta])
  /\ exists old,
       In old [Sample.alpha; Sample.beta] /\ _id old = "65f0a3"%string
       /\ snd (delete_task [Sample.alpha; Sample.beta] "65f0a3"%string)
          = json (MessageJson "Task deleted successfully"%string)
       /\ get_stats [Sample.alpha; Sample.beta]
          = json (StatsJson
               (count_in old
                  (recount (fst (delete_task [Sample.alpha; Sample.beta]
                                   "65f0a3"%string))))).
Proof.
  assert (Hnd : NoDup (map _id [Sample.alpha; Sample.beta])).
  { repeat constructor; cbn; intuition discriminate. }
  assert (Hin : In "65f0a3"%string (map _id [Sample.alpha; Sample.beta])).
  { right. left. reflexivity. }
  split; [exact Hnd|]. split; [exact Hin|].
  exact (stats_after_delete [Sample.alpha; Sample.beta] "65f0a3"%string Hnd Hin).
Defined.

(** *** More on the filter and on updates *)

Lemma apply_update_twice (now1 now2 : Z) (req : UpdateBody) (t : Task) :
  apply_update (update_data now2 req) (apply_update (update_data now1 req) t)
  = apply_update (update_data now2 req) t.
Proof.
  unfold apply_update, update_data. cbn.
  destruct (u_text req), (u_completed req), (u_important req); reflexivity.
Qed.

Lemma update_first_twice (now1 now2 : Z) (req : UpdateBody) (id : Id)
    (db : Collection) :
  update_first id (update_data now2 req)
    (fst (update_first id (update_data now1 req) db))
  = update_first id (update_data now2 req) db.
Proof.
  induction db as [|t db IH]; [reflexivity|].
  cbn [update_first]. destruct (String.eqb (_id t) id) eqn:Ht.
  - cbn [fst update_first]. cbn [apply_update _id]. rewrite Ht, apply_update_twice.
    reflexivity.
  - destruct (update_first id (update_data now1 req) db) as [rest r].
    cbn [fst] in *. cbn [update_first]. rewrite Ht, IH. reflexivity.
Qed.

(** X13. Sending an update a second time changes nothing but
    [updatedAt]: the second request is answered, and leaves the
    collection, as if it had been the only one. *)
Theorem repeated_update_is_the_last_one (now1 now2 : Z) (db : Collection)
    (id : Id) (req : UpdateBody) :
  put_task now2 (fst (put_task now1 db id req)) id req = put_task now2 db id req.
Proof.
  rewrite put_task_collection, !put_task_unfold.
  destruct (blank_update req); [reflexivity|].
  rewrite update_first_twice. reflexivity.
Qed.

End ServiceInvariants.

(** ** The client's handlers, and the client against the service *)

Module ClientHandlers.
Import JsString Server Client Reading Conditions RegexFacts.

Lemma find_id_In (id : Id) (l : list Task) (t : Task) :
  List.find (fun t => String.eqb (_id t) id) l = Some t -> In t l /\ _id t = id.
Proof.
  intros Hf. apply find_some in Hf as [Hin Heq].
  apply String.eqb_eq in Heq. auto.
Qed.

Lemma find_id_None (id : Id) (l : list Task) :
  List.find (fun t => String.eqb (_id t) id) l = None <-> unknown id l.
Proof.
  split.
  - intros Hf t Hin. apply String.eqb_neq. exact (find_none _ _ Hf t Hin).
  - intros Hu. induction l as [|t l IH]; [reflexivity|].
    apply ServiceProps.unknown_cons in Hu as [Ht Hu].
    cbn [List.find]. rewrite Ht. auto.
Qed.

Lemma find_id_replaced (id : Id) (new : Task) (l : list Task) :
  _id new = id ->
  List.find (fun t => String.eqb (_id t) id)
    (map (fun task => if String.eqb (_id task) id then new else task) l)
  = option_map (fun _ => new) (List.find (fun t => String.eqb (_id t) id) l).
Proof.
  intros Hnew. induction l as [|t l IH]; [reflexivity|].
  cbn [map List.find]. destruct (String.eqb (_id t) id) eqn:Ht.
  - rewrite Hnew, String.eqb_refl. reflexivity.
  - rewrite Ht. exact IH.
Qed.

(** A valid update of an id that a record has is answered with the
    first such record, updated. *)
Lemma put_task_known (now : Z) (db : Collection) (id : Id) (req : UpdateBody) :
  blank_update req = false -> In id (map _id db) ->
  exists srv,
    In srv db /\ _id srv = id
    /\ snd (put_task now db id req)
       = json (TaskJson (apply_update (update_data now req) srv)).
Proof.
  intros Hb Hin. rewrite ServiceInvariants.put_task_unfold, Hb.
  destruct (ServiceInvariants.update_first_known id (update_data now req) db Hin)
    as (db' & new & Hup).
  rewrite Hup. cbn [snd].
  destruct (ServiceProps.update_first_found _ _ _ _ _ Hup)
    as (pre & old & post & -> & _ & Hold & -> & _).
  exists old. split; [apply in_or_app; right; left; reflexivity|].
  split; [exact Hold|reflexivity].
Qed.

(** *** Adding a task *)

(** X15. When the create request of [addTask] has settled, the compose
    text is empty, also when the request failed: then the mirror is as
    it was, the error message is set, and the text typed is gone. On
    success the new record heads the mirror and a statistics request is
    sent. *)
Theorem compose_text_is_cleared_either_way (r : Reply Task) (st : State) :
  newTask (fst (addTask_settle r st)) = EmptyString
  /\ (failed r = true ->
      tasks (fst (addTask_settle r st)) = tasks st
      /\ error (fst (addTask_settle r st))
         = Some "Failed to create task. Please try again."%string
      /\ snd (addTask_settle r st) = [])
  /\ (forall t, r = Ok (Some t) ->
      tasks (fst (addTask_settle r st)) = t :: tasks st
      /\ error (fst (addTask_settle r st)) = error st
      /\ snd (addTask_settle r st) = [GET_stats]).
Proof.
  split; [destruct r as [| |[t|]]; reflexivity|]. split.
  - intros Hf. destruct r as [| |d]; try discriminate Hf; repeat split.
  - intros t ->. repeat split.
Qed.

Lemma compose_text_is_cleared_either_way_witness :
  failed (@NetworkError Task) = true
  /\ newTask (fst (addTask_settle NetworkError Sample.composing)) = EmptyString
  /\ tasks (fst (addTask_settle NetworkError Sample.composing))
     = tasks Sample.composing.
Proof.
  split; [reflexivity|].
  exact (conj
    (proj1 (compose_text_is_cleared_either_way NetworkError Sample.composing))
    (proj1 (proj1 (proj2 (compose_text_is_cleared_either_way NetworkError
                            Sample.composing)) eq_refl))).
Defined.

(** *** Toggling *)

(** X16. [toggleTask] sends nothing for an id the mirror does not hold.
    For an id it holds, it asks the service to set [completed] to the
    opposite of what the mirror shows, and nothing else; when the
    collection has a record of that id, the answer is that record with
    its text, importance and creation time as stored and [completed] as
    asked, and once reconciled every mirrored record of that id is the
    answer. *)
Theorem toggle_sets_the_opposite_of_the_mirror (id : Id) (st : State) :
  (unknown id (tasks st) -> toggleTask id st = (st, None))
  /\ (forall task,
        List.find (fun t => String.eqb (_id t) id) (tasks st) = Some task ->
        let updates := {| u_text := None;
                          u_completed := Some (negb (completed task));
                          u_important := None |} in
        toggleTask id st = (st, Some (PUT_task id updates))
        /\ forall now db,
             In id (map _id db) ->
             exists srv new,
               In srv db /\ _id srv = id
               /\ snd (put_task now db id updates) = json (TaskJson new)
               /\ new = {| _id := id; text := text srv;
                           completed := negb (completed task);
                           important := important srv;
                           createdAt := createdAt srv; updatedAt := now |}
               /\ In new (tasks (fst (updateTask_settle id (Ok (Some new)) st)))
               /\ forall t,
                    In t (tasks (fst (updateTask_settle id (Ok (Some new)) st))) ->
                    _id t = id -> t = new).
Proof.
  split.
  - intros Hu. unfold toggleTask. apply find_id_None in Hu. rewrite Hu. reflexivity.
  - intros task Hfind updates. split.
    + unfold toggleTask. rewrite Hfind. reflexivity.
    + intros now db Hin.
      destruct (put_task_known now db id updates eq_refl Hin) as (srv & Hsrv & Hid & Hput).
      exists srv, (apply_update (update_data now updates) srv).
      split; [exact Hsrv|]. split; [exact Hid|]. split; [exact Hput|].
      split; [unfold apply_update, update_data; cbn; rewrite Hid; reflexivity|].
      destruct (find_id_In _ _ _ Hfind) as [Hmirror Hmid].
      cbn [updateTask_settle fst setTasks tasks]. split.
      * apply in_map_iff. exists task. split; [|exact Hmirror].
        apply String.eqb_eq in Hmid. rewrite Hmid. reflexivity.
      * intros t Ht Htid. apply in_map_iff in Ht as (x & Hx & _).
        destruct (String.eqb (_id x) id) eqn:Hxid; [congruence|].
        subst t. apply String.eqb_neq in Hxid. contradiction.
Qed.

Lemma toggle_sets_the_opposite_of_the_mirror_witness :
  List.find (fun t => String.eqb (_id t) "65f0a3"%string) (tasks Sample.showing)
  = Some Sample.beta
  /\ toggleTask "65f0a3"%string Sample.showing
     = (Sample.showing,
        Some (PUT_task "65f0a3"%string
                {| u_text := None; u_completed := Some false; u_important := None |})).
Proof.
  split; [reflexivity|].
  exact (proj1 (proj2 (toggle_sets_the_opposite_of_the_mirror "65f0a3"%string
                         Sample.showing) Sample.beta eq_refl)).
Defined.

(** X17. [toggleImportant] likewise sends nothing for an id the mirror
    does not hold, and otherwise asks for the opposite importance only:
    the service answers with the stored record, its text and
    [completed] untouched, and the counts of completed and pending
    records do not move. *)
Theorem star_changes_importance_only (id : Id) (st : State) :
  (unknown id (tasks st) -> toggleImportant id st = (st, None))
  /\ (forall task,
        List.find (fun t => String.eqb (_id t) id) (tasks st) = Some task ->
        let updates := {| u_text := None; u_completed := None;
                          u_important := Some (negb (important task)) |} in
        toggleImportant id st = (st, Some (PUT_task id updates))
        /\ forall now db,
             In id (map _id db) ->
             (exists srv,
                In srv db /\ _id srv = id
                /\ snd (put_task now db id updates)
                   = json (TaskJson {| _id := id; text := text srv;
                                       completed := completed srv;
                                       important := negb (important task);
                                       createdAt := createdAt srv;
                                       updatedAt := now |}))
             /\ Stats.completed (recount (fst (put_task now db id updates)))
                = Stats.completed (recount db)
             /\ Stats.pending (recount (fst (put_task now db id updates)))
                = Stats.pending (recount db)).
Proof.
  split.
  - intros Hu. unfold toggleImportant. apply find_id_None in Hu. rewrite Hu.
    reflexivity.
  - intros task Hfind updates. split.
    + unfold toggleImportant. rewrite Hfind. reflexivity.
    + intros now db Hin. split.
      * destruct (put_task_known now db id updates eq_refl Hin)
          as (srv & Hsrv & Hid & Hput).
        exists srv. split; [exact Hsrv|]. split; [exact Hid|].
        rewrite Hput. unfold apply_update, update_data. cbn. rewrite Hid.
        reflexivity.
      * rewrite ServiceInvariants.put_task_collection. cbn [blank_update u_text updates].
        unfold recount. cbn [Stats.completed Stats.pending].
        split; apply ServiceInvariants.count_filter_by_map;
          apply ServiceInvariants.update_first_map; intros t; reflexivity.
Qed.

Lemma star_changes_importance_only_witness :
  List.find (fun t => String.eqb (_id t) "65f0a2"%string) (tasks Sample.showing)
  = Some Sample.alpha
  /\ In "65f0a2"%string (map _id [Sample.alpha; Sample.beta])
  /\ exists srv,
       In srv [Sample.alpha; Sample.beta] /\ _id srv = "65f0a2"%string
       /\ snd (put_task 9000 [Sample.alpha; Sample.beta] "65f0a2"%string
                 {| u_text := None; u_completed := None;
                    u_important := Some (negb (important Sample.alpha)) |})
          = json (TaskJson {| _id := "65f0a2"%string; text := text srv;
                              completed := completed srv;
                              important := negb (important Sample.alpha);
                              createdAt := createdAt srv; updatedAt := 9000 |}).
Proof.
  assert (Hin : In "65f0a2"%string (map _id [Sample.alpha; Sample.beta])).
  { left. reflexivity. }
  split; [reflexivity|]. split; [exact Hin|].
  exact (proj1 (proj2 (proj2 (star_changes_importance_only "65f0a2"%string
                                Sample.showing) Sample.alpha eq_refl)
                  9000%Z [Sample.alpha; Sample.beta] Hin)).
Defined.

(** X18. A second click undoes the first: once the answer to a toggle
    has been reconciled, [toggleTask] on the same id asks for the value
    the mirror showed before the first click. *)
Theorem second_toggle_asks_for_the_first_value (id : Id) (st : State)
    (task new : Task) :
  List.find (fun t => String.eqb (_id t) id) (tasks st) = Some task ->
  _id new = id -> completed new = negb (completed task) ->
  snd (toggleTask id (fst (updateTask_settle id (Ok (Some new)) st)))
  = Some (PUT_task id {| u_text := None; u_completed := Some (completed task);
                         u_important := None |}).
Proof.
  intros Hfind Hid Hc. unfold toggleTask.
  cbn [updateTask_settle fst setTasks tasks].
  rewrite (find_id_replaced id new (tasks st) Hid), Hfind. cbn [option_map].
  cbn [updateTask_call snd]. rewrite Hc, negb_involutive. reflexivity.
Qed.

Lemma second_toggle_asks_for_the_first_value_witness :
  List.find (fun t => String.eqb (_id t) "65f0a3"%string) (tasks Sample.showing)
  = Some Sample.beta
  /\ snd (toggleTask "65f0a3"%string
            (fst (updateTask_settle "65f0a3"%string (Ok (Some Sample.beta_reopened))
                    Sample.showing)))
     = Some (PUT_task "65f0a3"%string
               {| u_text := None; u_completed := Some true; u_important := None |}).
Proof.
  split; [reflexivity|].
  exact (second_toggle_asks_for_the_first_value "65f0a3"%string Sample.showing
           Sample.beta Sample.beta_reopened eq_refl eq_refl eq_refl).
Defined.

(** *** Fetching *)

Lemma get_tasks_params `{StoreSort} (db : Collection) (f s : string) :
  get_tasks db (if String.eqb f "all" then None else Some f)
               (if truthy s then Some s else None)
  = get_tasks db (Some f) (Some s).
Proof.
  assert (Hq : build_query (if String.eqb f "all" then None else Some f)
                           (if truthy s then Some s else None)
               = build_query (Some f) (Some s)).
  { unfold build_query. destruct (String.eqb f "all") eqn:Hall.
    - apply String.eqb_eq in Hall. subst f. cbn.
      destruct (truthy s) eqn:Hs; rewrite ?Hs; reflexivity.
    - destruct (truthy s) eqn:Hs; rewrite ?Hs; reflexivity. }
  unfold get_tasks. rewrite Hq. reflexivity.
Qed.

(** X19. Leaving [filter] out of the query when it is [all], and
    [search] when it is empty, costs nothing: the service answers the
    request that [fetchTasks] sends as it would answer one carrying the
    client's filter and search term in full. The same holds for the
    request that goes out when another filter is picked or another
    search term typed, and picking the filter or typing the term that
    is already set sends nothing. *)
Theorem fetch_query_means_filter_and_search `{StoreSort} (db : Collection)
    (st : State) :
  (exists f s,
     snd (fetchTasks_call st) = GET_tasks f s
     /\ get_tasks db f s = get_tasks db (Some (filter st)) (Some (searchTerm st)))
  /\ (forall f', f' <> filter st ->
      exists f s,
        snd (pickFilter f' st) = [GET_tasks f s]
        /\ get_tasks db f s = get_tasks db (Some f') (Some (searchTerm st)))
  /\ (forall s', s' <> searchTerm st ->
      exists f s,
        snd (typeSearch s' st) = [GET_tasks f s]
        /\ get_tasks db f s = get_tasks db (Some (filter st)) (Some s'))
  /\ pickFilter (filter st) st = (st, [])
  /\ typeSearch (searchTerm st) st = (st, []).
Proof.
  split; [|split; [|split; [|split]]].
  - eexists _, _. split; [reflexivity|]. cbn. apply get_tasks_params.
  - intros f' Hne. apply String.eqb_neq in Hne.
    unfold pickFilter. rewrite Hne.
    eexists _, _. split; [reflexivity|]. cbn. apply get_tasks_params.
  - intros s' Hne. apply String.eqb_neq in Hne.
    unfold typeSearch. rewrite Hne.
    eexists _, _. split; [reflexivity|]. cbn. apply get_tasks_params.
  - unfold pickFilter. rewrite String.eqb_refl. reflexivity.
  - unfold typeSearch. rewrite String.eqb_refl. reflexivity.
Qed.

Lemma fetch_query_means_filter_and_search_witness :
  "pending"%string <> filter Sample.showing
  /\ exists f s,
       snd (pickFilter "pending" Sample.showing) = [GET_tasks f s]
       /\ get_tasks (H := SortFacts.stable_sort) [Sample.alpha; Sample.beta] f s
          = get_tasks (H := SortFacts.stable_sort) [Sample.alpha; Sample.beta]
              (Some "pending"%string) (Some (searchTerm Sample.showing)).
Proof.
  assert (Hne : "pending"%string <> filter Sample.showing) by discriminate.
  split; [exact Hne|].
  exact (proj1 (proj2 (fetch_query_means_filter_and_search
                         (H := SortFacts.stable_sort)
                         [Sample.alpha; Sample.beta] Sample.showing))
           "pending"%string Hne).
Defined.

(** X20. The list is marked as loading from the call of [fetchTasks]
    until its request settles, whichever way that is: the Add button is
    disabled in between, and afterwards the mark is off. A success puts
    the answer in place of the mirror, whatever the mirror held, and
    clears the error; anything else keeps the mirror. *)
Theorem loading_spans_the_fetch (r : Reply (list Task)) (st st1 : State) :
  loading (fst (fetchTasks_call st)) = true
  /\ addDisabled (fst (fetchTasks_call st)) = true
  /\ loading (fst (fetchTasks_settle r st1)) = false
  /\ (forall data, r = Ok (Some data) ->
      tasks (fst (fetchTasks_settle r st1)) = data
      /\ error (fst (fetchTasks_settle r st1)) = None)
  /\ ((forall data, r <> Ok (Some data)) ->
      tasks (fst (fetchTasks_settle r st1)) = tasks st1
      /\ error (fst (fetchTasks_settle r st1))
         = Some "Failed to load tasks. Please try again."%string).
Proof.
  split; [reflexivity|]. split; [reflexivity|].
  split; [destruct r as [| |[d|]]; reflexivity|]. split.
  - intros data ->. split; reflexivity.
  - intros Hr. destruct r as [| |[d|]]; try (split; reflexivity).
    exfalso. exact (Hr d eq_refl).
Qed.

Lemma loading_spans_the_fetch_witness :
  (forall data, @Ok (list Task) None <> Ok (Some data))
  /\ tasks (fst (fetchTasks_settle (Ok None) Sample.showing)) = tasks Sample.showing
  /\ error (fst (fetchTasks_settle (Ok None) Sample.showing))
     = Some "Failed to load tasks. Please try again."%string.
Proof.
  assert (Hr : forall data, @Ok (list Task) None <> Ok (Some data))
    by (intros data; discriminate).
  split; [exact Hr|].
  exact (proj2 (proj2 (proj2 (proj2
    (loading_spans_the_fetch (Ok None) Sample.showing Sample.showing)))) Hr).
Defined.

(** X21. A statistics request that fails is passed over in silence: the
    client's state, error message included, is exactly what it was, so
    the counts on screen may lag behind the mirror. A success replaces
    the counts and nothing else. *)
Theorem failed_stats_are_silent (r : Reply Stats.t) (st : State) :
  ((forall data, r <> Ok (Some data)) -> fetchStats_settle r st = (st, []))
  /\ (forall data, r = Ok (Some data) ->
      fetchStats_settle r st = (setStats data st, [])
      /\ tasks (setStats data st) = tasks st
      /\ error (setStats data st) = error st).
Proof.
  split.
  - intros Hr. destruct r as [| |[d|]]; try reflexivity.
    exfalso. exact (Hr d eq_refl).
  - intros data ->. repeat split.
Qed.

Lemma failed_stats_are_silent_witness :
  (forall data, @NotOk Stats.t <> Ok (Some data))
  /\ fetchStats_settle NotOk Sample.showing = (Sample.showing, []).
Proof.
  assert (Hr : forall data, @NotOk Stats.t <> Ok (Some data))
    by (intros data; discriminate).
  split; [exact Hr|].
  exact (proj1 (failed_stats_are_silent NotOk Sample.showing) Hr).
Defined.

(** *** Deleting *)

(** X22. Once a delete has been confirmed, the mirror holds no record of
    that id and keeps the others in their order; the statistics are
    asked for again; and clicking the check box or the star of that id
    sends nothing any more. *)
Theorem confirmed_delete_clears_the_id (id : Id) (data : option unit)
    (st : State) :
  let st' := fst (deleteTask_settle id (Ok data) st) in
  unknown id (tasks st')
  /\ tasks st' = List.filter (fun t => negb (String.eqb (_id t) id)) (tasks st)
  /\ (forall t, In t (tasks st) -> _id t <> id -> In t (tasks st'))
  /\ snd (deleteTask_settle id (Ok data) st) = [GET_stats]
  /\ toggleTask id st' = (st', None)
  /\ toggleImportant id st' = (st', None).
Proof.
  cbn zeta. cbn [deleteTask_settle fst snd].
  assert (Hu : unknown id
    (tasks (setTasks (fun prev => List.filter
                        (fun task => negb (String.eqb (_id task) id)) prev) st))).
  { cbn [setTasks tasks]. intros t Ht. apply filter_In in Ht as [_ Ht].
    apply negb_true_iff, String.eqb_neq in Ht. exact Ht. }
  split; [exact Hu|]. split; [reflexivity|]. split; [|split; [reflexivity|]].
  - intros t Hin Hne. cbn [setTasks tasks]. apply filter_In. split; [exact Hin|].
    apply negb_true_iff, String.eqb_neq. exact Hne.
  - apply find_id_None in Hu. unfold toggleTask, toggleImportant.
    rewrite Hu. split; reflexivity.
Qed.

End ClientHandlers.

(** ** The stand-alone component *)

Module LocalProps.
Import JsString LocalApp Conditions RegexFacts.

Lemma state_eta (st : State) :
  {| tasks := tasks st; newTask := newTask st; filter := filter st;
     searchTerm := searchTerm st |} = st.
Proof. destruct st; reflexivity. Qed.

Lemma map_id_on {A : Type} (f : A -> A) (l : list A) :
  (forall x, f x = x) -> map f l = l.
Proof.
  intros Hf. induction l as [|x l IH]; [reflexivity|].
  cbn [map]. rewrite Hf, IH. reflexivity.
Qed.

(** X23. The check box and the star of the stand-alone component are
    switches: clicking one twice gives back the state as it was, and
    the order in which a check box and a star are clicked does not
    matter. *)
Theorem toggles_are_switches (i j : Z) (st : State) :
  toggleTask i (toggleTask i st) = st
  /\ toggleImportant i (toggleImportant i st) = st
  /\ toggleTask i (toggleImportant j st) = toggleImportant j (toggleTask i st).
Proof.
  unfold toggleTask, toggleImportant, setTasks. cbn [tasks newTask filter searchTerm].
  rewrite !map_map. split; [|split].
  - rewrite map_id_on; [apply state_eta|].
    intros [ti tt tc tm]. cbn. destruct (Z.eqb ti i) eqn:Hi; cbn;
      rewrite ?Hi, ?negb_involutive; reflexivity.
  - rewrite map_id_on; [apply state_eta|].
    intros [ti tt tc tm]. cbn. destruct (Z.eqb ti i) eqn:Hi; cbn;
      rewrite ?Hi, ?negb_involutive; reflexivity.
  - f_equal. apply map_ext. intros [ti tt tc tm]. cbn.
    destruct (Z.eqb ti j) eqn:Hj, (Z.eqb ti i) eqn:Hi; cbn; rewrite ?Hi, ?Hj;
      reflexivity.
Qed.

(** *** What every state keeps *)

Lemma step_keeps_texts_tidy (a : Action) (st : State) :
  Forall (fun t => tidy (text t)) (tasks st) ->
  Forall (fun t => tidy (text t)) (tasks (step a st)).
Proof.
  intros Hall.
  assert (Hadd : forall now, Forall (fun t => tidy (text t)) (tasks (addTask now st))).
  { intros now. unfold addTask. destruct (truthy (trim (newTask st))) eqn:Ht;
      [|exact Hall].
    cbn. apply Forall_app. split; [exact Hall|].
    constructor; [|constructor]. cbn.
    split; [apply trim_idempotent|apply truthy_iff; exact Ht]. }
  destruct a as [s|s|f|now|key now|i|i|i]; cbn [step]; try exact Hall.
  - apply Hadd.
  - unfold handleKeyPress. destruct (String.eqb key "Enter"); [apply Hadd|exact Hall].
  - cbn. apply Forall_map. eapply Forall_impl; [|exact Hall].
    intros t Ht. destruct (Z.eqb (id t) i); exact Ht.
  - cbn. apply Forall_map. eapply Forall_impl; [|exact Hall].
    intros t Ht. destruct (Z.eqb (id t) i); exact Ht.
  - cbn. rewrite Forall_forall in *. intros t Ht.
    apply filter_In in Ht as [Ht _]. apply Hall. exact Ht.
Qed.

(** X24. Whatever the user does after the component has mounted, in
    whatever order, every task it holds has a text that is trimmed and
    not empty. *)
Theorem every_text_is_tidy (l : list Action) :
  Forall (fun t => tidy (text t)) (tasks (run l mounted)).
Proof.
  unfold run.
  assert (Hgen : forall st,
    Forall (fun t => tidy (text t)) (tasks st) ->
    Forall (fun t => tidy (text t)) (tasks (fold_left (fun st a => step a st) l st))).
  { induction l as [|a l IH]; intros st Hst; [exact Hst|].
    cbn [fold_left]. apply IH, step_keeps_texts_tidy, Hst. }
  apply Hgen. repeat constructor; discriminate.
Qed.

(** *** Adding and deleting *)

(** X25. In the stand-alone component a blank compose text adds nothing,
    by the button or by the Enter key, and a key other than Enter adds
    nothing either; otherwise one task is appended, after the others:
    the compose text trimmed, neither completed nor important, with the
    clock's value as its id; the compose text is emptied, and the counts
    show one more task and one more pending task. *)
Theorem add_appends_the_trimmed_text (now : Z) (key : string) (st : State) :
  (truthy (trim (newTask st)) = false ->
   addTask now st = st /\ handleKeyPress key now st = st)
  /\ (key <> "Enter"%string -> handleKeyPress key now st = st)
  /\ (truthy (trim (newTask st)) = true ->
      tasks (addTask now st)
      = tasks st ++ [ {| id := now; text := trim (newTask st);
                         completed := false; important := false |} ]
      /\ newTask (addTask now st) = EmptyString
      /\ handleKeyPress "Enter" now st = addTask now st
      /\ taskStats (addTask now st)
         = {| Server.Stats.total := S (Server.Stats.total (taskStats st));
              Server.Stats.completed := Server.Stats.completed (taskStats st);
              Server.Stats.pending := S (Server.Stats.pending (taskStats st));
              Server.Stats.important := Server.Stats.important (taskStats st) |}).
Proof.
  unfold handleKeyPress, addTask. split; [|split].
  - intros Ht. rewrite Ht. destruct (String.eqb key "Enter"); split; reflexivity.
  - intros Hk. apply String.eqb_neq in Hk. rewrite Hk. reflexivity.
  - intros Ht. rewrite Ht. split; [reflexivity|]. split; [reflexivity|].
    split; [reflexivity|].
    unfold taskStats. cbn [setNewTask setTasks tasks Server.Stats.total
      Server.Stats.completed Server.Stats.pending Server.Stats.important].
    rewrite !filter_app, !length_app. cbn. f_equal; lia.
Qed.

Lemma add_appends_the_trimmed_text_witness :
  truthy (trim (newTask Sample.local_composing)) = true
  /\ tasks (addTask 1700 Sample.local_composing)
     = savedTasks ++ [ {| id := 1700; text := "call Bob";
                          completed := false; important := false |} ]
  /\ newTask (addTask 1700 Sample.local_composing) = EmptyString.
Proof.
  split; [reflexivity|].
  pose proof (proj2 (proj2 (add_appends_the_trimmed_text 1700 "Enter"
                              Sample.local_composing)) eq_refl)
    as (Htasks & Hnew & _).
  exact (conj Htasks Hnew).
Defined.

(** X26. Deleting in the stand-alone component removes every task of the
    id and no other, keeps the order of the rest, and is idempotent; the
    total shown falls by the number of tasks that had the id. *)
Theorem delete_removes_the_id (i : Z) (st : State) :
  (forall t, In t (tasks (deleteTask i st)) <-> In t (tasks st) /\ id t <> i)
  /\ deleteTask i (deleteTask i st) = deleteTask i st
  /\ Server.Stats.total (taskStats (deleteTask i st))
     + List.length (List.filter (fun t => Z.eqb (id t) i) (tasks st))
     = Server.Stats.total (taskStats st).
Proof.
  unfold deleteTask, setTasks, taskStats.
  cbn [tasks newTask filter searchTerm Server.Stats.total]. split; [|split].
  - intros t. rewrite filter_In, negb_true_iff, Z.eqb_neq. tauto.
  - f_equal. induction (tasks st) as [|t l IH]; [reflexivity|].
    cbn [List.filter]. destruct (Z.eqb (id t) i) eqn:Ht; cbn [negb]; [exact IH|].
    cbn [List.filter]. rewrite Ht. cbn [negb]. rewrite IH. reflexivity.
  - induction (tasks st) as [|t l IH]; [reflexivity|].
    cbn [List.filter]. destruct (Z.eqb (id t) i); cbn [negb List.length]; lia.
Qed.

(** *** The counts and the list on screen *)

Lemma count_split (p : Task -> bool) (l : list Task) :
  List.length (List.filter p l) + List.length (List.filter (fun t => negb (p t)) l)
  = List.length l.
Proof.
  induction l as [|t l IH]; [reflexivity|].
  cbn [List.filter]. destruct (p t); cbn [negb List.length]; lia.
Qed.

Lemma count_by_map (p : Task -> bool) (l1 l2 : list Task) :
  map p l1 = map p l2 ->
  List.length (List.filter p l1) = List.length (List.filter p l2).
Proof.
  revert l2. induction l1 as [|a l1 IH]; intros [|b l2] Heq;
    try discriminate Heq; [reflexivity|].
  cbn [map] in Heq. injection Heq as Hab Hrest.
  cbn [List.filter]. rewrite Hab. destruct (p b); cbn [List.length];
    rewrite (IH l2 Hrest); reflexivity.
Qed.

(** X27. The four counts of the stand-alone component: completed and
    pending always add up to the total; a check box or a star never
    changes the total; a check box leaves the important count alone and
    a star the completed and pending counts. *)
Theorem counts_of_the_component (i : Z) (st : State) :
  Server.Stats.completed (taskStats st) + Server.Stats.pending (taskStats st)
  = Server.Stats.total (taskStats st)
  /\ Server.Stats.total (taskStats (toggleTask i st))
     = Server.Stats.total (taskStats st)
  /\ Server.Stats.total (taskStats (toggleImportant i st))
     = Server.Stats.total (taskStats st)
  /\ Server.Stats.important (taskStats (toggleTask i st))
     = Server.Stats.important (taskStats st)
  /\ Server.Stats.completed (taskStats (toggleImportant i st))
     = Server.Stats.completed (taskStats st)
  /\ Server.Stats.pending (taskStats (toggleImportant i st))
     = Server.Stats.pending (taskStats st).
Proof.
  unfold taskStats, toggleTask, toggleImportant, setTasks.
  cbn [tasks Server.Stats.total Server.Stats.completed Server.Stats.pending
       Server.Stats.important].
  split; [apply (count_split (fun t => completed t))|].
  split; [apply length_map|]. split; [apply length_map|].
  split; [|split]; apply count_by_map; rewrite map_map; apply map_ext;
    intros t; destruct (Z.eqb (id t) i); reflexivity.
Qed.

Lemma contains_ci_empty (t : string) : contains_ci EmptyString t = true.
Proof. unfold contains_ci. destruct (list_ascii_of_string t); reflexivity. Qed.

(** X28. The list on screen in the stand-alone component: with an empty
    search and the filter [all] (or any value that is not one of the
    three filters) it is the whole list; for one search term, the lists
    of [completed] and of [pending] have no task in common and together
    hold exactly the tasks of the list of [all], as many. *)
Theorem shown_lists_partition (l : list Task) (f s : string) :
  (f <> "completed"%string -> f <> "pending"%string -> f <> "important"%string ->
   filteredTasks l f EmptyString = l)
  /\ (forall t, ~ (In t (filteredTasks l "completed" s)
                   /\ In t (filteredTasks l "pending" s)))
  /\ (forall t, In t (filteredTasks l "all" s)
                <-> In t (filteredTasks l "completed" s)
                    \/ In t (filteredTasks l "pending" s))
  /\ List.length (filteredTasks l "completed" s)
     + List.length (filteredTasks l "pending" s)
     = List.length (filteredTasks l "all" s).
Proof.
  rewrite !ServiceProps.filteredTasks_is_literal. cbn [String.eqb Ascii.eqb Bool.eqb].
  split; [|split; [|split]].
  - intros Hc Hp Hi. apply String.eqb_neq in Hc, Hp, Hi. rewrite Hc, Hp, Hi.
    apply ServiceInvariants.filter_all_true. intros t _.
    rewrite contains_ci_empty. reflexivity.
  - intros t. rewrite !filter_In, !andb_true_iff.
    destruct (completed t); intuition discriminate.
  - intros t. cbn. rewrite !filter_In, !andb_true_iff.
    destruct (completed t); cbn; intuition discriminate.
  - cbn. induction l as [|t l IH]; [reflexivity|].
    cbn [List.filter]. destruct (completed t), (contains_ci s (text t));
      cbn [negb andb List.length]; lia.
Qed.

Lemma shown_lists_partition_witness :
  "all"%string <> "completed"%string /\ "all"%string <> "pending"%string
  /\ "all"%string <> "important"%string
  /\ filteredTasks savedTasks "all" EmptyString = savedTasks.
Proof.
  assert (Hc : "all"%string <> "completed"%string) by discriminate.
  assert (Hp : "all"%string <> "pending"%string) by discriminate.
  assert (Hi : "all"%string <> "important"%string) by discriminate.
  split; [exact Hc|]. split; [exact Hp|]. split; [exact Hi|].
  exact (proj1 (shown_lists_partition savedTasks "all" EmptyString) Hc Hp Hi).
Defined.

End LocalProps.

(** ** The service and the stand-alone component side by side *)

Module Agreement.
Import JsString Server Reading Conditions RegexFacts.

Lemma Forall2_filter {A B : Type} (R : A -> B -> Prop) (p : A -> bool)
    (q : B -> bool) (l1 : list A) (l2 : list B) :
  (forall a b, R a b -> p a = q b) ->
  Forall2 R l1 l2 -> Forall2 R (List.filter p l1) (List.filter q l2).
Proof.
  intros Hpq Hall. induction Hall as [|a b l1 l2 Hab _ IH]; [constructor|].
  cbn [List.filter]. rewrite (Hpq a b Hab). destruct (q b); [constructor|]; assumption.
Qed.

Lemma same_content_selects (f s : string) (a : Task) (b : LocalApp.Task) :
  same_content a b ->
  selects (Some f) a && contains_ci s (text a)
  = (if String.eqb f "completed" then LocalApp.completed b
     else if String.eqb f "pending" then negb (LocalApp.completed b)
     else if String.eqb f "important" then LocalApp.important b
     else true)
    && contains_ci s (LocalApp.text b).
Proof.
  intros (Ht & Hc & Hi). cbn [selects]. rewrite Ht, Hc, Hi. reflexivity.
Qed.

(** X29. On a search term without special characters the route and the
    stand-alone component select alike: if the collection and the
    component's list hold, record by record, the same texts and flags,
    then for every filter the records the route lists are, up to their
    order, the records at the places of the tasks the component
    shows. *)
Theorem route_selects_what_the_component_shows `{StoreSort} (db : Collection)
    (tasks : list LocalApp.Task) (f s : string) :
  Forall2 same_content db tasks -> plain s = true ->
  exists l l0,
    listed (get_tasks db (Some f) (Some s)) = Some l
    /\ Permutation l0 l
    /\ Forall2 same_content l0 (LocalApp.filteredTasks tasks f s).
Proof.
  intros Hsame Hp.
  exists (sort_desc
            (List.filter (fun t => selects (Some f) t && contains_ci s (text t)) db)),
         (List.filter (fun t => selects (Some f) t && contains_ci s (text t)) db).
  split; [|split].
  - destruct s as [|c s'].
    + rewrite (ServiceProps.get_tasks_unsearched db (Some f) (Some EmptyString) eq_refl).
      cbn [listed json status body]. do 2 f_equal. apply filter_ext. intros t.
      rewrite LocalProps.contains_ci_empty, andb_true_r. reflexivity.
    + rewrite (ServiceProps.get_tasks_plain db (Some f) (String c s'));
        [reflexivity|discriminate|exact Hp].
  - apply sort_desc_perm.
  - rewrite ServiceProps.filteredTasks_is_literal.
    apply Forall2_filter; [|exact Hsame].
    intros a b Hab. apply same_content_selects. exact Hab.
Qed.

Lemma route_selects_what_the_component_shows_witness :
  Forall2 same_content [Sample.abc] [Sample.local_abc]
  /\ plain "B" = true
  /\ exists l l0,
       listed (get_tasks (H := SortFacts.stable_sort) [Sample.abc]
                 (Some "pending"%string) (Some "B"%string)) = Some l
       /\ Permutation l0 l
       /\ Forall2 same_content l0
            (LocalApp.filteredTasks [Sample.local_abc] "pending" "B").
Proof.
  assert (Hsame : Forall2 same_content [Sample.abc] [Sample.local_abc]).
  { repeat constructor. }
  split; [exact Hsame|]. split; [reflexivity|].
  exact (route_selects_what_the_component_shows (H := SortFacts.stable_sort)
           [Sample.abc] [Sample.local_abc] "pending" "B" Hsame eq_refl).
Defined.

Lemma Forall2_count {A B : Type} (R : A -> B -> Prop) (p : A -> bool)
    (q : B -> bool) (l1 : list A) (l2 : list B) :
  (forall a b, R a b -> p a = q b) ->
  Forall2 R l1 l2 ->
  List.length (List.filter p l1) = List.length (List.filter q l2).
Proof.
  intros Hpq Hall.
  exact (Forall2_length (Forall2_filter R p q l1 l2 Hpq Hall)).
Qed.

(** X30. The statistics route counts what the stand-alone component
    counts: if the collection and the component's list hold, record by
    record, the same flags, the four counts of [GET /api/tasks/stats]
    are the component's [taskStats]. *)
Theorem stats_route_counts_like_the_component (db : Collection)
    (st : LocalApp.State) :
  Forall2 same_content db (LocalApp.tasks st) ->
  get_stats db = json (StatsJson (LocalApp.taskStats st)).
Proof.
  intros Hsame. rewrite ServiceInvariants.get_stats_recount.
  unfold recount, LocalApp.taskStats. do 2 f_equal. f_equal.
  - exact (Forall2_length Hsame).
  - apply (Forall2_count same_content); [|exact Hsame]. intros a b (_ & Hc & _). exact Hc.
  - apply (Forall2_count same_content); [|exact Hsame].
    intros a b (_ & Hc & _). rewrite Hc. reflexivity.
  - apply (Forall2_count same_content); [|exact Hsame]. intros a b (_ & _ & Hi). exact Hi.
Qed.

Lemma stats_route_counts_like_the_component_witness :
  Forall2 same_content [Sample.abc]
    (LocalApp.tasks (LocalApp.setTasks (fun _ => [Sample.local_abc]) LocalApp.mounted))
  /\ get_stats [Sample.abc]
     = json (StatsJson
          (LocalApp.taskStats
             (LocalApp.setTasks (fun _ => [Sample.local_abc]) LocalApp.mounted))).
Proof.
  assert (Hsame : Forall2 same_content [Sample.abc]
    (LocalApp.tasks (LocalApp.setTasks (fun _ => [Sample.local_abc]) LocalApp.mounted))).
  { repeat constructor. }
  split; [exact Hsame|].
  exact (stats_route_counts_like_the_component [Sample.abc] _ Hsame).
Defined.

End Agreement.

(** ** The routes of [Api] *)

Module ApiFacts.
Import JsString Api ApiReading.

(** *** The store's sort *)

Lemma insert_doc_perm (x : Doc) (l : list Doc) :
  Permutation (x :: l) (insert_doc x l).
Proof.
  induction l as [|y l IH]; cbn [insert_doc]; [reflexivity|].
  destruct (createdAt y <=? createdAt x)%Z; [reflexivity|].
  rewrite perm_swap. constructor. exact IH.
Qed.

Lemma sort_createdAt_desc_perm (l : list Doc) :
  Permutation l (sort_createdAt_desc l).
Proof.
  induction l as [|x l IH]; cbn; [constructor|].
  rewrite <- insert_doc_perm. constructor. exact IH.
Qed.

Lemma insert_doc_sorted (x : Doc) (l : list Doc) :
  StronglySorted (fun a b => (createdAt b <= createdAt a)%Z) l ->
  StronglySorted (fun a b => (createdAt b <= createdAt a)%Z) (insert_doc x l).
Proof.
  induction l as [|y l IH]; intros Hs; cbn [insert_doc].
  - repeat constructor.
  - inversion Hs as [|? ? Hl Hy]; subst.
    destruct (createdAt y <=? createdAt x)%Z eqn:Hcmp.
    + apply Z.leb_le in Hcmp.
      constructor; [exact Hs|]. constructor; [exact Hcmp|].
      eapply Forall_impl; [|exact Hy]. cbn. intros z Hz. lia.
    + apply Z.leb_gt in Hcmp.
      constructor; [apply IH; exact Hl|].
      eapply Permutation_Forall; [apply insert_doc_perm|].
      constructor; [lia|exact Hy].
Qed.

Lemma sort_createdAt_desc_sorted (l : list Doc) :
  StronglySorted (fun a b => (createdAt b <= createdAt a)%Z) (sort_createdAt_desc l).
Proof.
  induction l as [|x l IH]; cbn; [constructor|].
  apply insert_doc_sorted. exact IH.
Qed.



(** The store's sort as it runs meets the contract. *)
Definition stable_store : DocSort := {|
  sort_docs := sort_createdAt_desc;
  sort_docs_perm := sort_createdAt_desc_perm;
  sort_docs_sorted := sort_createdAt_desc_sorted
|}.

(** *** [GET /api/tasks], case by case *)

Lemma matches_selects (filter search : option string)
    (test : option (string -> bool)) (d : Doc) :
  matches (Server.build_query filter search) test d
  = selects filter d && text_ok test (text d).
Proof.
  unfold matches, selects, Server.build_query.
  destruct search as [s|]; [destruct (truthy s)|];
    destruct filter as [f|]; cbn;
    repeat (match goal with
            | |- context [String.eqb ?a ?b] => destruct (String.eqb a b)
            end);
    cbn; destruct (completed d) as [[|]|], (important d) as [[|]|]; reflexivity.
Qed.

Lemma get_tasks_by_test `{DocSort} `{RegexEngine} (db : Collection)
    (filter search : option string) :
  get_tasks db filter search =
  match search_test search with
  | Some test =>
      json (DocsJson
        (sort_docs (List.filter (fun d => selects filter d && text_ok test (text d)) db)))
  | None => status_json 500 (ErrorJson (Caught RegexError))
  end.
Proof.
  unfold get_tasks, find_sorted, search_test.
  rewrite ServiceProps.build_query_text.
  destruct search as [s|]; [destruct (truthy s)|].
  - destruct (regex_i s) as [test|]; cbn [option_map]; [|reflexivity].
    do 3 f_equal. apply filter_ext. intros d. apply matches_selects.
  - do 3 f_equal. apply filter_ext. intros d. apply matches_selects.
  - do 3 f_equal. apply filter_ext. intros d. apply matches_selects.
Qed.

Lemma In_sort_docs `{DocSort} (l : list Doc) (d : Doc) :
  In d (sort_docs l) <-> In d l.
Proof.
  split; apply Permutation_in; [symmetry|]; apply sort_docs_perm.
Qed.

(** *** The statistics, counted *)

Lemma doc_fold_count (p : Doc -> bool) (db : Collection) (n : nat) :
  fold_left (fun acc t => acc + (if p t then 1 else 0)) db n
  = n + List.length (List.filter p db).
Proof.
  revert n. induction db as [|t db IH]; intros n; cbn [fold_left List.filter].
  - cbn. lia.
  - rewrite IH. destruct (p t); cbn [List.length]; lia.
Qed.

Lemma fold_add_ext (f g : Doc -> nat) (db : Collection) (n : nat) :
  (forall d, f d = g d) ->
  fold_left (fun acc t => acc + f t) db n = fold_left (fun acc t => acc + g t) db n.
Proof.
  intros Hfg. revert n. induction db as [|t db IH]; intros n; [reflexivity|].
  cbn [fold_left]. rewrite Hfg. apply IH.
Qed.

Lemma sum_cond_eq_true (field : Doc -> option bool) (db : Collection) :
  sum_cond_eq field true db = List.length (List.filter (fun d => is_true (field d)) db).
Proof.
  unfold sum_cond_eq.
  rewrite (fold_add_ext _ (fun d => if is_true (field d) then 1 else 0)).
  - rewrite doc_fold_count. reflexivity.
  - intros d. destruct (field d) as [[|]|]; reflexivity.
Qed.

Lemma sum_cond_eq_false (field : Doc -> option bool) (db : Collection) :
  sum_cond_eq field false db = List.length (List.filter (fun d => is_false (field d)) db).
Proof.
  unfold sum_cond_eq.
  rewrite (fold_add_ext _ (fun d => if is_false (field d) then 1 else 0)).
  - rewrite doc_fold_count. reflexivity.
  - intros d. destruct (field d) as [[|]|]; reflexivity.
Qed.

Lemma doc_fold_total (db : Collection) (n : nat) :
  fold_left (fun acc (_ : Doc) => acc + 1) db n = n + List.length db.
Proof.
  revert n. induction db as [|t db IH]; intros n; cbn [fold_left List.length].
  - lia.
  - rewrite IH. lia.
Qed.

Lemma doc_get_stats_recount (db : Collection) :
  get_stats db = json (StatsJson (recount db)).
Proof.
  destruct db as [|t db]; [reflexivity|].
  unfold get_stats, aggregate_group, recount.
  rewrite !sum_cond_eq_true, sum_cond_eq_false, doc_fold_total. reflexivity.
Qed.


(** *** Searching the collection for an identifier *)

Lemma doc_unknown_cons (oid : ObjectId) (t : Doc) (db : Collection) :
  unknown oid (t :: db) <-> String.eqb (_id t) oid = false /\ unknown oid db.
Proof.
  unfold unknown. rewrite String.eqb_neq. split.
  - intros Hu. split; [apply Hu; left; reflexivity|].
    intros x Hx. apply Hu. right. exact Hx.
  - intros [Ht Hu] x [<-|Hx]; auto.
Qed.

Lemma doc_unknown_not_In (oid : ObjectId) (db : Collection) :
  unknown oid db <-> ~ In oid (map _id db).
Proof.
  unfold unknown. rewrite in_map_iff. split.
  - intros Hu (t & Ht & Hin). exact (Hu t Hin Ht).
  - intros Hn t Hin Ht. apply Hn. exists t. auto.
Qed.

Lemma doc_update_first_unknown (oid : ObjectId) (d : UpdateData) (db : Collection) :
  unknown oid db -> update_first oid d db = (db, None).
Proof.
  induction db as [|t db IH]; intros Hu; [reflexivity|].
  apply doc_unknown_cons in Hu as [Ht Hu].
  cbn [update_first]. rewrite Ht, (IH Hu). reflexivity.
Qed.

Lemma remove_first_unknown (oid : ObjectId) (db : Collection) :
  unknown oid db -> remove_first oid db = (db, None).
Proof.
  induction db as [|t db IH]; intros Hu; [reflexivity|].
  apply doc_unknown_cons in Hu as [Ht Hu].
  cbn [remove_first]. rewrite Ht, (IH Hu). reflexivity.
Qed.

Lemma doc_filter_unknown (oid : ObjectId) (db : Collection) :
  unknown oid db ->
  List.filter (fun t => negb (String.eqb (_id t) oid)) db = db.
Proof.
  induction db as [|t db IH]; intros Hu; [reflexivity|].
  apply doc_unknown_cons in Hu as [Ht Hu].
  cbn [List.filter]. rewrite Ht, (IH Hu). reflexivity.
Qed.

Lemma remove_first_known (oid : ObjectId) (db : Collection) :
  NoDup (map _id db) -> In oid (map _id db) ->
  exists old,
    In old db /\ _id old = oid
    /\ remove_first oid db
       = (List.filter (fun t => negb (String.eqb (_id t) oid)) db, Some old).
Proof.
  induction db as [|t db IH]; intros Hnd Hin; [destruct Hin|].
  cbn [map] in Hnd. inversion Hnd as [|? ? Hnotin Hnd']; subst.
  cbn [remove_first List.filter].
  destruct (String.eqb (_id t) oid) eqn:Ht.
  - apply String.eqb_eq in Ht. subst oid. exists t.
    split; [left; reflexivity|]. split; [reflexivity|].
    cbn [negb]. rewrite doc_filter_unknown; [reflexivity|].
    apply doc_unknown_not_In. exact Hnotin.
  - destruct Hin as [Heq|Hin].
    + apply String.eqb_neq in Ht. contradiction.
    + destruct (IH Hnd' Hin) as (old & Hold & Hid & ->).
      exists old. split; [right; exact Hold|]. split; [exact Hid|reflexivity].
Qed.

Lemma delete_task_cast (db : Collection) (id : string) (oid : ObjectId) :
  castObjectId id = Some oid ->
  delete_task db id =
  match remove_first oid db with
  | (db', None) =>
      (db', status_json 404 (ErrorJson (RouteMessage "Task not found"%string)))
  | (db', Some _) => (db', json (MessageJson "Task deleted successfully"%string))
  end.
Proof.
  intros Hc. unfold delete_task, findByIdAndDelete. rewrite Hc.
  destruct (remove_first oid db) as [db' [t|]]; reflexivity.
Qed.

Lemma delete_task_uncast (db : Collection) (id : string) :
  castObjectId id = None ->
  delete_task db id = (db, status_json 500 (ErrorJson (Caught CastError))).
Proof.
  intros Hc. unfold delete_task, findByIdAndDelete. rewrite Hc. reflexivity.
Qed.

Lemma delete_task_then_unknown (db : Collection) (id : string) (oid : ObjectId) :
  castObjectId id = Some oid -> NoDup (map _id db) ->
  unknown oid (fst (delete_task db id)).
Proof.
  intros Hc Hnd. rewrite (delete_task_cast db id oid Hc).
  destruct (in_dec string_dec oid (map _id db)) as [Hin|Hnin].
  - destruct (remove_first_known oid db Hnd Hin) as (old & _ & _ & ->).
    cbn [fst]. intros t Ht. apply filter_In in Ht as [_ Ht].
    apply negb_true_iff, String.eqb_neq in Ht. exact Ht.
  - apply doc_unknown_not_In in Hnin. rewrite (remove_first_unknown oid db Hnin).
    exact Hnin.
Qed.

End ApiFacts.

(** ** Properties of the routes on any request *)

Module ApiProps.
Import JsString Api ApiReading ApiFacts.

(** *** Update and delete *)

(** C4, as the code has it. When [:id] is not the text of an identifier
    the store can hold, no record has it: an update is answered 400 and
    a delete 500, and the collection is left as it was. When it is the
    text of an identifier that no record has, the collection is left as
    it was as well; a delete is answered 404, and so is an update,
    unless its text trims to empty or a value in it is of a type the
    route or the store cannot take, which is answered 400 before the
    collection is searched. A delete of an identifier that a record has
    removes that record, leaves no record with it, and answers with a
    confirmation message. *)
Theorem absent_id_changes_nothing (now : Z) (db : Collection) (id : string)
    (req : UpdateBody) :
  (castObjectId id = None ->
   fst (put_task now db id req) = db
   /\ status (snd (put_task now db id req)) = 400
   /\ delete_task db id = (db, status_json 500 (ErrorJson (Caught CastError))))
  /\ (forall oid,
        castObjectId id = Some oid -> unknown oid db ->
        fst (put_task now db id req) = db
        /\ (update_ok req = true ->
            snd (put_task now db id req)
            = status_json 404 (ErrorJson (RouteMessage "Task not found"%string)))
        /\ (update_ok req = false -> status (snd (put_task now db id req)) = 400)
        /\ delete_task db id
           = (db, status_json 404 (ErrorJson (RouteMessage "Task not found"%string))))
  /\ (forall oid,
        castObjectId id = Some oid -> NoDup (map _id db) -> In oid (map _id db) ->
        delete_task db id
        = (List.filter (fun t => negb (String.eqb (_id t) oid)) db,
           json (MessageJson "Task deleted successfully"%string))
        /\ unknown oid (fst (delete_task db id))
        /\ S (List.length (fst (delete_task db id))) = List.length db).
Proof.
  split; [|split].
  - intros Hc. split; [|split; [|apply delete_task_uncast; exact Hc]];
      unfold put_task, findByIdAndUpdate; rewrite Hc;
      destruct (u_text req) as [[| | |s|]|]; reflexivity.
  - intros oid Hc Hu.
    assert (Hput : forall text,
      (let (db', r) :=
         update_first oid text db in (db', @inl (option Doc) Failure r))
      = (db, inl None)).
    { intros d. rewrite (doc_update_first_unknown oid d db Hu). reflexivity. }
    split; [|split; [|split]].
    + unfold put_task, findByIdAndUpdate. rewrite Hc.
      destruct (u_text req) as [[| | |s|]|]; try reflexivity;
        destruct (cast_flag (u_completed req)), (cast_flag (u_important req));
        try reflexivity; cbn; try destruct (truthy (trim s)); try reflexivity;
        rewrite Hput; reflexivity.
    + unfold update_ok, put_task, findByIdAndUpdate. rewrite Hc.
      destruct (u_text req) as [[| | |s|]|]; cbn; try discriminate;
        destruct (cast_flag (u_completed req)), (cast_flag (u_important req));
        cbn; try discriminate; try (rewrite andb_false_r; discriminate);
        try destruct (truthy (trim s)); cbn; try discriminate;
        intros _; rewrite Hput; reflexivity.
    + unfold update_ok, put_task, findByIdAndUpdate. rewrite Hc.
      destruct (u_text req) as [[| | |s|]|]; cbn; try reflexivity;
        destruct (cast_flag (u_completed req)), (cast_flag (u_important req));
        cbn; try reflexivity; try destruct (truthy (trim s)); cbn;
        try reflexivity; intros Hf; discriminate Hf.
    + rewrite (delete_task_cast db id oid Hc), (remove_first_unknown oid db Hu).
      reflexivity.
  - intros oid Hc Hnd Hin.
    assert (Hu := delete_task_then_unknown db id oid Hc Hnd).
    destruct (remove_first_known oid db Hnd Hin) as (old & Hold & Hid & Hdel).
    assert (Hdt : delete_task db id
                  = (List.filter (fun t => negb (String.eqb (_id t) oid)) db,
                     json (MessageJson "Task deleted successfully"%string))).
    { rewrite (delete_task_cast db id oid Hc), Hdel. reflexivity. }
    split; [exact Hdt|]. split; [exact Hu|].
    rewrite Hdt. cbn [fst]. clear Hdt Hdel Hu Hc. subst oid.
    revert Hnd Hin Hold. induction db as [|t db IH]; intros Hnd Hin Hold;
      [destruct Hin|].
    cbn [map] in Hnd. inversion Hnd as [|? ? Hnotin Hnd']; subst.
    cbn [List.filter List.length].
    destruct (String.eqb (_id t) (_id old)) eqn:Ht; cbn [negb List.length].
    + rewrite doc_filter_unknown; [reflexivity|].
      apply String.eqb_eq in Ht. rewrite <- Ht.
      apply doc_unknown_not_In. exact Hnotin.
    + f_equal. apply String.eqb_neq in Ht.
      destruct Hold as [->|Hold]; [contradiction|].
      apply IH; [exact Hnd'| apply in_map; exact Hold |exact Hold].
Qed.

Lemma absent_id_changes_nothing_witness :
  (castObjectId "banana" = None
   /\ delete_task [ApiSample.alpha; ApiSample.beta] "banana"
      = ([ApiSample.alpha; ApiSample.beta],
         status_json 500 (ErrorJson (Caught CastError))))
  /\ (castObjectId "65F0A2000000000000000003" = Some ApiSample.oid3
      /\ unknown ApiSample.oid3 [ApiSample.alpha; ApiSample.beta]
      /\ snd (put_task 9000 [ApiSample.alpha; ApiSample.beta]
                "65F0A2000000000000000003" (ApiSample.completed_only (JBool true)))
         = status_json 404 (ErrorJson (RouteMessage "Task not found"%string)))
  /\ (castObjectId ApiSample.oid1 = Some ApiSample.oid1
      /\ NoDup (map _id [ApiSample.alpha; ApiSample.beta])
      /\ In ApiSample.oid1 (map _id [ApiSample.alpha; ApiSample.beta])
      /\ delete_task [ApiSample.alpha; ApiSample.beta] ApiSample.oid1
         = ([ApiSample.beta], json (MessageJson "Task deleted successfully"%string))).
Proof.
  assert (Hu : unknown ApiSample.oid3 [ApiSample.alpha; ApiSample.beta]).
  { intros t [<-|[<-|[]]]; discriminate. }
  assert (Hnd : NoDup (map _id [ApiSample.alpha; ApiSample.beta])).
  { repeat constructor; cbn; intuition discriminate. }
  assert (Hin : In ApiSample.oid1 (map _id [ApiSample.alpha; ApiSample.beta])).
  { left. reflexivity. }
  split; [|split].
  - split; [reflexivity|].
    exact (proj2 (proj2 (proj1
      (absent_id_changes_nothing 9000 [ApiSample.alpha; ApiSample.beta] "banana"
         (ApiSample.completed_only (JBool true))) eq_refl))).
  - split; [reflexivity|]. split; [exact Hu|].
    exact (proj1 (proj2 (proj1 (proj2
      (absent_id_changes_nothing 9000 [ApiSample.alpha; ApiSample.beta]
         "65F0A2000000000000000003" (ApiSample.completed_only (JBool true))))
      ApiSample.oid3 eq_refl Hu)) eq_refl).
  - split; [reflexivity|]. split; [exact Hnd|]. split; [exact Hin|].
    exact (proj1 (proj2 (proj2
      (absent_id_changes_nothing 9000 [ApiSample.alpha; ApiSample.beta]
         ApiSample.oid1 (ApiSample.completed_only (JBool true))))
      ApiSample.oid1 eq_refl Hnd Hin)).
Defined.

(** C4, as stated, fails. No record has the id [banana], and none has
    the identifier [65f0a2000000000000000003]; yet a delete of [banana]
    is answered 500 and an update of it 400, and an update of the
    identifier with a text of white space only is answered 400. None is
    answered 404. (The collection is unchanged in each case.) *)
Lemma absent_id_is_not_always_404 :
  (forall t, In t [ApiSample.alpha] -> _id t <> "banana"%string)
  /\ delete_task [ApiSample.alpha] "banana"
     = ([ApiSample.alpha], status_json 500 (ErrorJson (Caught CastError)))
  /\ put_task 9000 [ApiSample.alpha] "banana" (ApiSample.completed_only (JBool true))
     = ([ApiSample.alpha], status_json 400 (ErrorJson (Caught CastError)))
  /\ unknown ApiSample.oid3 [ApiSample.alpha]
  /\ put_task 9000 [ApiSample.alpha] ApiSample.oid3
       {| u_text := Some (JStr "   "); u_completed := None; u_important := None |}
     = ([ApiSample.alpha], status_json 400 (ErrorJson (Caught ValidationError))).
Proof.
  split; [intros t [<-|[]]; discriminate|].
  split; [reflexivity|]. split; [reflexivity|].
  split; [intros t [<-|[]]; discriminate|reflexivity].
Qed.

(** X8. A delete is not repeatable. For an identifier the store can hold
    and a collection with distinct identifiers, a second delete of it is
    answered 404 and changes nothing, whatever the first one answered.
    For an [:id] that is not the text of an identifier, both are
    answered 500 and change nothing. *)
Theorem second_delete_changes_nothing (db : Collection) (id : string) :
  (forall oid,
     castObjectId id = Some oid -> NoDup (map _id db) ->
     delete_task (fst (delete_task db id)) id
     = (fst (delete_task db id),
        status_json 404 (ErrorJson (RouteMessage "Task not found"%string))))
  /\ (castObjectId id = None ->
      delete_task db id = (db, status_json 500 (ErrorJson (Caught CastError)))
      /\ delete_task (fst (delete_task db id)) id
         = (db, status_json 500 (ErrorJson (Caught CastError)))).
Proof.
  split.
  - intros oid Hc Hnd.
    pose proof (delete_task_then_unknown db id oid Hc Hnd) as Hu.
    rewrite (delete_task_cast (fst (delete_task db id)) id oid Hc).
    rewrite (remove_first_unknown _ _ Hu). reflexivity.
  - intros Hc. rewrite !(delete_task_uncast db id Hc). cbn [fst].
    rewrite (delete_task_uncast db id Hc). split; reflexivity.
Qed.

Lemma second_delete_changes_nothing_witness :
  castObjectId ApiSample.oid1 = Some ApiSample.oid1
  /\ NoDup (map _id [ApiSample.alpha; ApiSample.beta])
  /\ fst (delete_task [ApiSample.alpha; ApiSample.beta] ApiSample.oid1)
     = [ApiSample.beta]
  /\ delete_task (fst (delete_task [ApiSample.alpha; ApiSample.beta] ApiSample.oid1))
       ApiSample.oid1
     = (fst (delete_task [ApiSample.alpha; ApiSample.beta] ApiSample.oid1),
        status_json 404 (ErrorJson (RouteMessage "Task not found"%string))).
Proof.
  assert (Hnd : NoDup (map _id [ApiSample.alpha; ApiSample.beta])).
  { repeat constructor; cbn; intuition discriminate. }
  split; [reflexivity|]. split; [exact Hnd|]. split; [reflexivity|].
  exact (proj1 (second_delete_changes_nothing [ApiSample.alpha; ApiSample.beta]
                  ApiSample.oid1) ApiSample.oid1 eq_refl Hnd).
Defined.

(** *** Create *)

(** C3, as the code has it. [POST /api/tasks] answers 400 or 201. It
    answers 400, and stores nothing, exactly when [text] is not a string
    that trims to something (it is absent, not a string, empty or white
    space only) or [important] is given and is not a value the schema
    casts to a boolean. Otherwise it answers 201 with the record it has
    stored last: the text trimmed, [completed] false, and [important]
    as cast from the input, false when not given. *)
Theorem create_answers_400_or_stores (oid : ObjectId) (t_new t_save : Z)
    (db : Collection) (req : CreateBody) :
  (status (snd (post_tasks oid t_new t_save db req)) = 400
   \/ status (snd (post_tasks oid t_new t_save db req)) = 201)
  /\ (status (snd (post_tasks oid t_new t_save db req)) = 400
      <-> text_given req = None \/ important_given req = None)
  /\ (status (snd (post_tasks oid t_new t_save db req)) = 400 ->
      fst (post_tasks oid t_new t_save db req) = db)
  /\ (forall s imp,
        text_given req = Some s -> important_given req = Some imp ->
        post_tasks oid t_new t_save db req
        = (db ++ [ {| _id := oid; text := trim s; completed := Some false;
                      important := imp; createdAt := t_new;
                      updatedAt := t_save |} ],
           status_json 201
             (DocJson {| _id := oid; text := trim s; completed := Some false;
                         important := imp; createdAt := t_new;
                         updatedAt := t_save |}))).
Proof.
  unfold post_tasks, text_given, important_given.
  destruct (c_text req) as [[|b|n|s|]|]; cbn [truthy_value negb].
  1,6: repeat split; auto; try discriminate; intros; discriminate.
  - destruct b; cbn; repeat split; auto; try discriminate; intros; discriminate.
  - destruct (Z.eqb n 0); cbn; repeat split; auto; try discriminate;
      intros; discriminate.
  - destruct s as [|c s]; [cbn; repeat split; auto; try discriminate;
                           intros; discriminate|].
    cbn [truthy negb].
    destruct (String.eqb (trim (String c s)) EmptyString);
      [cbn; repeat split; auto; try discriminate; intros; discriminate|].
    destruct (c_important req) as [v|].
    + destruct (castBoolean v) as [imp|]; cbn.
      * split; [right; reflexivity|]. split; [split; [discriminate|]|].
        { intros [H|H]; discriminate H. }
        split; [discriminate|]. intros s0 imp0 Hs Hi.
        injection Hs as <-. injection Hi as <-. reflexivity.
      * repeat split; auto; try discriminate; intros; discriminate.
    + cbn. split; [right; reflexivity|]. split; [split; [discriminate|]|].
      { intros [H|H]; discriminate H. }
      split; [discriminate|]. intros s0 imp0 Hs Hi.
      injection Hs as <-. injection Hi as <-. reflexivity.
  - cbn. repeat split; auto; try discriminate; intros; discriminate.
Qed.

Lemma create_answers_400_or_stores_witness :
  text_given (ApiSample.text_only " buy milk ") = Some " buy milk "%string
  /\ important_given (ApiSample.text_only " buy milk ") = Some (Some false)
  /\ post_tasks ApiSample.oid3 7000 7001 [ApiSample.alpha]
       (ApiSample.text_only " buy milk ")
     = ([ApiSample.alpha;
         ApiSample.mk ApiSample.oid3 "buy milk" (Some false) (Some false) 7000 7001],
        status_json 201
          (DocJson (ApiSample.mk ApiSample.oid3 "buy milk" (Some false) (Some false)
                      7000 7001))).
Proof.
  split; [reflexivity|]. split; [reflexivity|].
  exact (proj2 (proj2 (proj2
    (create_answers_400_or_stores ApiSample.oid3 7000 7001 [ApiSample.alpha]
       (ApiSample.text_only " buy milk ")))) " buy milk "%string (Some false)
    eq_refl eq_refl).
Defined.

(** C3, as stated, fails: a create with the text [a], which is neither
    absent nor blank, is answered 400 when [important] is [maybe], and
    a create with the number [5] as its text is answered 400 as well;
    neither stores anything. *)
Lemma create_refused_with_a_text :
  trim "a" = "a"%string
  /\ post_tasks ApiSample.oid3 7000 7001 [ApiSample.alpha]
       {| c_text := Some (JStr "a"); c_important := Some (JStr "maybe") |}
     = ([ApiSample.alpha], status_json 400 (ErrorJson (Caught ValidationError)))
  /\ post_tasks ApiSample.oid3 7000 7001 [ApiSample.alpha]
       {| c_text := Some (JNum 5); c_important := None |}
     = ([ApiSample.alpha], status_json 400 (ErrorJson (Caught TypeError))).
Proof. repeat split. Qed.

(** *** Statistics *)




(** *** Filter and order *)






(** X12. For one [search] and one collection, [filter=important] lists
    exactly the records of the [filter=all] list whose [important] is
    true; when the store refuses [search], it gets the answer that
    [filter=all] gets. *)
Theorem important_lists_the_important `{DocSort} `{RegexEngine} (db : Collection)
    (search : option string) :
  (forall la,
     listed (get_tasks db (Some "all"%string) search) = Some la ->
     exists li,
       listed (get_tasks db (Some "important"%string) search) = Some li
       /\ forall t, In t li <-> In t la /\ important t = Some true)
  /\ (listed (get_tasks db (Some "all"%string) search) = None ->
      get_tasks db (Some "important"%string) search
      = get_tasks db (Some "all"%string) search
      /\ status (get_tasks db (Some "all"%string) search) = 500).
Proof.
  rewrite !get_tasks_by_test.
  destruct (search_test search) as [test|]; cbn [listed json status_json status body];
    (split; [|intros Hnone; try discriminate Hnone; split; reflexivity]);
    intros la Hla; try discriminate Hla.
  injection Hla as <-. eexists. split; [reflexivity|].
  intros t. rewrite !In_sort_docs, !filter_In, !andb_true_iff. cbn.
  destruct (important t) as [[|]|]; intuition (try discriminate; try congruence).
Qed.

Lemma important_lists_the_important_witness :
  listed (get_tasks (H := stable_store) (H0 := fragment_engine)
            [ApiSample.alpha; ApiSample.beta] (Some "all"%string) (Some "A"%string))
  = Some [ApiSample.beta; ApiSample.alpha]
  /\ exists li,
       listed (get_tasks (H := stable_store) (H0 := fragment_engine)
                 [ApiSample.alpha; ApiSample.beta] (Some "important"%string)
                 (Some "A"%string)) = Some li
       /\ forall t, In t li
                    <-> In t [ApiSample.beta; ApiSample.alpha]
                        /\ important t = Some true.
Proof.
  split; [reflexivity|].
  exact (proj1 (important_lists_the_important (H := stable_store)
                  (H0 := fragment_engine) [ApiSample.alpha; ApiSample.beta]
                  (Some "A"%string))
           [ApiSample.beta; ApiSample.alpha] eq_refl).
Defined.

End ApiProps.

(** ** [Server] is [Api] on the requests of the declared types *)

Module TypedRequests.
Import JsString Api.

Lemma post_tasks_typed (oid : ObjectId) (t_new t_save : Z)
    (db : Server.Collection) (req : Server.CreateBody) :
  post_tasks oid t_new t_save (map doc_of db) (create_body_of req)
  = (map doc_of (fst (Server.post_tasks oid t_new t_save db req)),
     response_of (snd (Server.post_tasks oid t_new t_save db req))).
Proof.
  unfold post_tasks, Server.post_tasks, create_body_of. cbn [c_text c_important].
  destruct (Server.c_text req) as [s|]; cbn [option_map truthy_value negb];
    [|reflexivity].
  destruct (truthy s); cbn [negb orb]; [|reflexivity].
  destruct (String.eqb (trim s) EmptyString); [reflexivity|].
  destruct (Server.c_important req) as [b|]; cbn [option_map castBoolean fst snd];
    rewrite map_app; reflexivity.
Qed.

Lemma update_first_typed (id : string) (d : Server.UpdateData)
    (db : Server.Collection) :
  update_first id
    {| d_text := Server.d_text d;
       d_completed := option_map Some (Server.d_completed d);
       d_important := option_map Some (Server.d_important d);
       d_updatedAt := Server.d_updatedAt d |} (map doc_of db)
  = (map doc_of (fst (Server.update_first id d db)),
     option_map doc_of (snd (Server.update_first id d db))).
Proof.
  induction db as [|t db IH]; [reflexivity|].
  cbn [map update_first Server.update_first]. cbn [doc_of _id].
  destruct (String.eqb (Server._id t) id).
  - cbn [fst snd map option_map]. unfold apply_update, Server.apply_update, doc_of.
    cbn. destruct (Server.d_text d), (Server.d_completed d), (Server.d_important d);
      reflexivity.
  - rewrite IH. destruct (Server.update_first id d db) as [rest r]. reflexivity.
Qed.

Lemma cast_flag_typed (o : option bool) :
  cast_flag (option_map JBool o) = Some (option_map Some o).
Proof. destruct o; reflexivity. Qed.

Lemma put_task_typed (now : Z) (db : Server.Collection) (id : string)
    (req : Server.UpdateBody) :
  castObjectId id = Some id ->
  put_task now (map doc_of db) id (update_body_of req)
  = (map doc_of (fst (Server.put_task now db id req)),
     response_of (snd (Server.put_task now db id req))).
Proof.
  intros Hc.
  unfold put_task, findByIdAndUpdate, Server.put_task, Server.findByIdAndUpdate,
    Server.update_valid, update_body_of.
  cbn [u_text u_completed u_important Server.d_text]. rewrite Hc, !cast_flag_typed.
  destruct (Server.u_text req) as [s|]; cbn [option_map].
  - destruct (truthy (trim s)); [|reflexivity].
    pose proof (update_first_typed id
      {| Server.d_text := Some (trim s); Server.d_completed := Server.u_completed req;
         Server.d_important := Server.u_important req; Server.d_updatedAt := now |} db)
      as Hup.
    cbn [Server.d_text Server.d_completed Server.d_important Server.d_updatedAt] in Hup.
    rewrite Hup. destruct (Server.update_first _ _ db) as [db' [t|]]; reflexivity.
  - pose proof (update_first_typed id
      {| Server.d_text := None; Server.d_completed := Server.u_completed req;
         Server.d_important := Server.u_important req; Server.d_updatedAt := now |} db)
      as Hup.
    cbn [Server.d_text Server.d_completed Server.d_important Server.d_updatedAt] in Hup.
    rewrite Hup. destruct (Server.update_first _ _ db) as [db' [t|]]; reflexivity.
Qed.

Lemma remove_first_typed (id : string) (db : Server.Collection) :
  remove_first id (map doc_of db)
  = (map doc_of (fst (Server.findByIdAndDelete id db)),
     option_map doc_of (snd (Server.findByIdAndDelete id db))).
Proof.
  induction db as [|t db IH]; [reflexivity|].
  cbn [map remove_first Server.findByIdAndDelete]. cbn [doc_of _id].
  destruct (String.eqb (Server._id t) id); [reflexivity|].
  rewrite IH. destruct (Server.findByIdAndDelete id db) as [rest r]. reflexivity.
Qed.

Lemma delete_task_typed (db : Server.Collection) (id : string) :
  castObjectId id = Some id ->
  delete_task (map doc_of db) id
  = (map doc_of (fst (Server.delete_task db id)),
     response_of (snd (Server.delete_task db id))).
Proof.
  intros Hc. unfold delete_task, findByIdAndDelete, Server.delete_task.
  rewrite Hc, remove_first_typed.
  destruct (Server.findByIdAndDelete id db) as [db' [t|]]; reflexivity.
Qed.

Lemma count_typed (p : Doc -> bool) (q : Server.Task -> bool)
    (db : Server.Collection) :
  (forall t, p (doc_of t) = q t) ->
  List.length (List.filter p (map doc_of db)) = List.length (List.filter q db).
Proof.
  intros Hpq. induction db as [|t db IH]; [reflexivity|].
  cbn [map List.filter]. rewrite Hpq. destruct (q t); cbn [List.length];
    rewrite IH; reflexivity.
Qed.

Lemma get_stats_typed (db : Server.Collection) :
  get_stats (map doc_of db) = response_of (Server.get_stats db).
Proof.
  rewrite ApiFacts.doc_get_stats_recount, ServiceInvariants.get_stats_recount.
  unfold response_of, json, Server.json. cbn [Server.status Server.body].
  do 2 f_equal. unfold ApiReading.recount, Reading.recount.
  rewrite length_map. f_equal; apply count_typed; intros t; cbn;
    destruct (Server.completed t), (Server.important t); reflexivity.
Qed.

End TypedRequests.

(** ** The client against the routes of [Api] *)

Module ClientApi.
Import JsString Client.

(** X14. [addTask] sends nothing and changes nothing when the compose
    text is blank. Otherwise it sends one create request, whose text is
    the compose text trimmed and which names no importance; the service
    never refuses such a request: whatever the collection, it is
    answered 201, and the record stored has that text, is not completed
    and is not important. *)
Theorem compose_text_is_sent_trimmed (st : State) :
  (truthy (trim (newTask st)) = false -> addTask_call st = (st, None))
  /\ (truthy (trim (newTask st)) = true ->
      addTask_call st
      = (st, Some (POST_tasks {| Server.c_text := Some (trim (newTask st));
                                 Server.c_important := None |}))
      /\ forall oid t_new t_save db,
           Api.post_tasks oid t_new t_save db
             (Api.create_body_of {| Server.c_text := Some (trim (newTask st));
                                    Server.c_important := None |})
           = (db ++ [ {| Api._id := oid; Api.text := trim (newTask st);
                         Api.completed := Some false;
                         Api.important := Some false;
                         Api.createdAt := t_new; Api.updatedAt := t_save |} ],
              Api.status_json 201
                (Api.DocJson {| Api._id := oid; Api.text := trim (newTask st);
                                Api.completed := Some false;
                                Api.important := Some false;
                                Api.createdAt := t_new;
                                Api.updatedAt := t_save |}))).
Proof.
  unfold addTask_call. split; intros Ht; rewrite Ht; [reflexivity|].
  split; [reflexivity|]. intros oid t_new t_save db.
  unfold Api.post_tasks, Api.create_body_of.
  cbn [Server.c_text Server.c_important option_map Api.c_text Api.c_important
       Api.truthy_value Api.castBoolean].
  rewrite Ht, RegexFacts.trim_idempotent. cbn [negb].
  assert (Hne : String.eqb (trim (newTask st)) EmptyString = false).
  { apply String.eqb_neq, RegexFacts.truthy_iff. exact Ht. }
  rewrite Hne. reflexivity.
Qed.

Lemma compose_text_is_sent_trimmed_witness :
  truthy (trim (newTask Sample.composing)) = true
  /\ addTask_call Sample.composing
     = (Sample.composing,
        Some (POST_tasks {| Server.c_text := Some "call Bob"%string;
                            Server.c_important := None |})).
Proof.
  split; [reflexivity|].
  exact (proj1 (proj2 (compose_text_is_sent_trimmed Sample.composing) eq_refl)).
Defined.

End ClientApi.
